(** * Course scheduler: the CP model builder, the extractor and the commit
      operation, embedded from the Python sources.

    Sources embedded here:
    - [scheduler/models/domain.py]      the value types;
    - [scheduler/solvers/cpsat.py]      [CPSATSolver] (variables, assignment
                                        shape, hard and soft constraints,
                                        extraction);
    - [scheduler/constraints/hard.py]   the hard constraint generators;
    - [scheduler/constraints/soft.py]   the penalty generators;
    - [scheduler/api/routes.py]         [validate_input];
    - [scheduler/db/repository.py]      [commit_schedule_version].

    Conventions.
    - A UUID is a 128-bit number, kept as [N].
    - A Python [float] is the rational ([Q]) it stands for; [int(x)] truncates
      toward zero, and the one float product of the code, [x * 10], is
      rounded to the nearest float before it is truncated.  The non-finite
      floats are not modelled.
    - A [datetime.time] is its four fields; comparison is lexicographic.
    - A Python [dict] is an association list in insertion order: assignment to
      an existing key keeps the position of the key, as in CPython.
    - A Python [set]/[frozenset] is a list read up to order and repetition;
      iterating it visits the first occurrences, in list order.
    - The OR-tools model under construction is the list of its variables
      (index = position) and the list of its constraints, both in creation
      order.  A solution is a valuation of the variable indices.
    - A UUID and a model object are true in a Python condition; [None] and an
      empty collection are false.  An OR-tools variable handle has no truth
      value: asking for it raises [NotImplementedError].
    - String fields that no embedded function reads (names, codes, section
      numbers) are left out of the records. *)

From Stdlib Require Import List ZArith NArith Bool Lia QArith String.
Import ListNotations.
Local Open Scope Z_scope.

Set Implicit Arguments.

(* ===================================================================== *)
(** ** Python values                                                      *)
(* ===================================================================== *)

Definition UUID := N.

Definition uuid_eqb (a b : UUID) : bool := N.eqb a b.

(** [x in xs] for a tuple, list or set of UUIDs. *)
Definition mem (x : UUID) (xs : list UUID) : bool := existsb (uuid_eqb x) xs.

(** [set(xs)] read as the list of first occurrences. *)
Fixpoint set_of (xs : list UUID) : list UUID :=
  match xs with
  | [] => []
  | x :: r => x :: filter (fun y => negb (uuid_eqb x y)) (set_of r)
  end.

(** [a | b], [a - b] and [a & b] on sets. *)
Definition set_union (a b : list UUID) : list UUID := set_of (a ++ b).
Definition set_diff (a b : list UUID) : list UUID :=
  filter (fun x => negb (mem x b)) a.
Definition set_inter (a b : list UUID) : list UUID :=
  filter (fun x => mem x b) a.

(** Python exceptions that the embedded code can raise. *)
Inductive exn := TypeError | NotImplementedError.

Inductive result (A : Type) :=
| Ok (a : A)
| Raise (e : exn).
Arguments Ok {A} a.
Arguments Raise {A} e.

(** *** Dictionaries *)

Section Dict.
Variables K V : Type.
Variable eqb : K -> K -> bool.

Definition dict := list (K * V).

Fixpoint dict_get (k : K) (d : dict) : option V :=
  match d with
  | [] => None
  | (k', v) :: r => if eqb k k' then Some v else dict_get k r
  end.

(** [d[k] = v] *)
Fixpoint dict_set (k : K) (v : V) (d : dict) : dict :=
  match d with
  | [] => [(k, v)]
  | (k', v') :: r =>
      if eqb k k' then (k', v) :: r else (k', v') :: dict_set k v r
  end.

Definition dict_keys (d : dict) : list K := map fst d.

(** [k in d] *)
Definition dict_has (k : K) (d : dict) : bool :=
  match dict_get k d with Some _ => true | None => false end.

End Dict.

Definition Key2 := (UUID * UUID)%type.
Definition Key3 := (UUID * UUID * UUID)%type.

Definition key2_eqb (a b : Key2) : bool :=
  uuid_eqb (fst a) (fst b) && uuid_eqb (snd a) (snd b).

Definition key3_eqb (a b : Key3) : bool :=
  key2_eqb (fst a) (fst b) && uuid_eqb (snd a) (snd b).

(** *** [datetime.time] *)

Record time := mk_time {
  hour : Z;
  minute : Z;
  second : Z;
  microsecond : Z
}.

(** [a < b] and [a <= b] on times compare the fields in order. *)
Definition time_compare (a b : time) : comparison :=
  match hour a ?= hour b with
  | Eq => match minute a ?= minute b with
          | Eq => match second a ?= second b with
                  | Eq => microsecond a ?= microsecond b
                  | c => c
                  end
          | c => c
          end
  | c => c
  end.

Definition time_ltb (a b : time) : bool :=
  match time_compare a b with Lt => true | _ => false end.

Definition time_leb (a b : time) : bool :=
  match time_compare a b with Gt => false | _ => true end.

(** [int(x)] on a float: truncation toward zero. *)
Definition int_of_float (x : Q) : Z := Z.quot (Qnum x) (Zpos (Qden x)).

(* ===================================================================== *)
(** ** Domain model ([models/domain.py])                                  *)
(* ===================================================================== *)

Inductive PreferenceLevel :=
| PROHIBITED | DISCOURAGED | NEUTRAL | PREFERRED | REQUIRED.

Definition level_value (l : PreferenceLevel) : Z :=
  match l with
  | PROHIBITED => -2 | DISCOURAGED => -1 | NEUTRAL => 0
  | PREFERRED => 1 | REQUIRED => 2
  end.

Record MeetingTime := {
  day_of_week : Z;
  start_time : time;
  end_time : time;
  break_minutes : Z
}.

Record MeetingPattern := {
  mp_id : UUID;
  times : list MeetingTime;
  total_minutes_per_week : Z
}.

Record DatePattern := { dp_id : UUID }.

Record RoomFeature := { rf_id : UUID; quantity : Z }.

Record Room := {
  room_id : UUID;
  capacity : Z;
  building_id : UUID;
  features : list RoomFeature;
  is_schedulable : bool
}.

Record InstructorPreference := {
  pref_day_of_week : option Z;
  pref_start_time : option time;
  pref_end_time : option time;
  meeting_pattern_id : option UUID;
  preference_level : PreferenceLevel
}.

Record Instructor := {
  instr_id : UUID;
  min_load : Q;
  max_load : Q;
  target_load : option Q;
  time_preferences : list InstructorPreference
}.

Record Course := {
  course_ident : UUID;
  course_required_room_features : list UUID
}.

Record Section := {
  sec_id : UUID;
  course_id : UUID;
  expected_enrollment : Z;
  credit_hours : Q;
  allowed_meeting_pattern_ids : option (list UUID);
  allowed_room_ids : option (list UUID);
  required_room_features : list UUID;
  preferred_instructor_ids : list UUID;
  assigned_instructor_ids : list UUID;
  cross_list_group_id : option UUID;
  link_group_id : option UUID;
  is_link_parent : bool;
  fixed_meeting_pattern_id : option UUID;
  fixed_room_id : option UUID;
  fixed_date_pattern_id : option UUID
}.

Record Assignment := {
  a_section_id : UUID;
  a_meeting_pattern_id : option UUID;
  a_date_pattern_id : option UUID;
  a_room_id : option UUID;
  a_instructor_ids : list UUID;
  is_assigned : bool;
  unassigned_reason : option string
}.

Inductive LinkConnector := immediately_after | same_day | different_day | other_connector.

Record SolverInput := {
  meeting_patterns : list MeetingPattern;
  date_patterns : list DatePattern;
  rooms : list Room;
  instructors : list Instructor;
  courses : list Course;
  sections : list Section;
  constraint_weights : list (string * Q);
  link_connector_type : option LinkConnector
}.

(* ===================================================================== *)
(** ** The CP model under construction (OR-tools [cp_model])              *)
(* ===================================================================== *)

(** The f-string that names a variable, kept structured. *)
Inductive VarName :=
| sp (s p : UUID)
| sr (s r : UUID)
| srp (s r p : UUID)
| si (s i : UUID)
| pref_penalty (s i p : UUID)
| load (i : UUID)
| underload (i : UUID)
| overload (i : UUID)
| target_dev (i : UUID)
| constant.

(** A variable handle: its index in the model and its domain [lb, ub]. *)
Record IntVar := {
  index : nat;
  var_name : VarName;
  lb : Z;
  ub : Z
}.

(** Linear expressions: [sum (coefficient * variable) + offset]. *)
Record LinearExpr := {
  terms : list (Z * IntVar);
  offset : Z
}.

Definition lvar (v : IntVar) : LinearExpr := {| terms := [(1, v)]; offset := 0 |}.
Definition lconst (c : Z) : LinearExpr := {| terms := []; offset := c |}.
Definition ladd (a b : LinearExpr) : LinearExpr :=
  {| terms := terms a ++ terms b; offset := offset a + offset b |}.
Definition lscale (k : Z) (a : LinearExpr) : LinearExpr :=
  {| terms := map (fun cv => (k * fst cv, snd cv)) (terms a); offset := k * offset a |}.
Definition lsub (a b : LinearExpr) : LinearExpr := ladd a (lscale (-1) b).

(** Python's [sum(xs)]: [0 + x1 + x2 + ...]. *)
Definition lsum (es : list LinearExpr) : LinearExpr := fold_left ladd es (lconst 0).
Definition lsum_vars (vs : list IntVar) : LinearExpr := lsum (map lvar vs).

(** [expr + operand] where the operand may be [None]: OR-tools accepts numbers
    and linear expressions only, anything else the addition rejects. *)
Definition ladd_operand (a : LinearExpr) (b : option IntVar) : result LinearExpr :=
  match b with
  | Some v => Ok (ladd a (lvar v))
  | None => Raise TypeError
  end.

Inductive Constraint :=
| LinLe (a b : LinearExpr)                         (* model.Add(a <= b) *)
| LinGe (a b : LinearExpr)                         (* model.Add(a >= b) *)
| LinEq (a b : LinearExpr)                         (* model.Add(a == b) *)
| ExactlyOne (lits : list IntVar)                  (* model.AddExactlyOne *)
| AtMostOne (lits : list IntVar)                   (* model.AddAtMostOne *)
| MultiplicationEquality (target : IntVar) (factors : list IntVar)
| AbsEquality (target : IntVar) (e : LinearExpr).

Record CpModel := {
  variables : list IntVar;
  constraints : list Constraint
}.

Definition empty_model : CpModel := {| variables := []; constraints := [] |}.

Definition new_var (m : CpModel) (nm : VarName) (lo hi : Z) : IntVar * CpModel :=
  let v := {| index := List.length (variables m); var_name := nm; lb := lo; ub := hi |} in
  (v, {| variables := variables m ++ [v]; constraints := constraints m |}).

Definition NewBoolVar (m : CpModel) (nm : VarName) : IntVar * CpModel := new_var m nm 0 1.
Definition NewConstant (m : CpModel) (c : Z) : IntVar * CpModel := new_var m constant c c.
Definition NewIntVar (m : CpModel) (lo hi : Z) (nm : VarName) : IntVar * CpModel :=
  new_var m nm lo hi.

Definition Add (m : CpModel) (c : Constraint) : CpModel :=
  {| variables := variables m; constraints := constraints m ++ [c] |}.

(** A run of [model.Add] calls, in order. *)
Definition AddAll (m : CpModel) (cs : list Constraint) : CpModel :=
  {| variables := variables m; constraints := constraints m ++ cs |}.

(** *** Solutions *)

Definition Solution := nat -> Z.

(** [solver.Value(v)] *)
Definition Value (sol : Solution) (v : IntVar) : Z := sol (index v).

Definition eval (sol : Solution) (e : LinearExpr) : Z :=
  fold_right (fun cv acc => fst cv * Value sol (snd cv) + acc) (offset e) (terms e).

Definition sum_values (sol : Solution) (vs : list IntVar) : Z :=
  fold_right (fun v acc => Value sol v + acc) 0 vs.

Definition prod_values (sol : Solution) (vs : list IntVar) : Z :=
  fold_right (fun v acc => Value sol v * acc) 1 vs.

Definition holds (sol : Solution) (c : Constraint) : Prop :=
  match c with
  | LinLe a b => eval sol a <= eval sol b
  | LinGe a b => eval sol a >= eval sol b
  | LinEq a b => eval sol a = eval sol b
  | ExactlyOne lits => sum_values sol lits = 1
  | AtMostOne lits => sum_values sol lits <= 1
  | MultiplicationEquality t fs => Value sol t = prod_values sol fs
  | AbsEquality t e => Value sol t = Z.abs (eval sol e)
  end.

Definition holdsb (sol : Solution) (c : Constraint) : bool :=
  match c with
  | LinLe a b => eval sol a <=? eval sol b
  | LinGe a b => eval sol a >=? eval sol b
  | LinEq a b => eval sol a =? eval sol b
  | ExactlyOne lits => sum_values sol lits =? 1
  | AtMostOne lits => sum_values sol lits <=? 1
  | MultiplicationEquality t fs => Value sol t =? prod_values sol fs
  | AbsEquality t e => Value sol t =? Z.abs (eval sol e)
  end.

Definition in_domain (sol : Solution) (v : IntVar) : Prop :=
  lb v <= Value sol v <= ub v.

Definition in_domainb (sol : Solution) (v : IntVar) : bool :=
  (lb v <=? Value sol v) && (Value sol v <=? ub v).

(** A solution is feasible for a model when every variable takes a value of its
    domain and every constraint holds. *)
Definition feasible (m : CpModel) (sol : Solution) : Prop :=
  (forall v, In v (variables m) -> in_domain sol v) /\
  (forall c, In c (constraints m) -> holds sol c).

Definition feasibleb (m : CpModel) (sol : Solution) : bool :=
  forallb (in_domainb sol) (variables m) && forallb (holdsb sol) (constraints m).

(* ===================================================================== *)
(** ** Variable factory ([CPSATSolver], solvers/cpsat.py)                 *)
(* ===================================================================== *)

Record CPSATSolver := {
  model : CpModel;
  section_pattern_vars : dict Key2 IntVar;
  section_room_vars : dict Key2 IntVar;
  section_room_pattern_vars : dict Key3 IntVar;
  section_instructor_vars : dict Key2 IntVar
}.

(** [CPSATSolver.__init__]: an empty model and empty tables. *)
Definition init_solver : CPSATSolver :=
  {| model := empty_model;
     section_pattern_vars := [];
     section_room_vars := [];
     section_room_pattern_vars := [];
     section_instructor_vars := [] |}.

Definition get2 (k : Key2) (d : dict Key2 IntVar) : option IntVar := dict_get key2_eqb k d.
Definition get3 (k : Key3) (d : dict Key3 IntVar) : option IntVar := dict_get key3_eqb k d.

(** [set(allowed) if allowed else {p.id for p in meeting_patterns}]: an empty
    collection is falsy, like [None]. *)
Definition allowed_patterns (inp : SolverInput) (section : Section) : list UUID :=
  match allowed_meeting_pattern_ids section with
  | Some (x :: r) => set_of (x :: r)
  | _ => set_of (map mp_id (meeting_patterns inp))
  end.

Definition allowed_rooms (inp : SolverInput) (section : Section) : list UUID :=
  match allowed_room_ids section with
  | Some (x :: r) => set_of (x :: r)
  | _ => set_of (map room_id (rooms inp))
  end.

(** Body of [for pattern_id in allowed_patterns]. *)
Definition create_pattern_var (section : Section) (st : CPSATSolver) (pattern_id : UUID)
  : CPSATSolver :=
  let '(var, m) :=
    match fixed_meeting_pattern_id section with
    | Some fixed => NewConstant (model st) (if uuid_eqb pattern_id fixed then 1 else 0)
    | None => NewBoolVar (model st) (sp (sec_id section) pattern_id)
    end in
  {| model := m;
     section_pattern_vars :=
       dict_set key2_eqb (sec_id section, pattern_id) var (section_pattern_vars st);
     section_room_vars := section_room_vars st;
     section_room_pattern_vars := section_room_pattern_vars st;
     section_instructor_vars := section_instructor_vars st |}.

(** Body of [for room_id in allowed_rooms]. *)
Definition create_room_var (section : Section) (st : CPSATSolver) (rid : UUID)
  : CPSATSolver :=
  let '(var, m) :=
    match fixed_room_id section with
    | Some fixed => NewConstant (model st) (if uuid_eqb rid fixed then 1 else 0)
    | None => NewBoolVar (model st) (sr (sec_id section) rid)
    end in
  {| model := m;
     section_pattern_vars := section_pattern_vars st;
     section_room_vars := dict_set key2_eqb (sec_id section, rid) var (section_room_vars st);
     section_room_pattern_vars := section_room_pattern_vars st;
     section_instructor_vars := section_instructor_vars st |}.

(** Body of the nested loop over [allowed_patterns] and [allowed_rooms]. *)
Definition create_room_pattern_var (section : Section) (pattern_id : UUID)
    (st : CPSATSolver) (rid : UUID) : CPSATSolver :=
  let '(var, m) := NewBoolVar (model st) (srp (sec_id section) rid pattern_id) in
  let m' :=
    match get2 (sec_id section, pattern_id) (section_pattern_vars st),
          get2 (sec_id section, rid) (section_room_vars st) with
    | Some pattern_var, Some room_var =>
        Add m (MultiplicationEquality var [pattern_var; room_var])
    | _, _ => m
    end in
  {| model := m';
     section_pattern_vars := section_pattern_vars st;
     section_room_vars := section_room_vars st;
     section_room_pattern_vars :=
       dict_set key3_eqb (sec_id section, rid, pattern_id) var (section_room_pattern_vars st);
     section_instructor_vars := section_instructor_vars st |}.

(** Body of [for instructor_id in potential_instructors]. *)
Definition create_instructor_var (section : Section) (st : CPSATSolver) (iid : UUID)
  : CPSATSolver :=
  let '(var, m) := NewBoolVar (model st) (si (sec_id section) iid) in
  {| model := m;
     section_pattern_vars := section_pattern_vars st;
     section_room_vars := section_room_vars st;
     section_room_pattern_vars := section_room_pattern_vars st;
     section_instructor_vars :=
       dict_set key2_eqb (sec_id section, iid) var (section_instructor_vars st) |}.

Definition potential_instructors (section : Section) : list UUID :=
  set_diff (set_of (preferred_instructor_ids section))
           (set_of (assigned_instructor_ids section)).

(** Body of [for section in self.input.sections] in [_create_variables]. *)
Definition create_section_variables (inp : SolverInput) (st : CPSATSolver)
    (section : Section) : CPSATSolver :=
  let st1 := fold_left (create_pattern_var section) (allowed_patterns inp section) st in
  let st2 := fold_left (create_room_var section) (allowed_rooms inp section) st1 in
  let st3 :=
    fold_left
      (fun st pattern_id =>
         fold_left (create_room_pattern_var section pattern_id)
                   (allowed_rooms inp section) st)
      (allowed_patterns inp section) st2 in
  fold_left (create_instructor_var section) (potential_instructors section) st3.

Definition _create_variables (inp : SolverInput) (st : CPSATSolver) : CPSATSolver :=
  fold_left (create_section_variables inp) (sections inp) st.

(** [[d[k] for x in xs if k in d]] *)
Definition lookup_all (d : dict Key2 IntVar) (keys : list Key2) : list IntVar :=
  flat_map (fun k => match get2 k d with Some v => [v] | None => [] end) keys.

(** Constraints that [_add_assignment_constraints] adds for one section. *)
Definition assignment_constraints_of (inp : SolverInput) (st : CPSATSolver)
    (section : Section) : list Constraint :=
  let pattern_vars :=
    lookup_all (section_pattern_vars st)
               (map (fun p => (sec_id section, mp_id p)) (meeting_patterns inp)) in
  let room_vars :=
    lookup_all (section_room_vars st)
               (map (fun r => (sec_id section, room_id r)) (rooms inp)) in
  let instructor_vars :=
    lookup_all (section_instructor_vars st)
               (map (fun i => (sec_id section, i)) (preferred_instructor_ids section)) in
  (match pattern_vars with [] => [] | _ => [ExactlyOne pattern_vars] end)
  ++ (match room_vars with [] => [] | _ => [ExactlyOne room_vars] end)
  ++ (match assigned_instructor_ids section with
      | [] => match instructor_vars with [] => [] | _ => [AtMostOne instructor_vars] end
      | _ => []
      end).

Definition with_model (st : CPSATSolver) (m : CpModel) : CPSATSolver :=
  {| model := m;
     section_pattern_vars := section_pattern_vars st;
     section_room_vars := section_room_vars st;
     section_room_pattern_vars := section_room_pattern_vars st;
     section_instructor_vars := section_instructor_vars st |}.

Definition _add_assignment_constraints (inp : SolverInput) (st : CPSATSolver) : CPSATSolver :=
  with_model st
    (AddAll (model st) (flat_map (assignment_constraints_of inp st) (sections inp))).

(* ===================================================================== *)
(** ** Hard constraints (constraints/hard.py)                             *)
(* ===================================================================== *)

Definition _patterns_overlap (p1 p2 : MeetingPattern) : bool :=
  existsb
    (fun t1 =>
       existsb
         (fun t2 =>
            (day_of_week t1 =? day_of_week t2)
            && time_ltb (start_time t1) (end_time t2)
            && time_ltb (start_time t2) (end_time t1))
         (times p2))
    (times p1).

(** [d[k].add(x)] on a [defaultdict(set)]. *)
Definition dd_add (k x : UUID) (d : dict UUID (list UUID)) : dict UUID (list UUID) :=
  match dict_get uuid_eqb k d with
  | Some s => dict_set uuid_eqb k (if mem x s then s else s ++ [x]) d
  | None => dict_set uuid_eqb k [x] d
  end.

(** [d[k].append(x)] on a [defaultdict(list)]. *)
Definition dd_append (k : UUID) (x : IntVar) (d : dict UUID (list IntVar))
  : dict UUID (list IntVar) :=
  match dict_get uuid_eqb k d with
  | Some l => dict_set uuid_eqb k (l ++ [x]) d
  | None => dict_set uuid_eqb k [x] d
  end.

(** The overlap table both conflict generators start with. *)
Definition overlapping_patterns (mps : list MeetingPattern) : dict UUID (list UUID) :=
  fold_left
    (fun d p1 =>
       fold_left
         (fun d p2 =>
            if negb (uuid_eqb (mp_id p1) (mp_id p2)) && _patterns_overlap p1 p2
            then dd_add (mp_id p1) (mp_id p2) d
            else d)
         mps d)
    mps [].

(** [overlapping_patterns.get(k, set())] *)
Definition overlaps_of (d : dict UUID (list UUID)) (k : UUID) : list UUID :=
  match dict_get uuid_eqb k d with Some s => s | None => [] end.

(** [tuple(sorted([a, b]))]: UUIDs order by their integer value. *)
Definition sorted_pair (a b : UUID) : Key2 := if N.leb a b then (a, b) else (b, a).

Definition room_section_by_pattern (sects : list Section) (mps : list MeetingPattern)
    (srp_vars : dict Key3 IntVar) (rid : UUID) : dict UUID (list IntVar) :=
  fold_left
    (fun d section =>
       fold_left
         (fun d pattern =>
            match get3 (sec_id section, rid, mp_id pattern) srp_vars with
            | Some v => dd_append (mp_id pattern) v d
            | None => d
            end)
         mps d)
    sects [].

(** The loop over overlapping pairs: the state is [processed_pairs] and the
    constraints added so far. *)
Definition room_overlap_step (by_pattern : dict UUID (list IntVar)) (pattern_id : UUID)
    (acc : list Key2 * list Constraint) (overlap_id : UUID) : list Key2 * list Constraint :=
  let pair := sorted_pair pattern_id overlap_id in
  if existsb (key2_eqb pair) (fst acc) then acc
  else
    let vars_p1 := match dict_get uuid_eqb pattern_id by_pattern with Some l => l | None => [] end in
    let vars_p2 := match dict_get uuid_eqb overlap_id by_pattern with Some l => l | None => [] end in
    (fst acc ++ [pair],
     match vars_p1, vars_p2 with
     | _ :: _, _ :: _ =>
         snd acc ++ [LinLe (ladd (lsum_vars vars_p1) (lsum_vars vars_p2)) (lconst 1)]
     | _, _ => snd acc
     end).

Definition room_conflict_constraints_of (sects : list Section) (mps : list MeetingPattern)
    (srp_vars : dict Key3 IntVar) (room : Room) : list Constraint :=
  let by_pattern := room_section_by_pattern sects mps srp_vars (room_id room) in
  flat_map
    (fun kv => match snd kv with
               | _ :: _ :: _ => [LinLe (lsum_vars (snd kv)) (lconst 1)]
               | _ => []
               end)
    by_pattern
  ++ snd (fold_left
            (fun acc kv => fold_left (room_overlap_step by_pattern (fst kv)) (snd kv) acc)
            (overlapping_patterns mps) ([], [])).

Definition add_room_conflict_constraints (m : CpModel) (sects : list Section)
    (rms : list Room) (mps : list MeetingPattern) (srp_vars : dict Key3 IntVar) : CpModel :=
  AddAll m (flat_map (room_conflict_constraints_of sects mps srp_vars) rms).

(** *** Instructor conflicts *)

Definition bind {A B : Type} (r : result A) (f : A -> result B) : result B :=
  match r with Ok a => f a | Raise e => Raise e end.

(** Run a loop body over a list, collecting what it adds; the first exception
    ends the loop. *)
Fixpoint collect {A : Type} (body : A -> result (list Constraint)) (xs : list A)
  : result (list Constraint) :=
  match xs with
  | [] => Ok []
  | x :: r =>
      bind (body x) (fun cs => bind (collect body r) (fun cs' => Ok (cs ++ cs')))
  end.

Definition all_instructor_ids (sects : list Section) : list UUID :=
  set_of (flat_map (fun s => assigned_instructor_ids s ++ preferred_instructor_ids s) sects).

Definition instructor_sections (sects : list Section)
    (si_vars : dict Key2 IntVar) (instructor_id : UUID) : list Section :=
  filter
    (fun section =>
       dict_has key2_eqb (sec_id section, instructor_id) si_vars
       || mem instructor_id (assigned_instructor_ids section))
    sects.

(** [bool(v)] on a variable handle: OR-tools refuses the truth value of a
    linear expression and raises [NotImplementedError]. *)
Definition bool_of_var (v : IntVar) : result bool := Raise NotImplementedError.

(** The truth value of [d.get(key)]: [None] is false, a variable handle is
    asked for its truth value. *)
Definition truth (v : option IntVar) : result bool :=
  match v with
  | None => Ok false
  | Some x => bool_of_var x
  end.

(** [a and b] as a condition: [b] is tested only when [a] is true. *)
Definition truth_and (a b : option IntVar) : result bool :=
  bind (truth a) (fun ta => if ta then truth b else Ok false).

(** The innermost body: the two tests [if var_s1_p1 and var_s2_p2] and
    [if var_s1_inst and var_s2_inst] take the truth value of what the lookups
    returned. *)
Definition instructor_conflict_at (sp_vars si_vars : dict Key2 IntVar)
    (instructor_id : UUID) (s1 s2 : Section) (p1_id p2_id : UUID)
  : result (list Constraint) :=
  let var_s1_p1 := get2 (sec_id s1, p1_id) sp_vars in
  let var_s2_p2 := get2 (sec_id s2, p2_id) sp_vars in
  let var_s1_inst := get2 (sec_id s1, instructor_id) si_vars in
  let var_s2_inst := get2 (sec_id s2, instructor_id) si_vars in
  bind (truth_and var_s1_p1 var_s2_p2)
    (fun both_patterns =>
       if both_patterns then
         match var_s1_p1, var_s2_p2 with
         | Some x1, Some x2 =>
             bind (truth_and var_s1_inst var_s2_inst)
               (fun both_instructors =>
                  if both_instructors then
                    match var_s1_inst, var_s2_inst with
                    | Some w1, Some w2 =>
                        Ok [LinLe (ladd (ladd (ladd (lvar x1) (lvar x2)) (lvar w1)) (lvar w2))
                                  (lconst 3)]
                    | _, _ => Ok []
                    end
                  else if mem instructor_id (assigned_instructor_ids s1) then
                    bind (ladd_operand (ladd (lvar x1) (lvar x2)) var_s2_inst)
                         (fun e => Ok [LinLe e (lconst 2)])
                  else if mem instructor_id (assigned_instructor_ids s2) then
                    bind (ladd_operand (ladd (lvar x1) (lvar x2)) var_s1_inst)
                         (fun e => Ok [LinLe e (lconst 2)])
                  else Ok [])
         | _, _ => Ok []
         end
       else Ok []).

(** [for i, s1 in enumerate(xs): for s2 in xs[i + 1:]] *)
Fixpoint collect_pairs (body : Section -> Section -> result (list Constraint))
    (xs : list Section) : result (list Constraint) :=
  match xs with
  | [] => Ok []
  | s1 :: rest =>
      bind (collect (body s1) rest)
           (fun cs => bind (collect_pairs body rest) (fun cs' => Ok (cs ++ cs')))
  end.

Definition instructor_conflict_constraints (sects : list Section)
    (mps : list MeetingPattern) (sp_vars si_vars : dict Key2 IntVar)
  : result (list Constraint) :=
  let overlapping := overlapping_patterns mps in
  collect
    (fun instructor_id =>
       let isects := instructor_sections sects si_vars instructor_id in
       if (List.length isects <? 2)%nat then Ok []
       else
         collect_pairs
           (fun s1 s2 =>
              collect
                (fun p1_id =>
                   collect (instructor_conflict_at sp_vars si_vars instructor_id s1 s2 p1_id)
                           (overlaps_of overlapping p1_id))
                (map mp_id mps))
           isects)
    (all_instructor_ids sects).

Definition add_instructor_conflict_constraints (m : CpModel) (sects : list Section)
    (mps : list MeetingPattern) (sp_vars si_vars : dict Key2 IntVar) : result CpModel :=
  bind (instructor_conflict_constraints sects mps sp_vars si_vars)
       (fun cs => Ok (AddAll m cs)).

(** *** Capacity and features *)

Definition room_capacity_constraints (sects : list Section) (rms : list Room)
    (sr_vars : dict Key2 IntVar) : list Constraint :=
  flat_map
    (fun section =>
       flat_map
         (fun room =>
            match get2 (sec_id section, room_id room) sr_vars with
            | Some v =>
                if capacity room <? expected_enrollment section
                then [LinEq (lvar v) (lconst 0)]
                else []
            | None => []
            end)
         rms)
    sects.

Definition add_room_capacity_constraints (m : CpModel) (sects : list Section)
    (rms : list Room) (sr_vars : dict Key2 IntVar) : CpModel :=
  AddAll m (room_capacity_constraints sects rms sr_vars).

(** [self.course_features]: course id to required feature ids. *)
Definition course_features (inp : SolverInput) : dict UUID (list UUID) :=
  fold_left
    (fun d c => dict_set uuid_eqb (course_ident c) (set_of (course_required_room_features c)) d)
    (courses inp) [].

Definition required_features (crs : dict UUID (list UUID)) (section : Section) : list UUID :=
  set_union (required_room_features section)
            (match dict_get uuid_eqb (course_id section) crs with Some f => f | None => [] end).

Definition room_feature_constraints (sects : list Section) (rms : list Room)
    (crs : dict UUID (list UUID)) (sr_vars : dict Key2 IntVar) : list Constraint :=
  flat_map
    (fun section =>
       match required_features crs section with
       | [] => []
       | req =>
           flat_map
             (fun room =>
                match get2 (sec_id section, room_id room) sr_vars with
                | None => []
                | Some v =>
                    match set_diff req (map rf_id (features room)) with
                    | [] => []
                    | _ => [LinEq (lvar v) (lconst 0)]
                    end
                end)
             rms
       end)
    sects.

Definition add_room_feature_constraints (m : CpModel) (sects : list Section)
    (rms : list Room) (crs : dict UUID (list UUID)) (sr_vars : dict Key2 IntVar) : CpModel :=
  AddAll m (room_feature_constraints sects rms crs sr_vars).

(** *** Cross-listed and linked sections *)

(** [groups[key(section)].append(section)] for the sections that have a key. *)
Definition group_sections (key : Section -> option UUID) (sects : list Section)
  : dict UUID (list Section) :=
  fold_left
    (fun d section =>
       match key section with
       | Some g =>
           match dict_get uuid_eqb g d with
           | Some l => dict_set uuid_eqb g (l ++ [section]) d
           | None => dict_set uuid_eqb g [section] d
           end
       | None => d
       end)
    sects [].

(** [[k2 for (k1, k2) in d.keys() if k1 == sid]] *)
Definition keys_of_section (d : dict Key2 IntVar) (sid : UUID) : list UUID :=
  map snd (filter (fun k => uuid_eqb (fst k) sid) (dict_keys d)).

(** Equalities between the variables of the anchor and of another section over
    the ids both have in a table. *)
Definition equate_common (d : dict Key2 IntVar) (anchor other : Section) : list Constraint :=
  let anchor_ids := set_of (keys_of_section d (sec_id anchor)) in
  let other_ids := set_of (keys_of_section d (sec_id other)) in
  flat_map
    (fun k =>
       match get2 (sec_id anchor, k) d, get2 (sec_id other, k) d with
       | Some anchor_var, Some other_var => [LinEq (lvar anchor_var) (lvar other_var)]
       | _, _ => []
       end)
    (set_inter anchor_ids other_ids).

Definition cross_list_constraints (sects : list Section)
    (sp_vars sr_vars : dict Key2 IntVar) : list Constraint :=
  flat_map
    (fun kv =>
       match snd kv with
       | anchor :: ((_ :: _) as others) =>
           flat_map
             (fun other =>
                equate_common sp_vars anchor other ++ equate_common sr_vars anchor other)
             others
       | _ => []
       end)
    (group_sections cross_list_group_id sects).

Definition add_cross_list_constraints (m : CpModel) (sects : list Section)
    (sp_vars sr_vars : dict Key2 IntVar) : CpModel :=
  AddAll m (cross_list_constraints sects sp_vars sr_vars).

Definition _get_pattern_days (pattern : MeetingPattern) : list Z :=
  map day_of_week (times pattern).

Definition minutes_of (t : time) : Z := hour t * 60 + minute t.

(** The common days are visited in the order of the parent's times; a day the
    parent meets twice is visited twice, which does not change the answer. *)
Definition _patterns_compatible_immediately_after (parent_pattern child_pattern : MeetingPattern)
    (max_gap_minutes : Z) : bool :=
  let parent_days := _get_pattern_days parent_pattern in
  let child_days := _get_pattern_days child_pattern in
  let common_days := filter (fun d => existsb (Z.eqb d) child_days) parent_days in
  existsb
    (fun day =>
       let parent_times := filter (fun t => day_of_week t =? day) (times parent_pattern) in
       let child_times := filter (fun t => day_of_week t =? day) (times child_pattern) in
       existsb
         (fun pt =>
            existsb
              (fun ct =>
                 let parent_end_minutes := minutes_of (end_time pt) in
                 let child_start_minutes := minutes_of (start_time ct) in
                 let gap := child_start_minutes - parent_end_minutes in
                 (0 <=? gap) && (gap <=? max_gap_minutes))
              child_times)
         parent_times)
    common_days.

Definition days_intersect (p c : MeetingPattern) : bool :=
  existsb (fun d => existsb (Z.eqb d) (_get_pattern_days c)) (_get_pattern_days p).

(** [{p.id: p for p in meeting_patterns}] *)
Definition pattern_by_id (mps : list MeetingPattern) : dict UUID MeetingPattern :=
  fold_left (fun d p => dict_set uuid_eqb (mp_id p) p d) mps [].

(** The child pattern ids of the table that are known patterns and compatible
    with the parent pattern. *)
Definition compatible_child_pids (compatible : MeetingPattern -> MeetingPattern -> bool)
    (by_id : dict UUID MeetingPattern) (parent_pattern : MeetingPattern)
    (child_patterns : list UUID) : list UUID :=
  filter
    (fun child_pid =>
       match dict_get uuid_eqb child_pid by_id with
       | Some child_pattern => compatible parent_pattern child_pattern
       | None => false
       end)
    child_patterns.

(** The three connectors share one loop; only [immediately_after] forbids a
    parent pattern that has no compatible child pattern. *)
Definition link_constraints_of (compatible : MeetingPattern -> MeetingPattern -> bool)
    (forbid_when_empty : bool) (parent child : Section) (mps : list MeetingPattern)
    (sp_vars : dict Key2 IntVar) : list Constraint :=
  let by_id := pattern_by_id mps in
  let parent_patterns := keys_of_section sp_vars (sec_id parent) in
  let child_patterns := keys_of_section sp_vars (sec_id child) in
  flat_map
    (fun parent_pid =>
       match dict_get uuid_eqb parent_pid by_id with
       | None => []
       | Some parent_pattern =>
           match get2 (sec_id parent, parent_pid) sp_vars with
           | None => []
           | Some parent_var =>
               match compatible_child_pids compatible by_id parent_pattern child_patterns with
               | [] => if forbid_when_empty then [LinEq (lvar parent_var) (lconst 0)] else []
               | cpids =>
                   match lookup_all sp_vars (map (fun cpid => (sec_id child, cpid)) cpids) with
                   | [] => []
                   | compatible_child_vars =>
                       [LinGe (lsum_vars compatible_child_vars) (lvar parent_var)]
                   end
               end
           end
       end)
    parent_patterns.

Definition _add_immediately_after_constraint (parent child : Section)
    (mps : list MeetingPattern) (sp_vars : dict Key2 IntVar) : list Constraint :=
  link_constraints_of
    (fun p c => _patterns_compatible_immediately_after p c 30) true parent child mps sp_vars.

Definition _add_same_day_constraint (parent child : Section)
    (mps : list MeetingPattern) (sp_vars : dict Key2 IntVar) : list Constraint :=
  link_constraints_of days_intersect false parent child mps sp_vars.

Definition _add_different_day_constraint (parent child : Section)
    (mps : list MeetingPattern) (sp_vars : dict Key2 IntVar) : list Constraint :=
  link_constraints_of (fun p c => negb (days_intersect p c)) false parent child mps sp_vars.

(** The parent of a group and its children. *)
Definition link_parent_children (group : list Section) : option (Section * list Section) :=
  match filter is_link_parent group with
  | parent :: _ => Some (parent, filter (fun s => negb (is_link_parent s)) group)
  | [] => match group with
          | first :: rest => Some (first, rest)
          | [] => None
          end
  end.

Definition linked_section_constraints (sects : list Section) (mps : list MeetingPattern)
    (sp_vars : dict Key2 IntVar) (connector : LinkConnector) : list Constraint :=
  flat_map
    (fun kv =>
       match snd kv with
       | _ :: _ :: _ =>
           match link_parent_children (snd kv) with
           | Some (parent, children) =>
               flat_map
                 (fun child =>
                    match connector with
                    | immediately_after =>
                        _add_immediately_after_constraint parent child mps sp_vars
                    | same_day => _add_same_day_constraint parent child mps sp_vars
                    | different_day => _add_different_day_constraint parent child mps sp_vars
                    | other_connector => []
                    end)
                 children
           | None => []
           end
       | _ => []
       end)
    (group_sections link_group_id sects).

Definition add_linked_section_constraints (m : CpModel) (sects : list Section)
    (mps : list MeetingPattern) (sp_vars : dict Key2 IntVar) (connector : LinkConnector)
  : CpModel :=
  AddAll m (linked_section_constraints sects mps sp_vars connector).

(** [_add_hard_constraints]: the six generators in order; the connector
    defaults to [immediately_after]. *)
Definition _add_hard_constraints (inp : SolverInput) (st : CPSATSolver) : result CPSATSolver :=
  let m1 := add_room_conflict_constraints (model st) (sections inp) (rooms inp)
              (meeting_patterns inp) (section_room_pattern_vars st) in
  bind (add_instructor_conflict_constraints m1 (sections inp) (meeting_patterns inp)
          (section_pattern_vars st) (section_instructor_vars st))
    (fun m2 =>
       let m3 := add_room_capacity_constraints m2 (sections inp) (rooms inp)
                   (section_room_vars st) in
       let m4 := add_room_feature_constraints m3 (sections inp) (rooms inp)
                   (course_features inp) (section_room_vars st) in
       let m5 := add_cross_list_constraints m4 (sections inp)
                   (section_pattern_vars st) (section_room_vars st) in
       let m6 := add_linked_section_constraints m5 (sections inp) (meeting_patterns inp)
                   (section_pattern_vars st)
                   (match link_connector_type inp with
                    | Some c => c
                    | None => immediately_after
                    end) in
       Ok (with_model st m6)).

(* ===================================================================== *)
(** ** Soft constraints (constraints/soft.py)                             *)
(* ===================================================================== *)

(** [start <= check_time < end] *)
Definition _time_in_range (check_time start end_ : time) : bool :=
  time_leb start check_time && time_ltb check_time end_.

(** The loop over [pattern.times] of [_pattern_matches_preference]. *)
Fixpoint matches_times (pref : InstructorPreference) (ts : list MeetingTime) : bool :=
  match ts with
  | [] => false
  | meeting_time :: rest =>
      let day_differs :=
        match pref_day_of_week pref with
        | Some d => negb (day_of_week meeting_time =? d)
        | None => false
        end in
      if day_differs then matches_times pref rest
      else
        match pref_start_time pref, pref_end_time pref with
        | Some s, Some e =>
            if _time_in_range (start_time meeting_time) s e then true
            else if _time_in_range (end_time meeting_time) s e then true
            else matches_times pref rest
        | _, _ =>
            match pref_day_of_week pref with
            | Some _ => true
            | None => matches_times pref rest
            end
        end
  end.

Definition _pattern_matches_preference (pattern : MeetingPattern)
    (pref : InstructorPreference) : bool :=
  match meeting_pattern_id pref with
  | Some pid => uuid_eqb (mp_id pattern) pid
  | None => matches_times pref (times pattern)
  end.

(** [int(weights.get(key, default))] *)
Definition weight_of (weights : list (string * Q)) (key : string) (default : Z) : Z :=
  match dict_get String.eqb key weights with
  | Some w => int_of_float w
  | None => default
  end.

Definition penalty_value_of (base_weight : Z) (level : PreferenceLevel) : Z :=
  match level with
  | PROHIBITED => base_weight * 100
  | DISCOURAGED => base_weight * 2
  | PREFERRED => - base_weight
  | REQUIRED => - base_weight * 2
  | NEUTRAL => 0
  end.

(** [var * k], a term of the objective. *)
Definition lmul (v : IntVar) (k : Z) : LinearExpr := {| terms := [(k, v)]; offset := 0 |}.

(** State of a penalty generator: the model and the penalties so far. *)
Definition PenaltyState := (CpModel * list LinearExpr)%type.

(** Body of [for pref in instructor.time_preferences]. *)
Definition preference_step (base_weight : Z) (section : Section) (instructor_id : UUID)
    (pattern : MeetingPattern) (pattern_var : IntVar) (instructor_var : option IntVar)
    (acc : PenaltyState) (pref : InstructorPreference) : PenaltyState :=
  if negb (_pattern_matches_preference pattern pref) then acc
  else
    let penalty_value := penalty_value_of base_weight (preference_level pref) in
    if penalty_value =? 0 then acc
    else
      let '(penalty_var, m) :=
        NewBoolVar (fst acc) (pref_penalty (sec_id section) instructor_id (mp_id pattern)) in
      let m' :=
        match instructor_var with
        | Some iv => Add m (MultiplicationEquality penalty_var [pattern_var; iv])
        | None =>
            if mem instructor_id (assigned_instructor_ids section)
            then Add m (LinEq (lvar penalty_var) (lvar pattern_var))
            else m
        end in
      (m', snd acc ++ [lmul penalty_var penalty_value]).

(** [instructor_by_id.get(instructor_id)] on [{i.id: i for i in instructors}]. *)
Definition instructor_by_id (instrs : list Instructor) : dict UUID Instructor :=
  fold_left (fun d i => dict_set uuid_eqb (instr_id i) i d) instrs [].

(** Body of [for pattern in meeting_patterns]. *)
Definition preference_pattern_loop (base_weight : Z) (sp_vars si_vars : dict Key2 IntVar)
    (section : Section) (instructor_id : UUID) (prefs : list InstructorPreference)
    (acc : PenaltyState) (pattern : MeetingPattern) : PenaltyState :=
  match get2 (sec_id section, mp_id pattern) sp_vars with
  | None => acc
  | Some pattern_var =>
      fold_left
        (preference_step base_weight section instructor_id pattern pattern_var
           (get2 (sec_id section, instructor_id) si_vars))
        prefs acc
  end.

(** Body of [for instructor_id in instructor_ids]: an instructor that is not in
    the input, or has no time preference, is skipped. *)
Definition preference_instructor_loop (base_weight : Z) (by_id : dict UUID Instructor)
    (mps : list MeetingPattern) (sp_vars si_vars : dict Key2 IntVar) (section : Section)
    (acc : PenaltyState) (instructor_id : UUID) : PenaltyState :=
  match dict_get uuid_eqb instructor_id by_id with
  | None => acc
  | Some instructor =>
      match time_preferences instructor with
      | [] => acc
      | prefs =>
          fold_left
            (preference_pattern_loop base_weight sp_vars si_vars section instructor_id prefs)
            mps acc
      end
  end.

(** Body of [for section in sections]. *)
Definition preference_section_loop (base_weight : Z) (by_id : dict UUID Instructor)
    (mps : list MeetingPattern) (sp_vars si_vars : dict Key2 IntVar)
    (acc : PenaltyState) (section : Section) : PenaltyState :=
  fold_left
    (preference_instructor_loop base_weight by_id mps sp_vars si_vars section)
    (set_union (assigned_instructor_ids section) (preferred_instructor_ids section))
    acc.

Definition add_instructor_preference_penalties (m : CpModel) (sects : list Section)
    (instrs : list Instructor) (mps : list MeetingPattern)
    (sp_vars si_vars : dict Key2 IntVar) (weights : list (string * Q)) : PenaltyState :=
  let base_weight := weight_of weights "instructor_time_preference" 10 in
  fold_left
    (preference_section_loop base_weight (instructor_by_id instrs) mps sp_vars si_vars)
    sects (m, []).

(** One entry of [instructor_sections] in the workload generator: a decision
    variable, or the integer 1 of a pre-assigned instructor. *)
Inductive LoadTerm :=
| load_var (v : IntVar)
| load_one.

Definition workload_sections (sects : list Section) (si_vars : dict Key2 IntVar)
    (instructor : Instructor) : list (UUID * LoadTerm) :=
  flat_map
    (fun section =>
       match get2 (sec_id section, instr_id instructor) si_vars with
       | Some v => [(sec_id section, load_var v)]
       | None =>
           if mem (instr_id instructor) (assigned_instructor_ids section)
           then [(sec_id section, load_one)]
           else []
       end)
    sects.

(** [{s.id: s.credit_hours for s in sections}] *)
Definition section_loads (sects : list Section) : dict UUID Q :=
  fold_left (fun d s => dict_set uuid_eqb (sec_id s) (credit_hours s) d) sects [].

(** [num / den] rounded to the nearest integer, ties to the even one
    ([0 <= num], [0 < den]). *)
Definition round_half_even (num den : Z) : Z :=
  let m := num / den in
  let r := num mod den in
  if 2 * r <? den then m
  else if den <? 2 * r then m + 1
  else if Z.even m then m else m + 1.

(** The float nearest to the positive rational [n / d], as a float operation
    returns it: a significand [m] of 53 bits, ties to even, and an exponent
    [e], the value being [m * 2 ^ e].  The exponent is not bounded: below the
    normal range the integer part is 0 either way, and a product beyond the
    largest float, for which [int] raises, is outside the model. *)
Definition nearest_double (n d : Z) : Z * Z :=
  let e0 := Z.log2 n - Z.log2 d - 52 in
  let at_exponent e :=
    (if 0 <=? e then n else n * 2 ^ (- e), if 0 <=? e then d * 2 ^ e else d) in
  let e := if 2 ^ 52 * snd (at_exponent e0) <=? fst (at_exponent e0) then e0 else e0 - 1 in
  (round_half_even (fst (at_exponent e)) (snd (at_exponent e)), e).

(** [int(x)] of the float [m * 2 ^ e], [0 <= m]. *)
Definition int_of_double (me : Z * Z) : Z :=
  if 0 <=? snd me then fst me * 2 ^ snd me else fst me / 2 ^ (- snd me).

(** [int(x * 10)]: the product is rounded to a float, then truncated toward
    zero. *)
Definition scaled (x : Q) : Z :=
  let n := Qnum x * 10 in
  let d := Zpos (Qden x) in
  if n =? 0 then 0
  else if 0 <? n then int_of_double (nearest_double n d)
  else - int_of_double (nearest_double (- n) d).

Definition load_of (loads : dict UUID Q) (sid : UUID) : Z :=
  match dict_get uuid_eqb sid loads with Some h => scaled h | None => 0 end.

(** [{sid: int(section_loads[sid] * 10) for sid, _ in instructor_sections}] *)
Definition section_loads_scaled (loads : dict UUID Q) (isects : list (UUID * LoadTerm))
  : dict UUID Z :=
  fold_left (fun d e => dict_set uuid_eqb (fst e) (load_of loads (fst e)) d) isects [].

Definition load_expr (scaled_loads : dict UUID Z) (e : UUID * LoadTerm) : LinearExpr :=
  let scaled_load := match dict_get uuid_eqb (fst e) scaled_loads with Some z => z | None => 0 end in
  match snd e with
  | load_var v => lmul v scaled_load
  | load_one => lconst scaled_load
  end.

(** Body of [for instructor in instructors] in the workload generator. *)
Definition workload_step (sects : list Section) (si_vars : dict Key2 IntVar)
    (underload_weight overload_weight target_weight : Z)
    (acc : PenaltyState) (instructor : Instructor) : PenaltyState :=
  match workload_sections sects si_vars instructor with
  | [] => acc
  | isects =>
      let scaled_loads := section_loads_scaled (section_loads sects) isects in
      let max_possible_load := fold_left Z.add (map snd scaled_loads) 0 in
      let '(total_load, m0) :=
        NewIntVar (fst acc) 0 max_possible_load (load (instr_id instructor)) in
      let m1 := Add m0 (LinEq (lvar total_load) (lsum (map (load_expr scaled_loads) isects))) in
      let '(m2, pens2) :=
        if (0 <? Qnum (min_load instructor)) then
          let min_threshold := scaled (min_load instructor) in
          let '(under, ma) := NewIntVar m1 0 min_threshold (underload (instr_id instructor)) in
          let mb := Add ma (LinGe (lvar under) (lsub (lconst min_threshold) (lvar total_load))) in
          let mc := Add mb (LinGe (lvar under) (lconst 0)) in
          (mc, snd acc ++ [lmul under underload_weight])
        else (m1, snd acc) in
      let max_threshold := scaled (max_load instructor) in
      let '(over, m3) :=
        NewIntVar m2 0 (max_possible_load * 10) (overload (instr_id instructor)) in
      let m4 := Add m3 (LinGe (lvar over) (lsub (lvar total_load) (lconst max_threshold))) in
      let m5 := Add m4 (LinGe (lvar over) (lconst 0)) in
      let pens5 := pens2 ++ [lmul over overload_weight] in
      match target_load instructor with
      | Some t =>
          let target := scaled t in
          let '(deviation, m6) :=
            NewIntVar m5 0 (max_possible_load * 10) (target_dev (instr_id instructor)) in
          let m7 := Add m6 (AbsEquality deviation (lsub (lvar total_load) (lconst target))) in
          (m7, pens5 ++ [lmul deviation target_weight])
      | None => (m5, pens5)
      end
  end.

Definition add_instructor_workload_penalties (m : CpModel) (sects : list Section)
    (instrs : list Instructor) (si_vars : dict Key2 IntVar) (weights : list (string * Q))
  : PenaltyState :=
  let underload_weight := weight_of weights "instructor_underload" 20 in
  let overload_weight := weight_of weights "instructor_overload" 50 in
  let target_weight := weight_of weights "instructor_target_deviation" 5 in
  fold_left (workload_step sects si_vars underload_weight overload_weight target_weight)
            instrs (m, []).

(** [_add_soft_constraints]: the two generators that are switched on. *)
Definition _add_soft_constraints (inp : SolverInput) (st : CPSATSolver)
  : CPSATSolver * list LinearExpr :=
  let '(m1, pens1) :=
    add_instructor_preference_penalties (model st) (sections inp) (instructors inp)
      (meeting_patterns inp) (section_pattern_vars st) (section_instructor_vars st)
      (constraint_weights inp) in
  let '(m2, pens2) :=
    add_instructor_workload_penalties m1 (sections inp) (instructors inp)
      (section_instructor_vars st) (constraint_weights inp) in
  (with_model st m2, pens1 ++ pens2).

(** The model-building half of [solve]. *)
Definition build_model (inp : SolverInput) : result (CPSATSolver * list LinearExpr) :=
  let st1 := _create_variables inp init_solver in
  let st2 := _add_assignment_constraints inp st1 in
  bind (_add_hard_constraints inp st2) (fun st3 => Ok (_add_soft_constraints inp st3)).

(* ===================================================================== *)
(** ** Section preferences ([add_time_preference_penalties] and
       [add_room_preference_penalties], constraints/soft.py)              *)
(* ===================================================================== *)

(** The [if]/[elif] on the level in both generators: only [DISCOURAGED] and
    [PREFERRED] set a value. *)
Definition section_penalty_value (base_weight : Z) (pref_level : PreferenceLevel) : Z :=
  match pref_level with
  | DISCOURAGED => base_weight
  | PREFERRED => - base_weight
  | _ => 0
  end.

(** The generator takes the model and the patterns and uses neither; it
    returns the penalty terms. *)
Definition add_time_preference_penalties (m : CpModel) (sects : list Section)
    (mps : list MeetingPattern) (sp_vars : dict Key2 IntVar)
    (section_time_prefs : dict UUID (dict UUID PreferenceLevel))
    (weights : list (string * Q)) : list LinearExpr :=
  let base_weight := weight_of weights "section_time_preference" 5 in
  flat_map
    (fun section =>
       match dict_get uuid_eqb (sec_id section) section_time_prefs with
       | None | Some [] => []
       | Some prefs =>
           flat_map
             (fun kv =>
                match get2 (sec_id section, fst kv) sp_vars with
                | None => []
                | Some pattern_var =>
                    let penalty_value := section_penalty_value base_weight (snd kv) in
                    if penalty_value =? 0 then [] else [lmul pattern_var penalty_value]
                end)
             prefs
       end)
    sects.

Definition add_room_preference_penalties (m : CpModel) (sects : list Section)
    (rms : list Room) (sr_vars : dict Key2 IntVar)
    (section_room_prefs : dict UUID (dict UUID PreferenceLevel))
    (weights : list (string * Q)) : list LinearExpr :=
  let base_weight := weight_of weights "section_room_preference" 5 in
  flat_map
    (fun section =>
       match dict_get uuid_eqb (sec_id section) section_room_prefs with
       | None | Some [] => []
       | Some prefs =>
           flat_map
             (fun kv =>
                match get2 (sec_id section, fst kv) sr_vars with
                | None => []
                | Some room_var =>
                    let penalty_value := section_penalty_value base_weight (snd kv) in
                    if penalty_value =? 0 then [] else [lmul room_var penalty_value]
                end)
             prefs
       end)
    sects.

(** Where a term of a section-preference generator comes from: a section of
    the list, an entry of its preferences whose level is [DISCOURAGED] or
    [PREFERRED], the variable of the section and the entry's id, and a weight
    that is not zero. *)
Definition section_penalty_origin (base_weight : Z) (sects : list Section)
    (vars : dict Key2 IntVar) (all_prefs : dict UUID (dict UUID PreferenceLevel))
    (t : LinearExpr) : Prop :=
  exists s prefs id level v,
    In s sects
    /\ dict_get uuid_eqb (sec_id s) all_prefs = Some prefs
    /\ In (id, level) prefs
    /\ get2 (sec_id s, id) vars = Some v
    /\ base_weight <> 0
    /\ ((level = DISCOURAGED /\ t = lmul v base_weight)
        \/ (level = PREFERRED /\ t = lmul v (- base_weight))).

(* ===================================================================== *)
(** ** Solution extraction                                                *)
(* ===================================================================== *)

(** [for x in xs: if key in vars and Value(vars[key]) == 1: result = x.id; break] *)
Fixpoint first_chosen (sol : Solution) (d : dict Key2 IntVar) (sid : UUID)
    (ids : list UUID) : option UUID :=
  match ids with
  | [] => None
  | i :: rest =>
      match get2 (sid, i) d with
      | Some v => if Value sol v =? 1 then Some i else first_chosen sol d sid rest
      | None => first_chosen sol d sid rest
      end
  end.

Definition chosen_instructors (sol : Solution) (d : dict Key2 IntVar) (sid : UUID)
    (instrs : list Instructor) : list UUID :=
  flat_map
    (fun i =>
       match get2 (sid, instr_id i) d with
       | Some v => if Value sol v =? 1 then [instr_id i] else []
       | None => []
       end)
    instrs.

Definition extract_section (inp : SolverInput) (st : CPSATSolver) (sol : Solution)
    (section : Section) : Assignment :=
  let assigned_pattern_id :=
    first_chosen sol (section_pattern_vars st) (sec_id section)
                 (map mp_id (meeting_patterns inp)) in
  let assigned_room_id :=
    first_chosen sol (section_room_vars st) (sec_id section) (map room_id (rooms inp)) in
  let assigned_instructors :=
    assigned_instructor_ids section
    ++ chosen_instructors sol (section_instructor_vars st) (sec_id section) (instructors inp) in
  let assigned :=
    match assigned_pattern_id, assigned_room_id with
    | Some _, Some _ => true
    | _, _ => false
    end in
  let date_pattern_id :=
    match fixed_date_pattern_id section with
    | Some d => Some d
    | None => match date_patterns inp with
              | d :: _ => Some (dp_id d)
              | [] => None
              end
    end in
  {| a_section_id := sec_id section;
     a_meeting_pattern_id := assigned_pattern_id;
     a_date_pattern_id := date_pattern_id;
     a_room_id := assigned_room_id;
     a_instructor_ids := assigned_instructors;
     is_assigned := assigned;
     unassigned_reason :=
       if assigned then None else Some "No feasible assignment found"%string |}.

Definition _extract_solution (inp : SolverInput) (st : CPSATSolver) (sol : Solution)
  : list Assignment :=
  map (extract_section inp st sol) (sections inp).

(* ===================================================================== *)
(** ** Validation endpoint ([validate_input], api/routes.py)              *)
(* ===================================================================== *)

Inductive IssueType := no_valid_rooms | no_valid_patterns.

(** The two messages: the first one prints the enrollment. *)
Inductive IssueMessage :=
| No_room_with_capacity (enrollment : Z)
| No_allowed_meeting_patterns.

Record Issue := {
  issue_type : IssueType;
  issue_section_id : UUID;
  message : IssueMessage
}.

Record ValidationResponse := {
  valid : bool;
  issues : list Issue;
  section_count : nat;
  room_count : nat;
  pattern_count : nat
}.

(** [x or default] on an optional collection: [None] and the empty collection
    both give the default. *)
Definition or_default (x : option (list UUID)) (default : list UUID) : list UUID :=
  match x with
  | Some (y :: r) => y :: r
  | _ => default
  end.

Definition validate_section (input_data : SolverInput) (section : Section) : list Issue :=
  let allowed_rooms := or_default (allowed_room_ids section) (map room_id (rooms input_data)) in
  let valid_rooms :=
    filter
      (fun r => mem (room_id r) allowed_rooms && (capacity r >=? expected_enrollment section))
      (rooms input_data) in
  let allowed_patterns :=
    or_default (allowed_meeting_pattern_ids section)
               (map mp_id (meeting_patterns input_data)) in
  (match valid_rooms with
   | [] => [{| issue_type := no_valid_rooms;
               issue_section_id := sec_id section;
               message := No_room_with_capacity (expected_enrollment section) |}]
   | _ => []
   end)
  ++ (match allowed_patterns with
      | [] => [{| issue_type := no_valid_patterns;
                  issue_section_id := sec_id section;
                  message := No_allowed_meeting_patterns |}]
      | _ => []
      end).

Definition validate_input (input_data : SolverInput) : ValidationResponse :=
  let found := flat_map (validate_section input_data) (sections input_data) in
  {| valid := (List.length found =? 0)%nat;
     issues := found;
     section_count := List.length (sections input_data);
     room_count := List.length (rooms input_data);
     pattern_count := List.length (meeting_patterns input_data) |}.

(* ===================================================================== *)
(** ** Publishing a schedule version ([commit_schedule_version],
       db/repository.py)                                                  *)
(* ===================================================================== *)

(** The columns the two statements read or write.  A timestamp is a number;
    [NOW()] is an argument. *)
Record ScheduleVersionRow := {
  sv_id : UUID;
  status : string;
  published_at : option Z;
  updated_at : option Z
}.

Record SectionAssignmentRow := {
  sa_schedule_version_id : UUID;
  sa_section_id : UUID;
  valid_to : option Z;
  assignment_source : string
}.

Record Database := {
  schedule_versions : list ScheduleVersionRow;
  section_assignments : list SectionAssignmentRow
}.

(** [UPDATE ... SET status = 'published', published_at = NOW(),
    updated_at = NOW() WHERE id = $1 AND status = 'draft'] on one row. *)
Definition publish_row (now : Z) (schedule_version_id : UUID) (row : ScheduleVersionRow)
  : ScheduleVersionRow :=
  if uuid_eqb (sv_id row) schedule_version_id && String.eqb (status row) "draft"
  then {| sv_id := sv_id row;
          status := "published";
          published_at := Some now;
          updated_at := Some now |}
  else row.

(** [WHERE schedule_version_id = $1 AND valid_to IS NULL] *)
Definition is_live_for (schedule_version_id : UUID) (row : SectionAssignmentRow) : bool :=
  uuid_eqb (sa_schedule_version_id row) schedule_version_id
  && match valid_to row with None => true | Some _ => false end.

Definition commit_schedule_version (now : Z) (db : Database) (schedule_version_id : UUID)
  : Database * nat :=
  let db' :=
    {| schedule_versions := map (publish_row now schedule_version_id) (schedule_versions db);
       section_assignments := section_assignments db |} in
  (db', List.length (filter (is_live_for schedule_version_id) (section_assignments db'))).

(* ===================================================================== *)
(** ** Concrete inputs and the vocabulary of the statements               *)
(* ===================================================================== *)

Definition hm (h m : Z) : time := mk_time h m 0 0.

Definition meeting (day : Z) (s e : time) : MeetingTime :=
  {| day_of_week := day; start_time := s; end_time := e; break_minutes := 0 |}.

Definition pattern (id : UUID) (ts : list MeetingTime) : MeetingPattern :=
  {| mp_id := id; times := ts; total_minutes_per_week := 150 |}.

Definition room (id : UUID) (cap : Z) : Room :=
  {| room_id := id; capacity := cap; building_id := 900%N; features := [];
     is_schedulable := true |}.

(** A section with the defaults of the model class. *)
Definition section (id : UUID) (enrollment : Z) : Section :=
  {| sec_id := id; course_id := 500%N; expected_enrollment := enrollment;
     credit_hours := 3 # 1;
     allowed_meeting_pattern_ids := None; allowed_room_ids := None;
     required_room_features := [];
     preferred_instructor_ids := []; assigned_instructor_ids := [];
     cross_list_group_id := None; link_group_id := None; is_link_parent := false;
     fixed_meeting_pattern_id := None; fixed_room_id := None;
     fixed_date_pattern_id := None |}.

Definition input (mps : list MeetingPattern) (rms : list Room) (instrs : list Instructor)
    (sects : list Section) : SolverInput :=
  {| meeting_patterns := mps; date_patterns := []; rooms := rms; instructors := instrs;
     courses := []; sections := sects; constraint_weights := [];
     link_connector_type := None |}.

Definition with_assigned (s : Section) (ids : list UUID) : Section :=
  {| sec_id := sec_id s; course_id := course_id s;
     expected_enrollment := expected_enrollment s; credit_hours := credit_hours s;
     allowed_meeting_pattern_ids := allowed_meeting_pattern_ids s;
     allowed_room_ids := allowed_room_ids s;
     required_room_features := required_room_features s;
     preferred_instructor_ids := preferred_instructor_ids s;
     assigned_instructor_ids := ids;
     cross_list_group_id := cross_list_group_id s; link_group_id := link_group_id s;
     is_link_parent := is_link_parent s;
     fixed_meeting_pattern_id := fixed_meeting_pattern_id s;
     fixed_room_id := fixed_room_id s;
     fixed_date_pattern_id := fixed_date_pattern_id s |}.

Definition with_allowed_patterns (s : Section) (ids : option (list UUID)) : Section :=
  {| sec_id := sec_id s; course_id := course_id s;
     expected_enrollment := expected_enrollment s; credit_hours := credit_hours s;
     allowed_meeting_pattern_ids := ids;
     allowed_room_ids := allowed_room_ids s;
     required_room_features := required_room_features s;
     preferred_instructor_ids := preferred_instructor_ids s;
     assigned_instructor_ids := assigned_instructor_ids s;
     cross_list_group_id := cross_list_group_id s; link_group_id := link_group_id s;
     is_link_parent := is_link_parent s;
     fixed_meeting_pattern_id := fixed_meeting_pattern_id s;
     fixed_room_id := fixed_room_id s;
     fixed_date_pattern_id := fixed_date_pattern_id s |}.

Definition with_cross_list (s : Section) (g : UUID) : Section :=
  {| sec_id := sec_id s; course_id := course_id s;
     expected_enrollment := expected_enrollment s; credit_hours := credit_hours s;
     allowed_meeting_pattern_ids := allowed_meeting_pattern_ids s;
     allowed_room_ids := allowed_room_ids s;
     required_room_features := required_room_features s;
     preferred_instructor_ids := preferred_instructor_ids s;
     assigned_instructor_ids := assigned_instructor_ids s;
     cross_list_group_id := Some g; link_group_id := link_group_id s;
     is_link_parent := is_link_parent s;
     fixed_meeting_pattern_id := fixed_meeting_pattern_id s;
     fixed_room_id := fixed_room_id s;
     fixed_date_pattern_id := fixed_date_pattern_id s |}.

(** Monday 9:00-9:50, Monday 9:30-10:20 (overlaps the first), Tuesday
    10:00-11:15, Wednesday 14:00-14:50. *)
Definition mon_9 : MeetingPattern := pattern 1%N [meeting 1 (hm 9 0) (hm 9 50)].
Definition mon_930 : MeetingPattern := pattern 2%N [meeting 1 (hm 9 30) (hm 10 20)].
Definition tue_10 : MeetingPattern := pattern 3%N [meeting 2 (hm 10 0) (hm 11 15)].
Definition wed_14 : MeetingPattern := pattern 4%N [meeting 3 (hm 14 0) (hm 14 50)].

(** Two sections, both pre-assigned to instructor 100, with two overlapping
    patterns to choose from. *)
Definition both_preassigned_input : SolverInput :=
  input [mon_9; mon_930] [room 10%N 30; room 11%N 50] []
        [with_assigned (section 20%N 25) [100%N]; with_assigned (section 21%N 20) [100%N]].

(** Two cross-listed sections whose allowed patterns differ: {1, 3} and {4, 3}. *)
Definition cross_list_input : SolverInput :=
  input [mon_9; tue_10; wed_14] [room 10%N 30; room 11%N 50] []
        [with_cross_list (with_allowed_patterns (section 20%N 25) (Some [1%N; 3%N])) 70%N;
         with_cross_list (with_allowed_patterns (section 21%N 20) (Some [4%N; 3%N])) 70%N].

Definition with_sections (inp : SolverInput) (sects : list Section) : SolverInput :=
  {| meeting_patterns := meeting_patterns inp; date_patterns := date_patterns inp;
     rooms := rooms inp; instructors := instructors inp; courses := courses inp;
     sections := sects; constraint_weights := constraint_weights inp;
     link_connector_type := link_connector_type inp |}.

(** An explicitly empty collection read as an unspecified one. *)
Definition unspecify (x : option (list UUID)) : option (list UUID) :=
  match x with
  | Some [] => None
  | _ => x
  end.

(** The section with each explicitly empty allowed set replaced by [None]. *)
Definition unspecify_empty (s : Section) : Section :=
  {| sec_id := sec_id s; course_id := course_id s;
     expected_enrollment := expected_enrollment s; credit_hours := credit_hours s;
     allowed_meeting_pattern_ids := unspecify (allowed_meeting_pattern_ids s);
     allowed_room_ids := unspecify (allowed_room_ids s);
     required_room_features := required_room_features s;
     preferred_instructor_ids := preferred_instructor_ids s;
     assigned_instructor_ids := assigned_instructor_ids s;
     cross_list_group_id := cross_list_group_id s; link_group_id := link_group_id s;
     is_link_parent := is_link_parent s;
     fixed_meeting_pattern_id := fixed_meeting_pattern_id s;
     fixed_room_id := fixed_room_id s;
     fixed_date_pattern_id := fixed_date_pattern_id s |}.

(** One pattern, one room that fits, one section whose allowed patterns are
    the empty set. *)
Definition empty_allowed_input : SolverInput :=
  input [mon_9] [room 10%N 30] []
        [with_allowed_patterns (section 20%N 25) (Some [])].

(** A draft version 7 with one live and one expired assignment, and an
    archived version 8. *)
Definition draft_db : Database :=
  {| schedule_versions :=
       [{| sv_id := 7%N; status := "draft"; published_at := None; updated_at := None |};
        {| sv_id := 8%N; status := "archived"; published_at := Some 5; updated_at := Some 6 |}];
     section_assignments :=
       [{| sa_schedule_version_id := 7%N; sa_section_id := 20%N; valid_to := None;
           assignment_source := "solver" |};
        {| sa_schedule_version_id := 7%N; sa_section_id := 20%N; valid_to := Some 3;
           assignment_source := "solver" |};
        {| sa_schedule_version_id := 8%N; sa_section_id := 21%N; valid_to := None;
           assignment_source := "manual" |}] |}.

(** What [_create_variables] stores for a pattern id of a section: a constant
    1 or 0 when the pattern is fixed, a Boolean variable otherwise. *)
Definition pattern_var_shape (s : Section) (pid : UUID) (v : IntVar) : Prop :=
  match fixed_meeting_pattern_id s with
  | Some fixed =>
      var_name v = constant
      /\ lb v = (if uuid_eqb pid fixed then 1 else 0)
      /\ ub v = (if uuid_eqb pid fixed then 1 else 0)
  | None => var_name v = sp (sec_id s) pid /\ lb v = 0 /\ ub v = 1
  end.

Definition room_var_shape (s : Section) (rid : UUID) (v : IntVar) : Prop :=
  match fixed_room_id s with
  | Some fixed =>
      var_name v = constant
      /\ lb v = (if uuid_eqb rid fixed then 1 else 0)
      /\ ub v = (if uuid_eqb rid fixed then 1 else 0)
  | None => var_name v = sr (sec_id s) rid /\ lb v = 0 /\ ub v = 1
  end.

(** The pattern ids the section is allowed to take as the source reads them:
    the allowed set itself when it is given and not empty, every pattern of the
    input otherwise. *)
Definition candidate_pattern (inp : SolverInput) (s : Section) (pid : UUID) : Prop :=
  match allowed_meeting_pattern_ids s with
  | Some (x :: r) => In pid (x :: r)
  | _ => In pid (map mp_id (meeting_patterns inp))
  end.

Definition candidate_room (inp : SolverInput) (s : Section) (rid : UUID) : Prop :=
  match allowed_room_ids s with
  | Some (x :: r) => In rid (x :: r)
  | _ => In rid (map room_id (rooms inp))
  end.

(** The candidate set of the specification: allowed ids that are patterns of
    the input, or every pattern of the input when nothing is specified. *)
Definition spec_candidate_pattern (inp : SolverInput) (s : Section) (pid : UUID) : Prop :=
  match allowed_meeting_pattern_ids s with
  | Some ids => In pid ids /\ In pid (map mp_id (meeting_patterns inp))
  | None => In pid (map mp_id (meeting_patterns inp))
  end.

(** One pattern in the input; the section allows pattern 9, which the input
    does not have. *)
Definition unknown_allowed_input : SolverInput :=
  input [mon_9] [room 10%N 30] []
        [with_allowed_patterns (section 20%N 25) (Some [9%N])].

(** [m'] has every variable and every constraint of [m]. *)
Definition extends (m m' : CpModel) : Prop :=
  incl (variables m) (variables m') /\ incl (constraints m) (constraints m').

(** Every variable of a table is a variable of the model and takes the values
    0 and 1 only. *)
Definition boolean_table (d : dict Key2 IntVar) (m : CpModel) : Prop :=
  forall k v, In (k, v) d -> In v (variables m) /\ 0 <= lb v /\ ub v <= 1.

(** The state after [_create_variables]. *)
Definition created (inp : SolverInput) : CPSATSolver := _create_variables inp init_solver.

Definition instructor (id : UUID) : Instructor :=
  {| instr_id := id; min_load := 0; max_load := 12 # 1; target_load := None;
     time_preferences := [] |}.

(** Two sections of 25 and 40 students, rooms of 30 and 50 seats, two patterns
    that do not overlap, each section pre-assigned to its own instructor. *)
Definition two_sections_input : SolverInput :=
  input [mon_9; tue_10] [room 10%N 30; room 11%N 50] [instructor 100%N; instructor 101%N]
        [with_assigned (section 20%N 25) [100%N]; with_assigned (section 21%N 40) [101%N]].

(** A valuation that is 1 on the listed indices, takes the listed values on
    some others and is 0 elsewhere. *)
Definition solution_of (ones : list nat) (others : list (nat * Z)) : Solution :=
  fun i =>
    if existsb (Nat.eqb i) ones then 1
    else match find (fun kv => Nat.eqb i (fst kv)) others with
         | Some kv => snd kv
         | None => 0
         end.

(** Section 20 in room 10 on Monday, section 21 in room 11 on Tuesday. *)
Definition two_sections_solution : Solution :=
  solution_of [0; 2; 4; 9; 11; 15]%nat [(16%nat, 30); (18%nat, 30)].

(** The compatibility test of [_add_immediately_after_constraint]: the
    default gap of 30 minutes. *)
Definition compatible_30 (p c : MeetingPattern) : bool :=
  _patterns_compatible_immediately_after p c 30.

(** Some time of the parent and some time of the child fall on the same day,
    and the child's start is at most [g] minutes after the parent's end, both
    read on the hour and minute fields. *)
Definition minute_gap_ok (p c : MeetingPattern) (g : Z) : Prop :=
  exists pt ct,
    In pt (times p) /\ In ct (times c)
    /\ day_of_week pt = day_of_week ct
    /\ 0 <= minutes_of (start_time ct) - minutes_of (end_time pt) <= g.

(** [parent] and [child] are the parent and one of the children that
    [add_linked_section_constraints] finds in a link group of two sections or
    more. *)
Definition link_pair (inp : SolverInput) (parent child : Section) : Prop :=
  exists kv children,
    In kv (group_sections link_group_id (sections inp))
    /\ (2 <= List.length (snd kv))%nat
    /\ link_parent_children (snd kv) = Some (parent, children)
    /\ In child children.

(** The pattern that extraction reports for a section. *)
Definition chosen_pattern (inp : SolverInput) (st : CPSATSolver) (sol : Solution)
    (s : Section) : option UUID :=
  a_meeting_pattern_id (extract_section inp st sol s).

Definition chosen_room (inp : SolverInput) (st : CPSATSolver) (sol : Solution)
    (s : Section) : option UUID :=
  a_room_id (extract_section inp st sol s).

(** A time as microseconds since midnight. *)
Definition micros (t : time) : Z :=
  ((hour t * 60 + minute t) * 60 + second t) * 1000000 + microsecond t.

(** The compatibility of the specification: on a common day the child's start
    time lies in [parent end, parent end + g minutes]. *)
Definition time_gap_ok (p c : MeetingPattern) (g : Z) : Prop :=
  exists pt ct,
    In pt (times p) /\ In ct (times c)
    /\ day_of_week pt = day_of_week ct
    /\ micros (end_time pt) <= micros (start_time ct)
       <= micros (end_time pt) + g * 60 * 1000000.

Definition with_link (s : Section) (g : UUID) (is_parent : bool) : Section :=
  {| sec_id := sec_id s; course_id := course_id s;
     expected_enrollment := expected_enrollment s; credit_hours := credit_hours s;
     allowed_meeting_pattern_ids := allowed_meeting_pattern_ids s;
     allowed_room_ids := allowed_room_ids s;
     required_room_features := required_room_features s;
     preferred_instructor_ids := preferred_instructor_ids s;
     assigned_instructor_ids := assigned_instructor_ids s;
     cross_list_group_id := cross_list_group_id s; link_group_id := Some g;
     is_link_parent := is_parent;
     fixed_meeting_pattern_id := fixed_meeting_pattern_id s;
     fixed_room_id := fixed_room_id s;
     fixed_date_pattern_id := fixed_date_pattern_id s |}.

(** Monday 10:00-11:50, ten minutes after [mon_9] ends; and Monday
    10:20:30-11:10, which starts thirty minutes and thirty seconds after
    [mon_9] ends. *)
Definition mon_10 : MeetingPattern := pattern 5%N [meeting 1 (hm 10 0) (hm 11 50)].
Definition mon_late : MeetingPattern :=
  pattern 7%N [meeting 1 (mk_time 10 20 30 0) (hm 11 10)].

(** A pattern that ends at 9:50:30 and one that starts at 9:50:00. *)
Definition mon_9_long : MeetingPattern :=
  pattern 8%N [meeting 1 (hm 9 0) (mk_time 9 50 30 0)].
Definition mon_950 : MeetingPattern := pattern 6%N [meeting 1 (hm 9 50) (hm 10 40)].

Definition lecture : Section :=
  with_link (with_allowed_patterns (section 20%N 25) (Some [1%N])) 80%N true.

(** A lecture on Monday 9:00 linked to a lab that may meet Monday 10:00 or
    Tuesday 10:00. *)
Definition lab : Section :=
  with_link (with_allowed_patterns (section 21%N 20) (Some [5%N; 3%N])) 80%N false.

Definition linked_input : SolverInput :=
  input [mon_9; tue_10; mon_10] [room 10%N 30; room 11%N 50] [] [lecture; lab].

(** The same lecture linked to a lab whose only pattern is [mon_late]. *)
Definition late_lab : Section :=
  with_link (with_allowed_patterns (section 21%N 20) (Some [7%N])) 80%N false.

Definition late_linked_input : SolverInput :=
  input [mon_9; mon_late] [room 10%N 30; room 11%N 50] [] [lecture; late_lab].

Definition linked_solution : Solution := solution_of [0; 1; 3; 5; 7; 9]%nat [].
Definition late_linked_solution : Solution := solution_of [0; 1; 3; 5; 6; 8]%nat [].

(** Section 20 on Monday 9:00 and section 21 on Wednesday 14:00, both in
    room 10. *)
Definition cross_list_solution : Solution := solution_of [0; 2; 4; 8; 10; 12]%nat [].

(** [s <= x < e] on times, as a proposition. *)
Definition in_range (x s e : time) : Prop := time_leb s x = true /\ time_ltb x e = true.

(** The matching predicate in the words of the specification: by pattern id
    when the entry names one; otherwise some time of the pattern is on the
    entry's day (any day when the entry has none) and either starts or ends in
    the entry's half-open interval when both bounds are set, or the entry is a
    day-only preference. *)
Definition spec_pattern_matches (p : MeetingPattern) (pref : InstructorPreference) : Prop :=
  match meeting_pattern_id pref with
  | Some pid => mp_id p = pid
  | None =>
      exists t,
        In t (times p)
        /\ (forall d, pref_day_of_week pref = Some d -> day_of_week t = d)
        /\ match pref_start_time pref, pref_end_time pref with
           | Some s, Some e =>
               in_range (start_time t) s e \/ in_range (end_time t) s e
           | _, _ => pref_day_of_week pref <> None
           end
  end.

(** The penalties and the model of [res] contain the term [w * g] for a
    Boolean variable [g] named after the section, the instructor and the
    pattern, tied to the pattern variable [x] and to the instructor variable
    (the constant 1 for a pre-assigned instructor): [g = x * a], or [g = x]. *)
Definition penalty_term_in (res : PenaltyState) (s : Section) (i : UUID)
    (p : MeetingPattern) (x : IntVar) (a : option IntVar) (w : Z) : Prop :=
  exists g,
    In (lmul g w) (snd res)
    /\ In g (variables (fst res))
    /\ var_name g = pref_penalty (sec_id s) i (mp_id p)
    /\ lb g = 0 /\ ub g = 1
    /\ match a with
       | Some iv => In (MultiplicationEquality g [x; iv]) (constraints (fst res))
       | None =>
           mem i (assigned_instructor_ids s) = true ->
           In (LinEq (lvar g) (lvar x)) (constraints (fst res))
       end.

(** The state [acc'] has the model and the penalties of [acc], and more. *)
Definition pextends (acc acc' : PenaltyState) : Prop :=
  extends (fst acc) (fst acc') /\ incl (snd acc) (snd acc').

(** Where a term of the penalty list comes from. *)
Definition penalty_origin (base : Z) (sects : list Section) (by_id : dict UUID Instructor)
    (mps : list MeetingPattern) (sp_vars : dict Key2 IntVar) (t : LinearExpr) : Prop :=
  exists s i instr p x pref g,
    In s sects
    /\ In i (assigned_instructor_ids s ++ preferred_instructor_ids s)
    /\ dict_get uuid_eqb i by_id = Some instr
    /\ In p mps
    /\ get2 (sec_id s, mp_id p) sp_vars = Some x
    /\ In pref (time_preferences instr)
    /\ _pattern_matches_preference p pref = true
    /\ penalty_value_of base (preference_level pref) <> 0
    /\ t = lmul g (penalty_value_of base (preference_level pref)).

Definition with_preferred (s : Section) (ids : list UUID) : Section :=
  {| sec_id := sec_id s; course_id := course_id s;
     expected_enrollment := expected_enrollment s; credit_hours := credit_hours s;
     allowed_meeting_pattern_ids := allowed_meeting_pattern_ids s;
     allowed_room_ids := allowed_room_ids s;
     required_room_features := required_room_features s;
     preferred_instructor_ids := ids;
     assigned_instructor_ids := assigned_instructor_ids s;
     cross_list_group_id := cross_list_group_id s; link_group_id := link_group_id s;
     is_link_parent := is_link_parent s;
     fixed_meeting_pattern_id := fixed_meeting_pattern_id s;
     fixed_room_id := fixed_room_id s;
     fixed_date_pattern_id := fixed_date_pattern_id s |}.

(** Mornings before noon are discouraged, Tuesday is preferred, pattern 1 is
    neutral. *)
Definition discouraged_mornings : InstructorPreference :=
  {| pref_day_of_week := None; pref_start_time := Some (hm 8 0);
     pref_end_time := Some (hm 12 0); meeting_pattern_id := None;
     preference_level := DISCOURAGED |}.

Definition preferred_tuesday : InstructorPreference :=
  {| pref_day_of_week := Some 2; pref_start_time := None; pref_end_time := None;
     meeting_pattern_id := None; preference_level := PREFERRED |}.

Definition neutral_pattern_1 : InstructorPreference :=
  {| pref_day_of_week := None; pref_start_time := None; pref_end_time := None;
     meeting_pattern_id := Some 1%N; preference_level := NEUTRAL |}.

Definition picky_instructor : Instructor :=
  {| instr_id := 100%N; min_load := 0; max_load := 12 # 1; target_load := None;
     time_preferences := [discouraged_mornings; preferred_tuesday; neutral_pattern_1] |}.

(** One section that instructor 100 may teach, with a weight of 7.9 for the
    time preferences. *)
Definition preference_input : SolverInput :=
  {| meeting_patterns := [mon_9; tue_10; wed_14]; date_patterns := [];
     rooms := [room 10%N 30]; instructors := [picky_instructor]; courses := [];
     sections := [with_preferred (section 20%N 25) [100%N]];
     constraint_weights := [("instructor_time_preference"%string, 79 # 10)];
     link_connector_type := None |}.

(** The lecture allows pattern 9 only, which the input does not have. *)
Definition unknown_lecture : Section :=
  with_link (with_allowed_patterns (section 20%N 25) (Some [9%N])) 80%N true.

Definition unknown_linked_input : SolverInput :=
  input [mon_9; mon_10] [room 10%N 30; room 11%N 50] []
        [unknown_lecture;
         with_link (with_allowed_patterns (section 21%N 20) (Some [5%N])) 80%N false].

(** [anchor] is the first section of a cross-list group of two sections or
    more and [other] one of the sections after it. *)
Definition cross_list_pair (inp : SolverInput) (anchor other : Section) : Prop :=
  exists kv others,
    In kv (group_sections cross_list_group_id (sections inp))
    /\ snd kv = anchor :: others
    /\ In other others.

(** Two times of two patterns fall on the same day and intersect. *)
Definition times_collide (p1 p2 : MeetingPattern) : Prop :=
  exists t1 t2,
    In t1 (times p1) /\ In t2 (times p2)
    /\ day_of_week t1 = day_of_week t2
    /\ time_ltb (start_time t1) (end_time t2) = true
    /\ time_ltb (start_time t2) (end_time t1) = true.

(** The two patterns meet on a common day. *)
Definition share_a_day (p c : MeetingPattern) : Prop :=
  exists pt ct, In pt (times p) /\ In ct (times c) /\ day_of_week pt = day_of_week ct.

(** The feature ids a room offers. *)
Definition room_feature_ids (r : Room) : list UUID := map rf_id (features r).

(** Course 500 needs feature 60; room 12 has it, room 10 does not. *)
Definition projector_room : Room :=
  {| room_id := 12%N; capacity := 40; building_id := 900%N;
     features := [{| rf_id := 60%N; quantity := 1 |}]; is_schedulable := true |}.

Definition feature_input : SolverInput :=
  {| meeting_patterns := [mon_9]; date_patterns := [];
     rooms := [room 10%N 30; projector_room]; instructors := [];
     courses := [{| course_ident := 500%N; course_required_room_features := [60%N] |}];
     sections := [section 20%N 25];
     constraint_weights := []; link_connector_type := None |}.

Definition feature_solution : Solution := solution_of [0; 2; 4]%nat [].

Definition with_connector (inp : SolverInput) (c : LinkConnector) : SolverInput :=
  {| meeting_patterns := meeting_patterns inp; date_patterns := date_patterns inp;
     rooms := rooms inp; instructors := instructors inp; courses := courses inp;
     sections := sections inp; constraint_weights := constraint_weights inp;
     link_connector_type := Some c |}.

(** The lab on Tuesday, in room 10. *)
Definition other_day_solution : Solution := solution_of [0; 1; 3; 6; 7; 11]%nat [].

Definition with_fixed_pattern (s : Section) (f : UUID) : Section :=
  {| sec_id := sec_id s; course_id := course_id s;
     expected_enrollment := expected_enrollment s; credit_hours := credit_hours s;
     allowed_meeting_pattern_ids := allowed_meeting_pattern_ids s;
     allowed_room_ids := allowed_room_ids s;
     required_room_features := required_room_features s;
     preferred_instructor_ids := preferred_instructor_ids s;
     assigned_instructor_ids := assigned_instructor_ids s;
     cross_list_group_id := cross_list_group_id s; link_group_id := link_group_id s;
     is_link_parent := is_link_parent s;
     fixed_meeting_pattern_id := Some f;
     fixed_room_id := fixed_room_id s;
     fixed_date_pattern_id := fixed_date_pattern_id s |}.

(** One section fixed on Tuesday 10:00, with two rooms to choose from. *)
Definition fixed_input : SolverInput :=
  input [mon_9; tue_10] [room 10%N 30; room 11%N 50] []
        [with_fixed_pattern (section 20%N 25) 3%N].

Definition fixed_solution : Solution := solution_of [1; 2; 6]%nat [].

(** Every variable of the table of room-pattern variables is a Boolean
    variable of the model. *)
Definition boolean_table3 (d : dict Key3 IntVar) (m : CpModel) : Prop :=
  forall k v, In (k, v) d -> In v (variables m) /\ 0 <= lb v /\ ub v <= 1.

(** The product variable of a section, a room and a pattern is in the table
    together with its defining constraint [z = x * y]. *)
Definition product_var_ok (st : CPSATSolver) (sid rid pid : UUID) (x y : IntVar) : Prop :=
  exists z,
    get3 (sid, rid, pid) (section_room_pattern_vars st) = Some z
    /\ In (MultiplicationEquality z [x; y]) (constraints (model st)).

(** Instructors 100 and 101 are both preferred for the one section; the
    solution picks 101. *)
Definition choice_input : SolverInput :=
  input [mon_9] [room 10%N 30] [instructor 100%N; instructor 101%N]
        [with_preferred (section 20%N 25) [100%N; 101%N]].

Definition choice_solution : Solution :=
  solution_of [0; 1; 2; 4]%nat [(5%nat, 0); (7%nat, 30)].

(** Instructor 100 may teach both sections (pre-assigned to the first,
    preferred for the second); the first two patterns overlap. *)
Definition shared_instructor_input : SolverInput :=
  input [mon_9; mon_930; tue_10] [room 10%N 30; room 11%N 50] [instructor 100%N]
        [with_assigned (section 20%N 25) [100%N];
         with_preferred (section 21%N 20) [100%N]].

(** [room_section_by_pattern.get(k, [])] *)
Definition vars_at (d : dict UUID (list IntVar)) (k : UUID) : list IntVar :=
  match dict_get uuid_eqb k d with Some l => l | None => [] end.

(** The product variables of one section, one room and the patterns of one
    id, in the order of the pattern list. *)
Definition section_room_vars_at (mps : list MeetingPattern) (srp_vars : dict Key3 IntVar)
    (rid pid : UUID) (s : Section) : list IntVar :=
  flat_map
    (fun p =>
       if uuid_eqb (mp_id p) pid
       then match get3 (sec_id s, rid, mp_id p) srp_vars with Some v => [v] | None => [] end
       else [])
    mps.

(** The constraints in [cs] bound the variables filed under the pattern ids
    [a] and [b] to one in total, when both ids have variables. *)
Definition pair_covered (by_pattern : dict UUID (list IntVar)) (sol : Solution)
    (cs : list Constraint) (a b : UUID) : Prop :=
  vars_at by_pattern a <> [] -> vars_at by_pattern b <> [] ->
  (forall c, In c cs -> holds sol c) ->
  sum_values sol (vars_at by_pattern a) + sum_values sol (vars_at by_pattern b) <= 1.

(** Both sections of [two_sections_input] in the room of 50 seats, the first
    on Monday at 9:00 and the second on Tuesday at 10:00. *)
Definition shared_room_solution : Solution :=
  solution_of [0; 3; 5; 9; 11; 15]%nat [(16%nat, 30); (18%nat, 30)].

(** [max_possible_load] of the workload generator for the entries [isects]
    of one instructor. *)
Definition max_possible_load (sects : list Section) (isects : list (UUID * LoadTerm)) : Z :=
  fold_left Z.add (map snd (section_loads_scaled (section_loads sects) isects)) 0.

(** What the workload generator leaves in the model and in the penalty list
    for an instructor whose entries are [isects]: the load variable with its
    defining equation, the overload variable, and the underload and deviation
    variables when the instructor has a positive minimum and a target. *)
Definition workload_terms_in (acc : PenaltyState) (sects : list Section)
    (isects : list (UUID * LoadTerm)) (i : Instructor) (uw ow tw : Z) : Prop :=
  let scaled_loads := section_loads_scaled (section_loads sects) isects in
  let mpl := max_possible_load sects isects in
  exists T,
    (In T (variables (fst acc)) /\ var_name T = load (instr_id i) /\ lb T = 0 /\ ub T = mpl)
    /\ In (LinEq (lvar T) (lsum (map (load_expr scaled_loads) isects))) (constraints (fst acc))
    /\ (exists O,
           (In O (variables (fst acc)) /\ var_name O = overload (instr_id i)
            /\ lb O = 0 /\ ub O = mpl * 10)
           /\ In (LinGe (lvar O) (lsub (lvar T) (lconst (scaled (max_load i)))))
                 (constraints (fst acc))
           /\ In (lmul O ow) (snd acc))
    /\ (0 < Qnum (min_load i) ->
        exists U,
          (In U (variables (fst acc)) /\ var_name U = underload (instr_id i)
           /\ lb U = 0 /\ ub U = scaled (min_load i))
          /\ In (LinGe (lvar U) (lsub (lconst (scaled (min_load i))) (lvar T)))
                (constraints (fst acc))
          /\ In (lmul U uw) (snd acc))
    /\ (forall t, target_load i = Some t ->
        exists D,
          (In D (variables (fst acc)) /\ var_name D = target_dev (instr_id i)
           /\ lb D = 0 /\ ub D = mpl * 10)
          /\ In (AbsEquality D (lsub (lvar T) (lconst (scaled t)))) (constraints (fst acc))
          /\ In (lmul D tw) (snd acc)).

(** The load an assignment gives an instructor: the credit hours, scaled by
    ten, of the sections that are reported with the instructor. *)
Definition reported_load (inp : SolverInput) (st : CPSATSolver) (sol : Solution)
    (iid : UUID) : Z :=
  fold_right Z.add 0
    (map (fun s => if mem iid (a_instructor_ids (extract_section inp st sol s))
                   then scaled (credit_hours s) else 0)
         (sections inp)).

(** What one section adds to the load expression of an instructor. *)
Definition load_contribution (sol : Solution) (si_vars : dict Key2 IntVar) (iid : UUID)
    (s : Section) : Z :=
  match get2 (sec_id s, iid) si_vars with
  | Some v => scaled (credit_hours s) * Value sol v
  | None => if mem iid (assigned_instructor_ids s) then scaled (credit_hours s) else 0
  end.

Definition with_credit_hours (s : Section) (h : Q) : Section :=
  {| sec_id := sec_id s; course_id := course_id s;
     expected_enrollment := expected_enrollment s; credit_hours := h;
     allowed_meeting_pattern_ids := allowed_meeting_pattern_ids s;
     allowed_room_ids := allowed_room_ids s;
     required_room_features := required_room_features s;
     preferred_instructor_ids := preferred_instructor_ids s;
     assigned_instructor_ids := assigned_instructor_ids s;
     cross_list_group_id := cross_list_group_id s; link_group_id := link_group_id s;
     is_link_parent := is_link_parent s;
     fixed_meeting_pattern_id := fixed_meeting_pattern_id s;
     fixed_room_id := fixed_room_id s;
     fixed_date_pattern_id := fixed_date_pattern_id s |}.

(** An instructor with a target load of twelve hours whose only section is a
    one-hour section. *)
Definition target_instructor : Instructor :=
  {| instr_id := 100%N; min_load := 0; max_load := 12 # 1; target_load := Some (12 # 1);
     time_preferences := [] |}.

Definition far_target_input : SolverInput :=
  input [mon_9] [room 10%N 30] [target_instructor]
        [with_credit_hours (with_assigned (section 20%N 25) [100%N]) (1 # 1)].

(** The [no_valid_rooms] issue of a section. *)
Definition rooms_issue (s : Section) : Issue :=
  {| issue_type := no_valid_rooms; issue_section_id := sec_id s;
     message := No_room_with_capacity (expected_enrollment s) |}.

(** Two cross-listed sections that may both take every pattern and every room
    of the input. *)
Definition plain_cross_list_input : SolverInput :=
  input [mon_9; tue_10] [room 10%N 30; room 11%N 50] []
        [with_cross_list (section 20%N 25) 70%N; with_cross_list (section 21%N 20) 70%N].



(** One section of 40 students and one room of 30 seats. *)
Definition oversized_input : SolverInput :=
  input [mon_9] [room 10%N 30] [] [section 20%N 40].

(* ===================================================================== *)
(** ** Basic facts: sets, dictionaries, folds                             *)
(* ===================================================================== *)

Lemma uuid_eqb_eq a b : uuid_eqb a b = true <-> a = b.
Proof. apply N.eqb_eq. Qed.

Lemma uuid_eqb_refl a : uuid_eqb a a = true.
Proof. apply N.eqb_refl. Qed.

Lemma uuid_eqb_neq a b : uuid_eqb a b = false <-> a <> b.
Proof. apply N.eqb_neq. Qed.

Lemma mem_In x xs : mem x xs = true <-> In x xs.
Proof.
  unfold mem. rewrite existsb_exists. split.
  - intros [y [Hy He]]. apply uuid_eqb_eq in He. now subst.
  - intros H. exists x. split; [assumption | apply uuid_eqb_refl].
Qed.

Lemma In_filter_ne x y l :
  In y (filter (fun z => negb (uuid_eqb x z)) l) <-> In y l /\ x <> y.
Proof.
  rewrite filter_In. rewrite negb_true_iff, uuid_eqb_neq. tauto.
Qed.

Lemma set_of_In xs : forall y, In y (set_of xs) <-> In y xs.
Proof.
  induction xs as [|x r IH]; intros y; simpl; [tauto|].
  rewrite In_filter_ne, IH.
  destruct (N.eq_dec x y); subst; tauto.
Qed.

Lemma set_of_NoDup xs : NoDup (set_of xs).
Proof.
  induction xs as [|x r IH]; simpl; constructor.
  - rewrite In_filter_ne. tauto.
  - now apply NoDup_filter.
Qed.


Section DictFacts.
Variables K V : Type.
Variable eqb : K -> K -> bool.
Hypothesis eqb_spec : forall a b, eqb a b = true <-> a = b.

Lemma dict_get_set_same k v (d : dict K V) : dict_get eqb k (dict_set eqb k v d) = Some v.
Proof.
  induction d as [|[k' v'] r IH]; simpl.
  - assert (E : eqb k k = true) by now apply eqb_spec. now rewrite E.
  - destruct (eqb k k') eqn:E; simpl; rewrite E; auto.
Qed.

Lemma dict_get_set_other k k' v (d : dict K V) :
  k <> k' -> dict_get eqb k' (dict_set eqb k v d) = dict_get eqb k' d.
Proof.
  intros Hne. induction d as [|[k0 v0] r IH]; simpl.
  - destruct (eqb k' k) eqn:E; auto.
    apply eqb_spec in E. congruence.
  - destruct (eqb k k0) eqn:E; simpl.
    + apply eqb_spec in E. subst k0.
      destruct (eqb k' k) eqn:E'; auto.
      apply eqb_spec in E'. congruence.
    + now rewrite IH.
Qed.

Lemma dict_get_In k v (d : dict K V) : dict_get eqb k d = Some v -> In (k, v) d.
Proof.
  induction d as [|[k' v'] r IH]; simpl; [discriminate|].
  destruct (eqb k k') eqn:E.
  - intros [= ->]. apply eqb_spec in E. subst. now left.
  - intros H. right. auto.
Qed.

Lemma dict_get_keys k (d : dict K V) :
  In k (dict_keys d) <-> exists v, dict_get eqb k d = Some v.
Proof.
  unfold dict_keys. induction d as [|[k' v'] r IH]; simpl.
  - split; [tauto | intros [v H]; discriminate].
  - destruct (eqb k k') eqn:E.
    + apply eqb_spec in E. subst. split; eauto.
    + rewrite <- IH. split; [|tauto].
      intros [H|H]; [|assumption]. subst k'.
      assert (E' : eqb k k = true) by now apply eqb_spec. congruence.
Qed.

Lemma dict_set_In k v (d : dict K V) kv :
  In kv (dict_set eqb k v d) -> kv = (k, v) \/ In kv d.
Proof.
  induction d as [|[k0 v0] r IH]; simpl.
  - intros [<-|[]]. now left.
  - destruct (eqb k k0) eqn:E; simpl.
    + apply eqb_spec in E. subst k0. intros [<-|H]; auto.
    + intros [<-|H]; auto. destruct (IH H); auto.
Qed.

End DictFacts.

Lemma key2_eqb_eq a b : key2_eqb a b = true <-> a = b.
Proof.
  destruct a, b. unfold key2_eqb. simpl.
  rewrite andb_true_iff, !uuid_eqb_eq. split; [intros []|intros [=]]; subst; auto.
Qed.

Lemma key3_eqb_eq a b : key3_eqb a b = true <-> a = b.
Proof.
  destruct a, b. unfold key3_eqb. simpl.
  rewrite andb_true_iff, key2_eqb_eq, uuid_eqb_eq.
  split; [intros []|intros [=]]; subst; auto.
Qed.


(* ===================================================================== *)
(** ** Publishing a schedule version                                      *)
(* ===================================================================== *)

Lemma publish_row_published now id row :
  status row <> "draft"%string -> publish_row now id row = row.
Proof.
  intros H. unfold publish_row.
  destruct (String.eqb (status row) "draft") eqn:E.
  - apply String.eqb_eq in E. contradiction.
  - now rewrite andb_false_r.
Qed.

Lemma publish_row_idem now now' id row :
  publish_row now' id (publish_row now id row) = publish_row now id row.
Proof.
  unfold publish_row at 2 3.
  destruct (uuid_eqb (sv_id row) id && String.eqb (status row) "draft") eqn:E.
  - apply publish_row_published. simpl. discriminate.
  - unfold publish_row. now rewrite E.
Qed.

(** C9. [commit_schedule_version] turns a draft row of the version into a
    published one stamped with the current time, leaves an already published
    row as it is, changes nothing when applied a second time, and returns each
    time the number of live ([valid_to] null) assignment rows of the version. *)
Theorem commit_schedule_version_publishes_once (now now' : Z) (db : Database) (id : UUID) :
  let db1 := fst (commit_schedule_version now db id) in
  (forall i row,
      nth_error (schedule_versions db) i = Some row ->
      sv_id row = id -> status row = "draft"%string ->
      exists row',
        nth_error (schedule_versions db1) i = Some row'
        /\ sv_id row' = id /\ status row' = "published"%string
        /\ published_at row' = Some now)
  /\ (forall i row,
         nth_error (schedule_versions db) i = Some row ->
         status row = "published"%string ->
         nth_error (schedule_versions db1) i = Some row)
  /\ fst (commit_schedule_version now' db1 id) = db1
  /\ snd (commit_schedule_version now db id)
     = List.length (filter (is_live_for id) (section_assignments db))
  /\ snd (commit_schedule_version now' db1 id)
     = List.length (filter (is_live_for id) (section_assignments db)).
Proof.
  simpl. repeat split.
  - intros i row Hn Hid Hst.
    exists (publish_row now id row). rewrite nth_error_map, Hn. simpl.
    unfold publish_row. rewrite Hid, uuid_eqb_refl, Hst. simpl. auto.
  - intros i row Hn Hst.
    rewrite nth_error_map, Hn. simpl. f_equal.
    apply publish_row_published. rewrite Hst. discriminate.
  - unfold commit_schedule_version. simpl. f_equal.
    rewrite map_map. apply map_ext. intros row. apply publish_row_idem.
Qed.

Lemma commit_schedule_version_publishes_once_witness :
  status (nth 0 (schedule_versions (fst (commit_schedule_version 42 draft_db 7%N)))
              {| sv_id := 0%N; status := ""; published_at := None; updated_at := None |})
  = "published"%string
  /\ snd (commit_schedule_version 42 draft_db 7%N) = 1%nat.
Proof.
  pose proof (commit_schedule_version_publishes_once 42 43 draft_db 7%N) as H.
  simpl in H. destruct H as [H1 [_ [_ [H4 _]]]].
  split.
  - destruct (H1 0%nat _ eq_refl eq_refl eq_refl) as [row' [Hn [_ [Hs _]]]].
    simpl in Hn. injection Hn as <-. reflexivity.
  - exact H4.
Defined.

(* ===================================================================== *)
(** ** The validation endpoint                                            *)
(* ===================================================================== *)

Lemma validate_section_patterns_issue inp s i :
  In i (validate_section inp s) /\ issue_type i = no_valid_patterns
  <-> i = {| issue_type := no_valid_patterns; issue_section_id := sec_id s;
             message := No_allowed_meeting_patterns |}
      /\ (allowed_meeting_pattern_ids s = None \/ allowed_meeting_pattern_ids s = Some [])
      /\ meeting_patterns inp = [].
Proof.
  unfold validate_section. rewrite in_app_iff. split.
  - intros [[H|H] Ht].
    + destruct (filter _ (rooms inp)); simpl in H; [|contradiction].
      destruct H as [<-|[]]. discriminate.
    + destruct (or_default _ _) eqn:E; simpl in H; [|contradiction].
      destruct H as [<-|[]]. split; [reflexivity|].
      unfold or_default in E.
      destruct (allowed_meeting_pattern_ids s) as [[|x r]|]; try discriminate;
        (split; [tauto|]); now destruct (meeting_patterns inp).
  - intros [-> [Ha Hm]]. split; [|reflexivity]. right.
    rewrite Hm. destruct Ha as [-> | ->]; simpl; auto.
Qed.

(** C6 (as amended). [validate_input] returns a response for every input;
    [valid] is true exactly when the list of issues is empty; and a
    [no_valid_patterns] issue is reported for a section exactly when its
    allowed set is unspecified or empty and the input has no meeting pattern
    at all, an empty allowed set falling back to all patterns of the input. *)
Theorem validate_input_reports_patterns (inp : SolverInput) :
  (valid (validate_input inp) = true <-> issues (validate_input inp) = [])
  /\ (forall i,
         In i (issues (validate_input inp)) /\ issue_type i = no_valid_patterns
         <-> exists s,
             In s (sections inp)
             /\ i = {| issue_type := no_valid_patterns; issue_section_id := sec_id s;
                       message := No_allowed_meeting_patterns |}
             /\ (allowed_meeting_pattern_ids s = None
                 \/ allowed_meeting_pattern_ids s = Some [])
             /\ meeting_patterns inp = []).
Proof.
  split.
  - simpl. rewrite Nat.eqb_eq. apply length_zero_iff_nil.
  - intros i. simpl. rewrite in_flat_map. split.
    + intros [[s [Hs Hi]] Ht]. exists s. split; [assumption|].
      apply validate_section_patterns_issue. auto.
    + intros [s [Hs H]]. apply validate_section_patterns_issue in H.
      destruct H as [Hi Ht]. split; [exists s; auto | assumption].
Qed.

(** C6, the claim as stated fails: a section with an explicitly empty allowed
    pattern set passes validation when the input has a pattern. *)
Lemma validate_input_empty_allowed_passes :
  (exists s, In s (sections empty_allowed_input)
             /\ allowed_meeting_pattern_ids s = Some [])
  /\ valid (validate_input empty_allowed_input) = true
  /\ issues (validate_input empty_allowed_input) = [].
Proof.
  split; [|split; reflexivity].
  eexists. split; [left; reflexivity | reflexivity].
Qed.

(* ===================================================================== *)
(** ** The variable factory                                               *)
(* ===================================================================== *)

Lemma fold_left_inv {A B : Type} (P : A -> Prop) (f : A -> B -> A) (l : list B) :
  forall a, P a -> (forall a x, In x l -> P a -> P (f a x)) -> P (fold_left f l a).
Proof.
  induction l as [|x r IH]; simpl; intros a Ha Hf; [assumption|].
  apply IH; [apply Hf; auto | intros; apply Hf; auto].
Qed.

Lemma get2_set_same k v d : get2 k (dict_set key2_eqb k v d) = Some v.
Proof. apply dict_get_set_same, key2_eqb_eq. Qed.

Lemma get2_set_other k k' v d : k <> k' -> get2 k' (dict_set key2_eqb k v d) = get2 k' d.
Proof. apply dict_get_set_other, key2_eqb_eq. Qed.

Lemma allowed_patterns_In inp s pid :
  In pid (allowed_patterns inp s) <-> candidate_pattern inp s pid.
Proof.
  unfold allowed_patterns, candidate_pattern.
  destruct (allowed_meeting_pattern_ids s) as [[|x r]|]; apply set_of_In.
Qed.

Lemma allowed_rooms_In inp s rid :
  In rid (allowed_rooms inp s) <-> candidate_room inp s rid.
Proof.
  unfold allowed_rooms, candidate_room.
  destruct (allowed_room_ids s) as [[|x r]|]; apply set_of_In.
Qed.

(** *** The loop over the allowed patterns *)

Lemma create_pattern_var_room_vars s st pid :
  section_room_vars (create_pattern_var s st pid) = section_room_vars st.
Proof. unfold create_pattern_var. now destruct (fixed_meeting_pattern_id s). Qed.

Lemma create_pattern_var_get s st pid :
  exists v,
    section_pattern_vars (create_pattern_var s st pid)
    = dict_set key2_eqb (sec_id s, pid) v (section_pattern_vars st)
    /\ pattern_var_shape s pid v
    /\ variables (model (create_pattern_var s st pid)) = variables (model st) ++ [v]
    /\ constraints (model (create_pattern_var s st pid)) = constraints (model st).
Proof.
  unfold create_pattern_var, pattern_var_shape.
  destruct (fixed_meeting_pattern_id s); simpl; eexists; repeat split.
Qed.

Lemma fold_pattern_other s pids : forall st k,
  fst k <> sec_id s \/ ~ In (snd k) pids ->
  get2 k (section_pattern_vars (fold_left (create_pattern_var s) pids st))
  = get2 k (section_pattern_vars st).
Proof.
  induction pids as [|p r IH]; simpl; intros st k Hk; [reflexivity|].
  rewrite IH by tauto.
  destruct (create_pattern_var_get s st p) as [v [-> _]].
  apply get2_set_other. destruct k as [a b]; simpl in *. intros [= <- <-]. tauto.
Qed.

Lemma fold_pattern_in s pids : forall st pid,
  In pid pids ->
  exists v,
    get2 (sec_id s, pid) (section_pattern_vars (fold_left (create_pattern_var s) pids st))
    = Some v
    /\ pattern_var_shape s pid v.
Proof.
  induction pids as [|p r IH]; simpl; intros st pid Hin; [contradiction|].
  destruct (in_dec N.eq_dec pid r) as [Hr|Hr]; [now apply IH|].
  destruct Hin as [->|Hin]; [|contradiction].
  rewrite fold_pattern_other by (simpl; tauto).
  destruct (create_pattern_var_get s st pid) as [v [-> [Hv _]]].
  exists v. split; [apply get2_set_same | assumption].
Qed.

Lemma fold_pattern_room_vars s pids : forall st,
  section_room_vars (fold_left (create_pattern_var s) pids st) = section_room_vars st.
Proof.
  induction pids as [|p r IH]; simpl; intros st; [reflexivity|].
  now rewrite IH, create_pattern_var_room_vars.
Qed.

(** *** The loop over the allowed rooms *)

Lemma create_room_var_pattern_vars s st rid :
  section_pattern_vars (create_room_var s st rid) = section_pattern_vars st.
Proof. unfold create_room_var. now destruct (fixed_room_id s). Qed.

Lemma create_room_var_get s st rid :
  exists v,
    section_room_vars (create_room_var s st rid)
    = dict_set key2_eqb (sec_id s, rid) v (section_room_vars st)
    /\ room_var_shape s rid v
    /\ variables (model (create_room_var s st rid)) = variables (model st) ++ [v]
    /\ constraints (model (create_room_var s st rid)) = constraints (model st).
Proof.
  unfold create_room_var, room_var_shape.
  destruct (fixed_room_id s); simpl; eexists; repeat split.
Qed.

Lemma fold_room_other s rids : forall st k,
  fst k <> sec_id s \/ ~ In (snd k) rids ->
  get2 k (section_room_vars (fold_left (create_room_var s) rids st))
  = get2 k (section_room_vars st).
Proof.
  induction rids as [|p r IH]; simpl; intros st k Hk; [reflexivity|].
  rewrite IH by tauto.
  destruct (create_room_var_get s st p) as [v [-> _]].
  apply get2_set_other. destruct k as [a b]; simpl in *. intros [= <- <-]. tauto.
Qed.

Lemma fold_room_in s rids : forall st rid,
  In rid rids ->
  exists v,
    get2 (sec_id s, rid) (section_room_vars (fold_left (create_room_var s) rids st))
    = Some v
    /\ room_var_shape s rid v.
Proof.
  induction rids as [|p r IH]; simpl; intros st rid Hin; [contradiction|].
  destruct (in_dec N.eq_dec rid r) as [Hr|Hr]; [now apply IH|].
  destruct Hin as [->|Hin]; [|contradiction].
  rewrite fold_room_other by (simpl; tauto).
  destruct (create_room_var_get s st rid) as [v [-> [Hv _]]].
  exists v. split; [apply get2_set_same | assumption].
Qed.

Lemma fold_room_pattern_vars s rids : forall st,
  section_pattern_vars (fold_left (create_room_var s) rids st) = section_pattern_vars st.
Proof.
  induction rids as [|p r IH]; simpl; intros st; [reflexivity|].
  now rewrite IH, create_room_var_pattern_vars.
Qed.

(** *** The loops that leave both tables alone *)

Lemma fold_room_pattern_tables s pids rids : forall st,
  let st' :=
    fold_left
      (fun st pattern_id => fold_left (create_room_pattern_var s pattern_id) rids st)
      pids st in
  section_pattern_vars st' = section_pattern_vars st
  /\ section_room_vars st' = section_room_vars st.
Proof.
  intros st. apply fold_left_inv with
    (P := fun x => section_pattern_vars x = section_pattern_vars st
                   /\ section_room_vars x = section_room_vars st); [auto|].
  intros a p _ Ha. apply fold_left_inv; [assumption|].
  intros b rid _ Hb. unfold create_room_pattern_var. simpl. assumption.
Qed.

Lemma fold_instructor_tables s iids : forall st,
  let st' := fold_left (create_instructor_var s) iids st in
  section_pattern_vars st' = section_pattern_vars st
  /\ section_room_vars st' = section_room_vars st.
Proof.
  intros st. apply fold_left_inv with
    (P := fun x => section_pattern_vars x = section_pattern_vars st
                   /\ section_room_vars x = section_room_vars st); [auto|].
  intros a p _ Ha. unfold create_instructor_var. simpl. assumption.
Qed.

Lemma create_section_pattern_vars inp st s :
  section_pattern_vars (create_section_variables inp st s)
  = section_pattern_vars (fold_left (create_pattern_var s) (allowed_patterns inp s) st).
Proof.
  unfold create_section_variables.
  destruct (fold_instructor_tables s (potential_instructors s)
              (fold_left
                 (fun st0 pattern_id =>
                    fold_left (create_room_pattern_var s pattern_id) (allowed_rooms inp s) st0)
                 (allowed_patterns inp s)
                 (fold_left (create_room_var s) (allowed_rooms inp s)
                    (fold_left (create_pattern_var s) (allowed_patterns inp s) st))))
    as [-> _].
  destruct (fold_room_pattern_tables s (allowed_patterns inp s) (allowed_rooms inp s)
              (fold_left (create_room_var s) (allowed_rooms inp s)
                 (fold_left (create_pattern_var s) (allowed_patterns inp s) st)))
    as [-> _].
  apply fold_room_pattern_vars.
Qed.

Lemma create_section_room_vars inp st s :
  section_room_vars (create_section_variables inp st s)
  = section_room_vars
      (fold_left (create_room_var s) (allowed_rooms inp s)
         (fold_left (create_pattern_var s) (allowed_patterns inp s) st)).
Proof.
  unfold create_section_variables.
  destruct (fold_instructor_tables s (potential_instructors s)
              (fold_left
                 (fun st0 pattern_id =>
                    fold_left (create_room_pattern_var s pattern_id) (allowed_rooms inp s) st0)
                 (allowed_patterns inp s)
                 (fold_left (create_room_var s) (allowed_rooms inp s)
                    (fold_left (create_pattern_var s) (allowed_patterns inp s) st))))
    as [_ ->].
  destruct (fold_room_pattern_tables s (allowed_patterns inp s) (allowed_rooms inp s)
              (fold_left (create_room_var s) (allowed_rooms inp s)
                 (fold_left (create_pattern_var s) (allowed_patterns inp s) st)))
    as [_ ->].
  reflexivity.
Qed.

(** *** The loop over the sections *)

Lemma create_variables_pattern_other inp l : forall st sid pid,
  ~ In sid (map sec_id l) ->
  get2 (sid, pid) (section_pattern_vars (fold_left (create_section_variables inp) l st))
  = get2 (sid, pid) (section_pattern_vars st).
Proof.
  induction l as [|a r IH]; simpl; intros st sid pid Hn; [reflexivity|].
  rewrite IH by tauto.
  rewrite create_section_pattern_vars.
  apply fold_pattern_other. simpl. left. intros E. apply Hn. now left.
Qed.

Lemma create_variables_room_other inp l : forall st sid rid,
  ~ In sid (map sec_id l) ->
  get2 (sid, rid) (section_room_vars (fold_left (create_section_variables inp) l st))
  = get2 (sid, rid) (section_room_vars st).
Proof.
  induction l as [|a r IH]; simpl; intros st sid rid Hn; [reflexivity|].
  rewrite IH by tauto.
  rewrite create_section_room_vars, fold_room_other, fold_pattern_room_vars; [reflexivity|].
  simpl. left. intros E. apply Hn. now left.
Qed.

Lemma create_variables_pattern_table inp l : forall st s,
  NoDup (map sec_id l) -> In s l ->
  (forall pid, get2 (sec_id s, pid) (section_pattern_vars st) = None) ->
  forall pid,
    (candidate_pattern inp s pid ->
     exists v,
       get2 (sec_id s, pid)
            (section_pattern_vars (fold_left (create_section_variables inp) l st)) = Some v
       /\ pattern_var_shape s pid v)
    /\ (~ candidate_pattern inp s pid ->
        get2 (sec_id s, pid)
             (section_pattern_vars (fold_left (create_section_variables inp) l st)) = None).
Proof.
  induction l as [|a r IH]; simpl; intros st s Hnd Hin Hst pid; [contradiction|].
  inversion Hnd as [|x y Hna Hnr]; subst.
  destruct Hin as [->|Hin].
  - rewrite create_variables_pattern_other by assumption.
    rewrite create_section_pattern_vars. split; intros Hc.
    + apply fold_pattern_in. now apply allowed_patterns_In.
    + rewrite fold_pattern_other; [apply Hst|].
      simpl. right. now rewrite allowed_patterns_In.
  - apply IH; try assumption.
    intros q. rewrite create_section_pattern_vars, fold_pattern_other; [apply Hst|].
    simpl. left. intros E. apply Hna. rewrite <- E. now apply in_map.
Qed.

Lemma create_variables_room_table inp l : forall st s,
  NoDup (map sec_id l) -> In s l ->
  (forall rid, get2 (sec_id s, rid) (section_room_vars st) = None) ->
  forall rid,
    (candidate_room inp s rid ->
     exists v,
       get2 (sec_id s, rid)
            (section_room_vars (fold_left (create_section_variables inp) l st)) = Some v
       /\ room_var_shape s rid v)
    /\ (~ candidate_room inp s rid ->
        get2 (sec_id s, rid)
             (section_room_vars (fold_left (create_section_variables inp) l st)) = None).
Proof.
  induction l as [|a r IH]; simpl; intros st s Hnd Hin Hst rid; [contradiction|].
  inversion Hnd as [|x y Hna Hnr]; subst.
  destruct Hin as [->|Hin].
  - rewrite create_variables_room_other by assumption.
    rewrite create_section_room_vars. split; intros Hc.
    + apply fold_room_in. now apply allowed_rooms_In.
    + rewrite fold_room_other, fold_pattern_room_vars; [apply Hst|].
      simpl. right. now rewrite allowed_rooms_In.
  - apply IH; try assumption.
    intros q.
    rewrite create_section_room_vars, fold_room_other, fold_pattern_room_vars; [apply Hst|].
    simpl. left. intros E. apply Hna. rewrite <- E. now apply in_map.
Qed.

(** C4 (as amended). For a section of an input whose section ids are distinct,
    [_create_variables] stores a pattern variable exactly for the ids of the
    section's allowed set when that set is given and not empty (whether or not
    the input has such a pattern), and for every pattern of the input
    otherwise; with a fixed pattern the stored variable is the constant 1 for
    the fixed id and the constant 0 for every other id, and a Boolean variable
    when nothing is fixed.  Rooms are treated the same way. *)
Theorem create_variables_candidates (inp : SolverInput) (s : Section) :
  NoDup (map sec_id (sections inp)) -> In s (sections inp) ->
  let st := _create_variables inp init_solver in
  (forall pid,
      (candidate_pattern inp s pid ->
       exists v, get2 (sec_id s, pid) (section_pattern_vars st) = Some v
                 /\ pattern_var_shape s pid v)
      /\ (~ candidate_pattern inp s pid ->
          get2 (sec_id s, pid) (section_pattern_vars st) = None))
  /\ (forall rid,
         (candidate_room inp s rid ->
          exists v, get2 (sec_id s, rid) (section_room_vars st) = Some v
                    /\ room_var_shape s rid v)
         /\ (~ candidate_room inp s rid ->
             get2 (sec_id s, rid) (section_room_vars st) = None)).
Proof.
  intros Hnd Hin. simpl. unfold _create_variables. split; intros x.
  - now apply create_variables_pattern_table.
  - now apply create_variables_room_table.
Qed.

Lemma create_variables_candidates_witness :
  get2 (20%N, 9%N) (section_pattern_vars (_create_variables unknown_allowed_input init_solver))
  <> None
  /\ get2 (20%N, 1%N) (section_pattern_vars (_create_variables unknown_allowed_input init_solver))
     = None.
Proof.
  assert (Hnd : NoDup (map sec_id (sections unknown_allowed_input))).
  { simpl. constructor; [simpl; tauto | constructor]. }
  assert (Hin : In (with_allowed_patterns (section 20%N 25) (Some [9%N]))
                   (sections unknown_allowed_input)) by (left; reflexivity).
  destruct (create_variables_candidates unknown_allowed_input _ Hnd Hin) as [Hp _].
  split.
  - assert (Hc : candidate_pattern unknown_allowed_input
                   (with_allowed_patterns (section 20%N 25) (Some [9%N])) 9%N)
      by (unfold candidate_pattern; simpl; auto).
    destruct (proj1 (Hp 9%N) Hc) as [v [Hv _]].
    intros E. simpl in Hv, E. rewrite E in Hv. discriminate Hv.
  - apply (proj2 (Hp 1%N)). unfold candidate_pattern. simpl. intros [H|[]]. discriminate.
Defined.

(** C4, the claim as stated fails: the section allows pattern 9, the input has
    no pattern 9, so 9 is not in the intersection of the allowed set with the
    patterns of the input, and yet a variable is allocated for it. *)
Lemma create_variables_unknown_pattern :
  (exists s, In s (sections unknown_allowed_input) /\ sec_id s = 20%N
             /\ ~ spec_candidate_pattern unknown_allowed_input s 9%N)
  /\ get2 (20%N, 9%N)
          (section_pattern_vars (_create_variables unknown_allowed_input init_solver))
     = Some {| index := 0; var_name := sp 20%N 9%N; lb := 0; ub := 1 |}.
Proof.
  split; [|reflexivity].
  eexists. split; [left; reflexivity|]. split; [reflexivity|].
  unfold spec_candidate_pattern. simpl. intros [_ [H|[]]]. discriminate.
Qed.

Lemma fold_left_map {A B C : Type} (f : A -> B -> A) (g : C -> B) (l : list C) :
  forall a, fold_left f (map g l) a = fold_left (fun a x => f a (g x)) l a.
Proof. induction l as [|x r IH]; simpl; intros a; [reflexivity | apply IH]. Qed.

Lemma fold_left_ext {A B : Type} (f g : A -> B -> A) (l : list B) :
  (forall a x, f a x = g a x) -> forall a, fold_left f l a = fold_left g l a.
Proof.
  intros H. induction l as [|x r IH]; simpl; intros a; [reflexivity|].
  now rewrite H, IH.
Qed.

Lemma allowed_patterns_unspecify inp s :
  allowed_patterns inp (unspecify_empty s) = allowed_patterns inp s.
Proof.
  unfold allowed_patterns. simpl.
  now destruct (allowed_meeting_pattern_ids s) as [[|x r]|].
Qed.

Lemma allowed_rooms_unspecify inp s :
  allowed_rooms inp (unspecify_empty s) = allowed_rooms inp s.
Proof.
  unfold allowed_rooms. simpl.
  now destruct (allowed_room_ids s) as [[|x r]|].
Qed.

Lemma create_section_variables_unspecify inp st s :
  create_section_variables inp st (unspecify_empty s) = create_section_variables inp st s.
Proof.
  unfold create_section_variables.
  rewrite allowed_patterns_unspecify, allowed_rooms_unspecify. reflexivity.
Qed.

(** The tables that the factory builds from the empty state hold, for a
    section whose allowed patterns are empty or unspecified, a variable for
    exactly the pattern ids of the input; likewise for rooms. *)
Lemma unrestricted_pattern_table inp s pid :
  NoDup (map sec_id (sections inp)) -> In s (sections inp) ->
  allowed_meeting_pattern_ids s = Some [] \/ allowed_meeting_pattern_ids s = None ->
  In pid (map mp_id (meeting_patterns inp))
  <-> exists v, get2 (sec_id s, pid) (section_pattern_vars (created inp)) = Some v
                /\ pattern_var_shape s pid v.
Proof.
  intros Hnd Hs Ha. unfold created, _create_variables.
  destruct (create_variables_pattern_table inp (sections inp) init_solver s Hnd Hs
              (fun _ => eq_refl) pid) as [H1 H2].
  assert (Hc : candidate_pattern inp s pid <-> In pid (map mp_id (meeting_patterns inp))).
  { unfold candidate_pattern. destruct Ha as [-> | ->]; reflexivity. }
  split.
  - intros Hin. apply H1, Hc, Hin.
  - intros [v [Hv _]].
    destruct (in_dec N.eq_dec pid (map mp_id (meeting_patterns inp))) as [Hin|Hn];
      [assumption|].
    rewrite H2 in Hv; [discriminate|]. intros H. apply Hn, Hc, H.
Qed.

Lemma unrestricted_room_table inp s rid :
  NoDup (map sec_id (sections inp)) -> In s (sections inp) ->
  allowed_room_ids s = Some [] \/ allowed_room_ids s = None ->
  In rid (map room_id (rooms inp))
  <-> exists v, get2 (sec_id s, rid) (section_room_vars (created inp)) = Some v
                /\ room_var_shape s rid v.
Proof.
  intros Hnd Hs Ha. unfold created, _create_variables.
  destruct (create_variables_room_table inp (sections inp) init_solver s Hnd Hs
              (fun _ => eq_refl) rid) as [H1 H2].
  assert (Hc : candidate_room inp s rid <-> In rid (map room_id (rooms inp))).
  { unfold candidate_room. destruct Ha as [-> | ->]; reflexivity. }
  split.
  - intros Hin. apply H1, Hc, Hin.
  - intros [v [Hv _]].
    destruct (in_dec N.eq_dec rid (map room_id (rooms inp))) as [Hin|Hn];
      [assumption|].
    rewrite H2 in Hv; [discriminate|]. intros H. apply Hn, Hc, H.
Qed.

(** C10. In the variable factory an allowed set that is present but empty is
    read as an unspecified one.  The candidates of the section are all
    patterns (all rooms) of the input; replacing every empty allowed set of
    the input by [None] leaves the solver state that [_create_variables]
    builds unchanged; and, in an input whose section ids are distinct, the
    tables that the factory returns hold for a section with an empty allowed
    set, as for one with none, a variable for every pattern (every room) of
    the input and for no other id. *)
Theorem empty_allowed_is_unspecified (inp : SolverInput) (st : CPSATSolver) (s : Section) :
  (allowed_meeting_pattern_ids s = Some [] ->
   allowed_patterns inp s = set_of (map mp_id (meeting_patterns inp))
   /\ forall pid, In pid (allowed_patterns inp s) <-> In pid (map mp_id (meeting_patterns inp)))
  /\ (allowed_room_ids s = Some [] ->
      allowed_rooms inp s = set_of (map room_id (rooms inp))
      /\ forall rid, In rid (allowed_rooms inp s) <-> In rid (map room_id (rooms inp)))
  /\ create_section_variables inp st (unspecify_empty s) = create_section_variables inp st s
  /\ _create_variables (with_sections inp (map unspecify_empty (sections inp))) st
     = _create_variables inp st
  /\ (NoDup (map sec_id (sections inp)) -> In s (sections inp) ->
      (allowed_meeting_pattern_ids s = Some [] \/ allowed_meeting_pattern_ids s = None ->
       forall pid,
         In pid (map mp_id (meeting_patterns inp))
         <-> exists v,
             get2 (sec_id s, pid) (section_pattern_vars (_create_variables inp init_solver))
             = Some v
             /\ pattern_var_shape s pid v)
      /\ (allowed_room_ids s = Some [] \/ allowed_room_ids s = None ->
          forall rid,
            In rid (map room_id (rooms inp))
            <-> exists v,
                get2 (sec_id s, rid) (section_room_vars (_create_variables inp init_solver))
                = Some v
                /\ room_var_shape s rid v)).
Proof.
  split; [|split; [|split; [|split]]].
  - intros H. split.
    + unfold allowed_patterns. now rewrite H.
    + intros pid. unfold allowed_patterns. rewrite H. apply set_of_In.
  - intros H. split.
    + unfold allowed_rooms. now rewrite H.
    + intros rid. unfold allowed_rooms. rewrite H. apply set_of_In.
  - apply create_section_variables_unspecify.
  - unfold _create_variables. simpl. rewrite fold_left_map.
    apply fold_left_ext. intros a x.
    rewrite <- (create_section_variables_unspecify inp a x). reflexivity.
  - intros Hnd Hs. split.
    + intros Ha pid. now apply unrestricted_pattern_table.
    + intros Ha rid. now apply unrestricted_room_table.
Qed.

Lemma empty_allowed_is_unspecified_witness :
  allowed_patterns empty_allowed_input (with_allowed_patterns (section 20%N 25) (Some []))
  = [1%N]
  /\ _create_variables
       (with_sections empty_allowed_input
          (map unspecify_empty (sections empty_allowed_input))) init_solver
     = _create_variables empty_allowed_input init_solver
  /\ (exists v,
         get2 (20%N, 1%N)
              (section_pattern_vars (_create_variables empty_allowed_input init_solver))
         = Some v
         /\ pattern_var_shape (with_allowed_patterns (section 20%N 25) (Some [])) 1%N v)
  /\ (exists v,
         get2 (20%N, 10%N)
              (section_room_vars (_create_variables empty_allowed_input init_solver))
         = Some v
         /\ room_var_shape (with_allowed_patterns (section 20%N 25) (Some [])) 10%N v).
Proof.
  destruct (empty_allowed_is_unspecified empty_allowed_input init_solver
              (with_allowed_patterns (section 20%N 25) (Some [])))
    as [Hp [_ [_ [Hall Htab]]]].
  assert (Hnd : NoDup (map sec_id (sections empty_allowed_input))).
  { simpl. constructor; [simpl; tauto | constructor]. }
  destruct (Htab Hnd (or_introl eq_refl)) as [Hpt Hrt].
  split; [|split; [exact Hall|split]].
  - destruct (Hp eq_refl) as [E _]. exact E.
  - apply (Hpt (or_introl eq_refl) 1%N). left. reflexivity.
  - apply (Hrt (or_intror eq_refl) 10%N). left. reflexivity.
Defined.

(* ===================================================================== *)
(** ** Models only grow                                                   *)
(* ===================================================================== *)

Lemma extends_refl m : extends m m.
Proof. split; apply incl_refl. Qed.

Lemma extends_trans m1 m2 m3 : extends m1 m2 -> extends m2 m3 -> extends m1 m3.
Proof. intros [A B] [C D]. split; eapply incl_tran; eauto. Qed.

Lemma extends_new_var m nm lo hi : extends m (snd (new_var m nm lo hi)).
Proof. split; simpl; [apply incl_appl|]; apply incl_refl. Qed.

Lemma extends_Add m c : extends m (Add m c).
Proof. split; simpl; [|apply incl_appl]; apply incl_refl. Qed.

Lemma extends_AddAll m cs : extends m (AddAll m cs).
Proof. split; simpl; [|apply incl_appl]; apply incl_refl. Qed.

Lemma extends_create_pattern_var s st pid :
  extends (model st) (model (create_pattern_var s st pid)).
Proof.
  unfold create_pattern_var, NewConstant, NewBoolVar.
  destruct (fixed_meeting_pattern_id s); simpl; apply (extends_new_var (model st)).
Qed.

Lemma extends_create_room_var s st rid :
  extends (model st) (model (create_room_var s st rid)).
Proof.
  unfold create_room_var, NewConstant, NewBoolVar.
  destruct (fixed_room_id s); simpl; apply (extends_new_var (model st)).
Qed.

Lemma extends_create_room_pattern_var s pid st rid :
  extends (model st) (model (create_room_pattern_var s pid st rid)).
Proof.
  unfold create_room_pattern_var, NewBoolVar. simpl.
  destruct (get2 _ (section_pattern_vars st)); [destruct (get2 _ (section_room_vars st))|].
  - eapply extends_trans; [apply (extends_new_var (model st)) | apply extends_Add].
  - apply (extends_new_var (model st)).
  - apply (extends_new_var (model st)).
Qed.

Lemma extends_create_instructor_var s st iid :
  extends (model st) (model (create_instructor_var s st iid)).
Proof. unfold create_instructor_var, NewBoolVar. simpl. apply (extends_new_var (model st)). Qed.

Lemma extends_fold {B : Type} (f : CPSATSolver -> B -> CPSATSolver) (l : list B) st :
  (forall a x, extends (model a) (model (f a x))) ->
  extends (model st) (model (fold_left f l st)).
Proof.
  intros H. apply fold_left_inv with (P := fun x => extends (model st) (model x)).
  - apply extends_refl.
  - intros a x _ Ha. eapply extends_trans; eauto.
Qed.

Lemma extends_create_section_variables inp st s :
  extends (model st) (model (create_section_variables inp st s)).
Proof.
  unfold create_section_variables.
  eapply extends_trans; [|apply extends_fold, extends_create_instructor_var].
  eapply extends_trans;
    [|apply extends_fold; intros; apply extends_fold, extends_create_room_pattern_var].
  eapply extends_trans; [|apply extends_fold, extends_create_room_var].
  apply extends_fold, extends_create_pattern_var.
Qed.

(** *** The tables of [_create_variables] hold Boolean variables of the model *)

Lemma dict_set_In2 k v (d : dict Key2 IntVar) kv :
  In kv (dict_set key2_eqb k v d) -> kv = (k, v) \/ In kv d.
Proof.
  induction d as [|[k0 v0] r IH]; simpl.
  - intros [<-|[]]. now left.
  - destruct (key2_eqb k k0) eqn:E; simpl.
    + apply key2_eqb_eq in E. subst k0. intros [<-|H]; auto.
    + intros [<-|H]; auto. destruct (IH H); auto.
Qed.

Lemma boolean_table_extends d m m' :
  boolean_table d m -> extends m m' -> boolean_table d m'.
Proof.
  intros H [Hv _] k v Hin. destruct (H k v Hin) as [A B]. split; auto.
Qed.

Lemma boolean_tables_create_section inp st s :
  boolean_table (section_pattern_vars st) (model st)
  /\ boolean_table (section_room_vars st) (model st) ->
  boolean_table (section_pattern_vars (create_section_variables inp st s))
                (model (create_section_variables inp st s))
  /\ boolean_table (section_room_vars (create_section_variables inp st s))
                   (model (create_section_variables inp st s)).
Proof.
  intros H0. unfold create_section_variables.
  set (P := fun x => boolean_table (section_pattern_vars x) (model x)
                     /\ boolean_table (section_room_vars x) (model x)).
  change (P (fold_left (create_instructor_var s) (potential_instructors s)
               (fold_left
                  (fun st0 pattern_id =>
                     fold_left (create_room_pattern_var s pattern_id) (allowed_rooms inp s) st0)
                  (allowed_patterns inp s)
                  (fold_left (create_room_var s) (allowed_rooms inp s)
                     (fold_left (create_pattern_var s) (allowed_patterns inp s) st))))).
  apply fold_left_inv.
  - apply fold_left_inv.
    + apply fold_left_inv.
      * apply fold_left_inv; [exact H0|].
        intros a pid _ [Hp Hr]. split.
        -- destruct (create_pattern_var_get s a pid) as [v [-> [Hs [Hv _]]]].
           intros k w Hin. rewrite Hv. apply dict_set_In2 in Hin.
           destruct Hin as [[= -> ->]|Hin].
           ++ split; [apply in_or_app; right; now left|].
              unfold pattern_var_shape in Hs.
              destruct (fixed_meeting_pattern_id s);
                [destruct (uuid_eqb pid u)|]; lia.
           ++ destruct (Hp k w Hin) as [A B]. split; [apply in_or_app; now left | assumption].
        -- rewrite create_pattern_var_room_vars.
           eapply boolean_table_extends; [exact Hr | apply extends_create_pattern_var].
      * intros a rid _ [Hp Hr]. split.
        -- rewrite create_room_var_pattern_vars.
           eapply boolean_table_extends; [exact Hp | apply extends_create_room_var].
        -- destruct (create_room_var_get s a rid) as [v [-> [Hs [Hv _]]]].
           intros k w Hin. rewrite Hv. apply dict_set_In2 in Hin.
           destruct Hin as [[= -> ->]|Hin].
           ++ split; [apply in_or_app; right; now left|].
              unfold room_var_shape in Hs.
              destruct (fixed_room_id s);
                [destruct (uuid_eqb rid u)|]; lia.
           ++ destruct (Hr k w Hin) as [A B]. split; [apply in_or_app; now left | assumption].
    + intros a pid _ Ha. apply fold_left_inv; [exact Ha|].
      intros b rid _ [Hp Hr].
      split; (eapply boolean_table_extends; [|apply extends_create_room_pattern_var]);
        assumption.
  - intros a iid _ [Hp Hr].
    split; (eapply boolean_table_extends; [|apply extends_create_instructor_var]);
      assumption.
Qed.

Lemma boolean_tables_create_variables inp :
  boolean_table (section_pattern_vars (_create_variables inp init_solver))
                (model (_create_variables inp init_solver))
  /\ boolean_table (section_room_vars (_create_variables inp init_solver))
                   (model (_create_variables inp init_solver)).
Proof.
  unfold _create_variables.
  apply fold_left_inv with
    (P := fun x => boolean_table (section_pattern_vars x) (model x)
                   /\ boolean_table (section_room_vars x) (model x)).
  - split; intros k v [].
  - intros a s _ Ha. now apply boolean_tables_create_section.
Qed.

(** *** The penalty generators *)

Ltac grows :=
  unfold extends, incl; simpl; split; intros ? ?;
  rewrite ?in_app_iff; tauto.

Lemma extends_preference_step base s iid p pv iv acc pref :
  extends (fst acc) (fst (preference_step base s iid p pv iv acc pref)).
Proof.
  unfold preference_step.
  destruct (negb (_pattern_matches_preference p pref)); [apply extends_refl|].
  destruct (penalty_value_of base (preference_level pref) =? 0); [apply extends_refl|].
  destruct iv; [grows|].
  destruct (mem iid (assigned_instructor_ids s)); grows.
Qed.

Lemma extends_preference_pattern_loop base spv siv s iid prefs acc p :
  extends (fst acc) (fst (preference_pattern_loop base spv siv s iid prefs acc p)).
Proof.
  unfold preference_pattern_loop.
  destruct (get2 (sec_id s, mp_id p) spv) as [pv|]; [|apply extends_refl].
  apply fold_left_inv with (P := fun x => extends (fst acc) (fst x)); [apply extends_refl|].
  intros d pref _ Hd. eapply extends_trans; [exact Hd | apply extends_preference_step].
Qed.

Lemma extends_preference_instructor_loop base by_id mps spv siv s acc iid :
  extends (fst acc) (fst (preference_instructor_loop base by_id mps spv siv s acc iid)).
Proof.
  unfold preference_instructor_loop.
  destruct (dict_get uuid_eqb iid by_id) as [i|]; [|apply extends_refl].
  destruct (time_preferences i) as [|pr0 prs]; [apply extends_refl|].
  apply fold_left_inv with (P := fun x => extends (fst acc) (fst x)); [apply extends_refl|].
  intros d p _ Hd. eapply extends_trans; [exact Hd | apply extends_preference_pattern_loop].
Qed.

Lemma extends_preference_section_loop base by_id mps spv siv acc s :
  extends (fst acc) (fst (preference_section_loop base by_id mps spv siv acc s)).
Proof.
  unfold preference_section_loop.
  apply fold_left_inv with (P := fun x => extends (fst acc) (fst x)); [apply extends_refl|].
  intros d i _ Hd.
  eapply extends_trans; [exact Hd | apply extends_preference_instructor_loop].
Qed.

Lemma extends_preference_penalties m sects instrs mps sp_vars si_vars weights :
  extends m (fst (add_instructor_preference_penalties m sects instrs mps sp_vars si_vars
                    weights)).
Proof.
  unfold add_instructor_preference_penalties.
  apply fold_left_inv with (P := fun acc => extends m (fst acc)); [apply extends_refl|].
  intros a s _ Ha.
  eapply extends_trans; [exact Ha | apply extends_preference_section_loop].
Qed.

Lemma extends_workload_step sects si_vars uw ow tw acc i :
  extends (fst acc) (fst (workload_step sects si_vars uw ow tw acc i)).
Proof.
  unfold workload_step.
  destruct (workload_sections sects si_vars i); [apply extends_refl|].
  destruct (0 <? Qnum (min_load i)); destruct (target_load i); grows.
Qed.

Lemma extends_workload_penalties m sects instrs si_vars weights :
  extends m (fst (add_instructor_workload_penalties m sects instrs si_vars weights)).
Proof.
  unfold add_instructor_workload_penalties.
  apply fold_left_inv with (P := fun acc => extends m (fst acc)); [apply extends_refl|].
  intros a i _ Ha. eapply extends_trans; [exact Ha | apply extends_workload_step].
Qed.

Lemma soft_constraints_grow inp st :
  extends (model st) (model (fst (_add_soft_constraints inp st)))
  /\ section_pattern_vars (fst (_add_soft_constraints inp st)) = section_pattern_vars st
  /\ section_room_vars (fst (_add_soft_constraints inp st)) = section_room_vars st
  /\ section_instructor_vars (fst (_add_soft_constraints inp st))
     = section_instructor_vars st.
Proof.
  unfold _add_soft_constraints.
  pose proof (extends_preference_penalties (model st) (sections inp) (instructors inp)
                (meeting_patterns inp) (section_pattern_vars st)
                (section_instructor_vars st) (constraint_weights inp)) as H1.
  destruct (add_instructor_preference_penalties _ _ _ _ _ _ _) as [m1 pens1].
  pose proof (extends_workload_penalties m1 (sections inp) (instructors inp)
                (section_instructor_vars st) (constraint_weights inp)) as H2.
  destruct (add_instructor_workload_penalties _ _ _ _ _) as [m2 pens2].
  simpl in *. repeat split; try (eapply incl_tran; [apply H1 | apply H2]).
Qed.

(** *** What a model that was built contains *)

Lemma build_model_contents inp st pens :
  build_model inp = Ok (st, pens) ->
  section_pattern_vars st = section_pattern_vars (created inp)
  /\ section_room_vars st = section_room_vars (created inp)
  /\ section_instructor_vars st = section_instructor_vars (created inp)
  /\ incl (variables (model (created inp))) (variables (model st))
  /\ (forall c,
         In c (flat_map (assignment_constraints_of inp (created inp)) (sections inp))
         \/ In c (room_capacity_constraints (sections inp) (rooms inp)
                    (section_room_vars (created inp)))
         \/ In c (room_feature_constraints (sections inp) (rooms inp) (course_features inp)
                    (section_room_vars (created inp)))
         \/ In c (cross_list_constraints (sections inp) (section_pattern_vars (created inp))
                    (section_room_vars (created inp)))
         \/ In c (linked_section_constraints (sections inp) (meeting_patterns inp)
                    (section_pattern_vars (created inp))
                    (match link_connector_type inp with
                     | Some k => k
                     | None => immediately_after
                     end)) ->
         In c (constraints (model st))).
Proof.
  unfold build_model, _add_hard_constraints, add_instructor_conflict_constraints.
  fold (created inp).
  destruct (instructor_conflict_constraints _ _ _ _) as [ic|e]; simpl; [|discriminate].
  intros [= E].
  match type of E with
  | _add_soft_constraints inp ?x = _ =>
      destruct (soft_constraints_grow inp x) as [[Hv Hc] [Hp [Hr Hi]]]
  end.
  rewrite E in *. simpl in *.
  repeat split; try assumption.
  intros c Hin. unfold incl in Hc. apply Hc. rewrite !in_app_iff. tauto.
Qed.

(* ===================================================================== *)
(** ** Solutions and extraction                                           *)
(* ===================================================================== *)

Lemma eval_lvar sol v : eval sol (lvar v) = Value sol v.
Proof. unfold eval, lvar. cbn [terms offset fold_right fst snd]. lia. Qed.

Lemma eval_lconst sol c : eval sol (lconst c) = c.
Proof. reflexivity. Qed.

Lemma holdsb_sound sol c : holdsb sol c = true -> holds sol c.
Proof.
  destruct c; cbn [holdsb holds]; intros H.
  - now apply Z.leb_le.
  - apply Z.geb_le in H. lia.
  - now apply Z.eqb_eq.
  - now apply Z.eqb_eq.
  - now apply Z.leb_le.
  - now apply Z.eqb_eq.
  - now apply Z.eqb_eq.
Qed.

Lemma feasibleb_sound m sol : feasibleb m sol = true -> feasible m sol.
Proof.
  unfold feasibleb, feasible. rewrite andb_true_iff, !forallb_forall.
  intros [Hv Hc]. split.
  - intros v Hin. specialize (Hv v Hin). unfold in_domainb in Hv.
    apply andb_true_iff in Hv. destruct Hv as [A B].
    apply Z.leb_le in A. apply Z.leb_le in B. split; assumption.
  - intros c Hin. apply holdsb_sound. auto.
Qed.

Lemma first_chosen_Some sol d sid ids i :
  first_chosen sol d sid ids = Some i ->
  In i ids /\ exists v, get2 (sid, i) d = Some v /\ Value sol v = 1.
Proof.
  induction ids as [|x r IH]; simpl; [discriminate|].
  destruct (get2 (sid, x) d) as [v|] eqn:E.
  - destruct (Value sol v =? 1) eqn:Ev.
    + intros [= <-]. split; [now left|]. exists v. split; [assumption|].
      now apply Z.eqb_eq.
    + intros H. destruct (IH H) as [A B]. split; [now right | assumption].
  - intros H. destruct (IH H) as [A B]. split; [now right | assumption].
Qed.

Lemma room_capacity_constraints_In sects rms sr_vars s r v :
  In s sects -> In r rms ->
  get2 (sec_id s, room_id r) sr_vars = Some v ->
  capacity r < expected_enrollment s ->
  In (LinEq (lvar v) (lconst 0)) (room_capacity_constraints sects rms sr_vars).
Proof.
  intros Hs Hr Hv Hc. unfold room_capacity_constraints.
  apply in_flat_map. exists s. split; [assumption|].
  apply in_flat_map. exists r. split; [assumption|].
  rewrite Hv. apply Z.ltb_lt in Hc. rewrite Hc. now left.
Qed.

(** C7. In a model that was built, the constraint [y = 0] is present for every
    section and room that have a room variable [y] and whose capacity is below
    the expected enrollment; hence, under any feasible solution, a section that
    is extracted as assigned has for room a room of the input whose capacity
    is at least the expected enrollment of the section. *)
Theorem capacity_respected (inp : SolverInput) (st : CPSATSolver) (pens : list LinearExpr) :
  build_model inp = Ok (st, pens) ->
  (forall s r v,
      In s (sections inp) -> In r (rooms inp) ->
      get2 (sec_id s, room_id r) (section_room_vars st) = Some v ->
      capacity r < expected_enrollment s ->
      In (LinEq (lvar v) (lconst 0)) (constraints (model st)))
  /\ (forall sol s,
         feasible (model st) sol ->
         In s (sections inp) ->
         In (extract_section inp st sol s) (_extract_solution inp st sol)
         /\ (is_assigned (extract_section inp st sol s) = true ->
             exists r,
               In r (rooms inp)
               /\ a_room_id (extract_section inp st sol s) = Some (room_id r)
               /\ capacity r >= expected_enrollment s)).
Proof.
  intros Hb. destruct (build_model_contents _ Hb) as [Hp [Hr [Hi [Hv Hc]]]].
  assert (Hgen : forall s r v,
             In s (sections inp) -> In r (rooms inp) ->
             get2 (sec_id s, room_id r) (section_room_vars st) = Some v ->
             capacity r < expected_enrollment s ->
             In (LinEq (lvar v) (lconst 0)) (constraints (model st))).
  { intros s r v Hs Hrm Hg Hlt. apply Hc. right. left.
    rewrite <- Hr. now apply room_capacity_constraints_In with (s := s) (r := r). }
  split; [exact Hgen|].
  intros sol s [_ Hfc] Hs. split.
  - unfold _extract_solution. now apply in_map.
  - unfold extract_section. simpl.
    destruct (first_chosen sol (section_pattern_vars st) (sec_id s)
                (map mp_id (meeting_patterns inp))) as [pid|]; [|discriminate].
    destruct (first_chosen sol (section_room_vars st) (sec_id s)
                (map room_id (rooms inp))) as [rid|] eqn:Er; [|discriminate].
    intros _. apply first_chosen_Some in Er. destruct Er as [Hin [v [Hg Hone]]].
    apply in_map_iff in Hin. destruct Hin as [r [<- Hrin]].
    exists r. repeat split; try assumption.
    destruct (Z_lt_ge_dec (capacity r) (expected_enrollment s)) as [Hlt|Hge];
      [|assumption].
    pose proof (Hfc _ (Hgen s r v Hs Hrin Hg Hlt)) as Hh. simpl in Hh.
    rewrite eval_lvar, eval_lconst in Hh. lia.
Qed.

Lemma capacity_respected_witness :
  exists st pens,
    build_model two_sections_input = Ok (st, pens)
    /\ feasible (model st) two_sections_solution
    /\ exists r,
         In r (rooms two_sections_input)
         /\ a_room_id (extract_section two_sections_input st two_sections_solution
                         (with_assigned (section 21%N 40) [101%N]))
            = Some (room_id r)
         /\ capacity r >= 40.
Proof.
  destruct (build_model two_sections_input) as [[st pens]|e] eqn:Hb;
    [|vm_compute in Hb; discriminate].
  exists st, pens. split; [reflexivity|].
  assert (Hf : feasible (model st) two_sections_solution).
  { apply feasibleb_sound. vm_compute in Hb. injection Hb as <- _. vm_compute. reflexivity. }
  split; [exact Hf|].
  destruct (capacity_respected _ Hb) as [_ H].
  destruct (H two_sections_solution (with_assigned (section 21%N 40) [101%N]) Hf)
    as [_ Hex].
  - right. left. reflexivity.
  - apply Hex. vm_compute in Hb. injection Hb as <- _. vm_compute. reflexivity.
Defined.

(* ===================================================================== *)
(** ** Linked sections                                                    *)
(* ===================================================================== *)

Lemma compatible_immediately_after_iff p c g :
  _patterns_compatible_immediately_after p c g = true <-> minute_gap_ok p c g.
Proof.
  unfold _patterns_compatible_immediately_after, minute_gap_ok, _get_pattern_days.
  rewrite existsb_exists. split.
  - intros [day [_ H]]. apply existsb_exists in H. destruct H as [pt [Hpt H]].
    apply existsb_exists in H. destruct H as [ct [Hct H]].
    apply filter_In in Hpt. destruct Hpt as [Hpt Hd1].
    apply filter_In in Hct. destruct Hct as [Hct Hd2].
    apply Z.eqb_eq in Hd1. apply Z.eqb_eq in Hd2.
    apply andb_true_iff in H. destruct H as [A B].
    apply Z.leb_le in A. apply Z.leb_le in B.
    exists pt, ct. repeat split; try assumption. congruence.
  - intros [pt [ct [Hpt [Hct [Hd [A B]]]]]].
    exists (day_of_week pt). split.
    + apply filter_In. split; [now apply in_map|].
      apply existsb_exists. exists (day_of_week ct).
      split; [now apply in_map | now apply Z.eqb_eq].
    + apply existsb_exists. exists pt. split.
      * apply filter_In. split; [assumption | apply Z.eqb_refl].
      * apply existsb_exists. exists ct. split.
        -- apply filter_In. split; [assumption|]. apply Z.eqb_eq. congruence.
        -- apply andb_true_iff. split; now apply Z.leb_le.
Qed.

Lemma keys_of_section_In d sid pid :
  In pid (keys_of_section d sid) <-> exists v, get2 (sid, pid) d = Some v.
Proof.
  unfold keys_of_section, get2. rewrite <- (dict_get_keys key2_eqb key2_eqb_eq).
  rewrite in_map_iff. split.
  - intros [[a b] [<- H]]. apply filter_In in H. destruct H as [H E].
    simpl in E. apply uuid_eqb_eq in E. now subst.
  - intros H. exists (sid, pid). split; [reflexivity|].
    apply filter_In. split; [assumption | apply uuid_eqb_refl].
Qed.

(** *** Dictionaries built by a comprehension *)

Lemma comprehension_get {A : Type} (key : A -> UUID) (l : list A) : forall d0 k,
  (forall p, dict_get uuid_eqb k (fold_left (fun d p => dict_set uuid_eqb (key p) p d) l d0)
             = Some p ->
             (In p l /\ key p = k) \/ dict_get uuid_eqb k d0 = Some p)
  /\ (In k (map key l) ->
      exists p, dict_get uuid_eqb k (fold_left (fun d p => dict_set uuid_eqb (key p) p d) l d0)
                = Some p).
Proof.
  induction l as [|a r IH]; simpl; intros d0 k.
  - split; [auto | contradiction].
  - destruct (IH (dict_set uuid_eqb (key a) a d0) k) as [H1 H2]. split.
    + intros p Hp. destruct (H1 p Hp) as [[Hl Hk]|H]; [left; auto|].
      destruct (N.eq_dec (key a) k) as [E|E].
      * subst k. rewrite (dict_get_set_same uuid_eqb uuid_eqb_eq) in H.
        injection H as <-. left. auto.
      * rewrite (dict_get_set_other uuid_eqb uuid_eqb_eq) in H by assumption. now right.
    + intros [E|Hin]; [|now apply H2].
      destruct (in_dec N.eq_dec k (map key r)) as [Hr|Hr]; [now apply H2|].
      clear H1 H2. subst k.
      assert (G : forall d, dict_get uuid_eqb (key a)
                              (fold_left (fun d p => dict_set uuid_eqb (key p) p d) r d)
                            = dict_get uuid_eqb (key a) d).
      { clear IH. induction r as [|b r' IHr]; simpl; intros d; [reflexivity|].
        rewrite IHr by (simpl in Hr; tauto).
        apply (dict_get_set_other uuid_eqb uuid_eqb_eq). simpl in Hr. intros E. apply Hr. now left. }
      rewrite G. exists a. apply (dict_get_set_same uuid_eqb uuid_eqb_eq).
Qed.

Lemma pattern_by_id_get mps pid p :
  dict_get uuid_eqb pid (pattern_by_id mps) = Some p -> In p mps /\ mp_id p = pid.
Proof.
  intros H. destruct (comprehension_get mp_id mps [] pid) as [H1 _].
  destruct (H1 p H) as [A|A]; [assumption | discriminate].
Qed.

Lemma pattern_by_id_known mps pid :
  In pid (map mp_id mps) -> exists p, dict_get uuid_eqb pid (pattern_by_id mps) = Some p.
Proof.
  intros H. destruct (comprehension_get mp_id mps [] pid) as [_ H2]. now apply H2.
Qed.

(** *** Groups *)

Lemma group_sections_In key sects kv s :
  In kv (group_sections key sects) -> In s (snd kv) -> In s sects /\ key s = Some (fst kv).
Proof.
  unfold group_sections. revert kv s.
  apply fold_left_inv with
    (P := fun d => forall kv s, In kv d -> In s (snd kv) -> In s sects /\ key s = Some (fst kv)).
  - intros kv s [].
  - intros d x Hx IH kv s Hin Hs.
    destruct (key x) as [g|] eqn:Ek; [|now apply IH].
    destruct (dict_get uuid_eqb g d) as [l|] eqn:Eg;
      apply (dict_set_In uuid_eqb uuid_eqb_eq) in Hin;
      (destruct Hin as [->|Hin]; [|now apply IH]); simpl in *.
    + apply in_app_iff in Hs. destruct Hs as [Hs|[<-|[]]]; [|auto].
      apply (dict_get_In uuid_eqb uuid_eqb_eq) in Eg. apply (IH _ _ Eg Hs).
    + destruct Hs as [<-|[]]. auto.
Qed.

(** *** What the link generator emits *)

Lemma compatible_child_pids_In compat by_id pp spv child cpid :
  In cpid (compatible_child_pids compat by_id pp (keys_of_section spv (sec_id child)))
  <-> exists cv cp,
      get2 (sec_id child, cpid) spv = Some cv
      /\ dict_get uuid_eqb cpid by_id = Some cp
      /\ compat pp cp = true.
Proof.
  unfold compatible_child_pids. rewrite filter_In, keys_of_section_In. split.
  - intros [[cv Hcv] H]. destruct (dict_get uuid_eqb cpid by_id) as [cp|]; [|discriminate].
    exists cv, cp. auto.
  - intros [cv [cp [Hcv [Hcp Hc]]]]. split; [eauto|]. now rewrite Hcp.
Qed.

Lemma lookup_all_In d keys v :
  In v (lookup_all d keys) <-> exists k, In k keys /\ get2 k d = Some v.
Proof.
  unfold lookup_all. rewrite in_flat_map. split.
  - intros [k [Hk H]]. exists k. split; [assumption|].
    destruct (get2 k d); simpl in H; [|contradiction]. destruct H as [->|[]]. reflexivity.
  - intros [k [Hk H]]. exists k. split; [assumption|]. rewrite H. now left.
Qed.

Lemma link_constraints_In compat forbid parent child mps spv ppid pp pv :
  dict_get uuid_eqb ppid (pattern_by_id mps) = Some pp ->
  get2 (sec_id parent, ppid) spv = Some pv ->
  let C := compatible_child_pids compat (pattern_by_id mps) pp
             (keys_of_section spv (sec_id child)) in
  (C = [] -> forbid = true ->
   In (LinEq (lvar pv) (lconst 0)) (link_constraints_of compat forbid parent child mps spv))
  /\ (C <> [] ->
      In (LinGe (lsum_vars (lookup_all spv (map (fun cpid => (sec_id child, cpid)) C)))
                (lvar pv))
         (link_constraints_of compat forbid parent child mps spv)).
Proof.
  intros Hpp Hpv C. unfold link_constraints_of. split.
  - intros HC ->. apply in_flat_map. exists ppid. split.
    + apply keys_of_section_In. eauto.
    + rewrite Hpp, Hpv. fold C. rewrite HC. now left.
  - intros HC. apply in_flat_map. exists ppid. split.
    + apply keys_of_section_In. eauto.
    + rewrite Hpp, Hpv. fold C.
      destruct C as [|c r] eqn:EC; [contradiction|].
      assert (Hc : In c C) by (rewrite EC; now left).
      apply compatible_child_pids_In in Hc. destruct Hc as [cv [cp [Hcv _]]].
      destruct (lookup_all spv (map (fun cpid => (sec_id child, cpid)) (c :: r)))
        as [|a l] eqn:El.
      * exfalso. assert (Hin : In cv (@nil IntVar)); [|contradiction].
        rewrite <- El. apply lookup_all_In. exists (sec_id child, c). split; [now left|].
        exact Hcv.
      * now left.
Qed.

Lemma linked_section_constraints_In inp parent child spv c :
  link_pair inp parent child ->
  In c (_add_immediately_after_constraint parent child (meeting_patterns inp) spv) ->
  In c (linked_section_constraints (sections inp) (meeting_patterns inp) spv
          immediately_after).
Proof.
  intros [kv [children [Hkv [Hlen [Hpc Hch]]]]] Hc.
  unfold linked_section_constraints. apply in_flat_map. exists kv. split; [assumption|].
  destruct (snd kv) as [|a [|b rest]] eqn:Ek; simpl in Hlen; try lia.
  rewrite Hpc. apply in_flat_map. exists child. auto.
Qed.

Lemma link_pair_sections inp parent child :
  link_pair inp parent child -> In parent (sections inp) /\ In child (sections inp).
Proof.
  intros [kv [children [Hkv [_ [Hpc Hch]]]]].
  assert (Hg : forall s, In s (snd kv) -> In s (sections inp)).
  { intros s Hs. now destruct (group_sections_In _ _ _ _ Hkv Hs). }
  unfold link_parent_children in Hpc.
  destruct (filter is_link_parent (snd kv)) as [|p ps] eqn:Ef.
  - destruct (snd kv) as [|first rest]; [discriminate|].
    injection Hpc as <- <-. split; apply Hg; [now left | now right].
  - injection Hpc as <- <-. split; apply Hg.
    + assert (Hp : In p (filter is_link_parent (snd kv))) by (rewrite Ef; now left).
      now apply filter_In in Hp.
    + now apply filter_In in Hch.
Qed.

(** *** Sums of values *)

Lemma eval_ladd sol a b : eval sol (ladd a b) = eval sol a + eval sol b.
Proof.
  unfold eval, ladd. cbn [terms offset].
  induction (terms a) as [|x r IH]; cbn [app fold_right].
  - induction (terms b) as [|y q IHb]; cbn [fold_right]; lia.
  - lia.
Qed.

Lemma eval_fold_ladd sol es : forall acc,
  eval sol (fold_left ladd es acc)
  = eval sol acc + fold_right (fun e s => eval sol e + s) 0 es.
Proof.
  induction es as [|e r IH]; simpl; intros acc; [lia|].
  rewrite IH, eval_ladd. lia.
Qed.

Lemma eval_lsum_vars sol vs : eval sol (lsum_vars vs) = sum_values sol vs.
Proof.
  unfold lsum_vars, lsum. rewrite eval_fold_ladd, eval_lconst.
  assert (E : fold_right (fun e s => eval sol e + s) 0 (map lvar vs) = sum_values sol vs).
  { unfold sum_values. induction vs as [|v r IH]; cbn [map fold_right]; [reflexivity|].
    now rewrite eval_lvar, IH. }
  rewrite E. lia.
Qed.

Lemma sum_values_app sol a b : sum_values sol (a ++ b) = sum_values sol a + sum_values sol b.
Proof. unfold sum_values. induction a as [|x r IH]; simpl; lia. Qed.

Lemma sum_values_nonneg sol vs :
  (forall v, In v vs -> 0 <= Value sol v) -> 0 <= sum_values sol vs.
Proof.
  unfold sum_values. induction vs as [|x r IH]; simpl; intros H; [lia|].
  assert (0 <= Value sol x) by (apply H; now left).
  assert (0 <= fold_right (fun v acc => Value sol v + acc) 0 r) by (apply IH; auto).
  lia.
Qed.

Lemma sum_values_some_one sol vs :
  (forall v, In v vs -> 0 <= Value sol v <= 1) -> 1 <= sum_values sol vs ->
  exists v, In v vs /\ Value sol v = 1.
Proof.
  unfold sum_values. induction vs as [|x r IH]; simpl; intros H Hs; [lia|].
  assert (Hx : 0 <= Value sol x <= 1) by (apply H; now left).
  destruct (Z.eq_dec (Value sol x) 1) as [E|E]; [exists x; auto|].
  destruct IH as [v [Hv Hone]]; [auto | lia | exists v; auto].
Qed.

Lemma lookup_all_cons d k ks :
  lookup_all d (k :: ks)
  = match get2 k d with Some v => [v] | None => [] end ++ lookup_all d ks.
Proof. reflexivity. Qed.

Lemma sum_lookup_one sol d sid ids a va :
  (forall v, In v (lookup_all d (map (fun i => (sid, i)) ids)) -> 0 <= Value sol v) ->
  In a ids -> get2 (sid, a) d = Some va -> Value sol va = 1 ->
  1 <= sum_values sol (lookup_all d (map (fun i => (sid, i)) ids)).
Proof.
  induction ids as [|x r IH]; intros Hnn Hin Hg Hone; [contradiction|].
  cbn [map] in *. rewrite lookup_all_cons in *. rewrite sum_values_app.
  assert (Hr : 0 <= sum_values sol (lookup_all d (map (fun i => (sid, i)) r))).
  { apply sum_values_nonneg. intros v Hv. apply Hnn. apply in_or_app. now right. }
  assert (Hh : 0 <= sum_values sol (match get2 (sid, x) d with Some v => [v] | None => [] end)).
  { apply sum_values_nonneg. intros v Hv. apply Hnn. apply in_or_app. now left. }
  destruct Hin as [->|Hin].
  - rewrite Hg. unfold sum_values at 1. simpl. lia.
  - assert (1 <= sum_values sol (lookup_all d (map (fun i => (sid, i)) r))); [|lia].
    apply IH; try assumption. intros v Hv. apply Hnn. apply in_or_app. now right.
Qed.

Lemma sum_lookup_two sol d sid ids a b va vb :
  (forall v, In v (lookup_all d (map (fun i => (sid, i)) ids)) -> 0 <= Value sol v) ->
  a <> b -> In a ids -> In b ids ->
  get2 (sid, a) d = Some va -> Value sol va = 1 ->
  get2 (sid, b) d = Some vb -> Value sol vb = 1 ->
  2 <= sum_values sol (lookup_all d (map (fun i => (sid, i)) ids)).
Proof.
  induction ids as [|x r IH]; intros Hnn Hab Ha Hb Hga Hva Hgb Hvb; [contradiction|].
  cbn [map] in *. rewrite lookup_all_cons in *. rewrite sum_values_app.
  assert (Hnr : forall v, In v (lookup_all d (map (fun i => (sid, i)) r)) -> 0 <= Value sol v).
  { intros v Hv. apply Hnn. apply in_or_app. now right. }
  assert (Hh : 0 <= sum_values sol (match get2 (sid, x) d with Some v => [v] | None => [] end)).
  { apply sum_values_nonneg. intros v Hv. apply Hnn. apply in_or_app. now left. }
  destruct Ha as [->|Ha]; destruct Hb as [Eb|Hb].
  - congruence.
  - rewrite Hga. unfold sum_values at 1. simpl.
    pose proof (sum_lookup_one sol d sid r b Hnr Hb Hgb Hvb). lia.
  - subst x. rewrite Hgb. unfold sum_values at 1. simpl.
    pose proof (sum_lookup_one sol d sid r a Hnr Ha Hga Hva). lia.
  - assert (2 <= sum_values sol (lookup_all d (map (fun i => (sid, i)) r))); [|lia].
    now apply IH.
Qed.

Lemma exactly_one_pattern_In inp st s :
  lookup_all (section_pattern_vars st)
             (map (fun i => (sec_id s, i)) (map mp_id (meeting_patterns inp))) <> [] ->
  In (ExactlyOne (lookup_all (section_pattern_vars st)
                    (map (fun i => (sec_id s, i)) (map mp_id (meeting_patterns inp)))))
     (assignment_constraints_of inp st s).
Proof.
  unfold assignment_constraints_of. rewrite map_map.
  destruct (lookup_all (section_pattern_vars st)
              (map (fun x => (sec_id s, mp_id x)) (meeting_patterns inp)));
    [contradiction|].
  intros _. now left.
Qed.

Lemma exactly_one_room_In inp st s :
  lookup_all (section_room_vars st)
             (map (fun i => (sec_id s, i)) (map room_id (rooms inp))) <> [] ->
  In (ExactlyOne (lookup_all (section_room_vars st)
                    (map (fun i => (sec_id s, i)) (map room_id (rooms inp)))))
     (assignment_constraints_of inp st s).
Proof.
  unfold assignment_constraints_of. rewrite (map_map room_id).
  destruct (lookup_all (section_room_vars st)
              (map (fun x => (sec_id s, room_id x)) (rooms inp)));
    [contradiction|].
  intros _. apply in_or_app. right. apply in_or_app. left. now left.
Qed.

(** *** Values of the table variables under a feasible solution *)

Lemma pattern_values_boolean inp st pens sol k v :
  build_model inp = Ok (st, pens) -> feasible (model st) sol ->
  get2 k (section_pattern_vars st) = Some v -> 0 <= Value sol v <= 1.
Proof.
  intros Hb [Hdom _] Hg.
  destruct (build_model_contents _ Hb) as [Hp [_ [_ [Hv _]]]].
  rewrite Hp in Hg. apply (dict_get_In key2_eqb key2_eqb_eq) in Hg.
  destruct (boolean_tables_create_variables inp) as [Hbt _].
  destruct (Hbt k v Hg) as [Hin [Hl Hu]].
  specialize (Hdom v (Hv v Hin)). unfold in_domain in Hdom. lia.
Qed.

Lemma room_values_boolean inp st pens sol k v :
  build_model inp = Ok (st, pens) -> feasible (model st) sol ->
  get2 k (section_room_vars st) = Some v -> 0 <= Value sol v <= 1.
Proof.
  intros Hb [Hdom _] Hg.
  destruct (build_model_contents _ Hb) as [_ [Hr [_ [Hv _]]]].
  rewrite Hr in Hg. apply (dict_get_In key2_eqb key2_eqb_eq) in Hg.
  destruct (boolean_tables_create_variables inp) as [_ Hbt].
  destruct (Hbt k v Hg) as [Hin [Hl Hu]].
  specialize (Hdom v (Hv v Hin)). unfold in_domain in Hdom. lia.
Qed.

(** Under a feasible solution the pattern that extraction reports for a
    section is the only pattern of the input whose variable is 1. *)
Lemma chosen_pattern_unique inp st pens sol s pid v cpid :
  build_model inp = Ok (st, pens) -> feasible (model st) sol ->
  In s (sections inp) ->
  chosen_pattern inp st sol s = Some cpid ->
  In pid (map mp_id (meeting_patterns inp)) ->
  get2 (sec_id s, pid) (section_pattern_vars st) = Some v -> Value sol v = 1 ->
  pid = cpid.
Proof.
  intros Hb Hf Hs Hch Hin Hg Hone.
  unfold chosen_pattern, extract_section in Hch. simpl in Hch.
  apply first_chosen_Some in Hch. destruct Hch as [Hcin [cv [Hcg Hcone]]].
  destruct (N.eq_dec pid cpid) as [E|E]; [assumption|exfalso].
  set (vs := lookup_all (section_pattern_vars st)
               (map (fun i => (sec_id s, i)) (map mp_id (meeting_patterns inp)))).
  assert (Hnn : forall w, In w vs -> 0 <= Value sol w).
  { intros w Hw. apply lookup_all_In in Hw. destruct Hw as [k [_ Hk]].
    assert (0 <= Value sol w <= 1) by (eapply pattern_values_boolean; eauto). lia. }
  assert (H2 : 2 <= sum_values sol vs)
    by (apply sum_lookup_two with (a := pid) (b := cpid) (va := v) (vb := cv); assumption).
  assert (Hne : vs <> []).
  { intros E0. assert (Hv : In v vs); [|rewrite E0 in Hv; contradiction].
    apply lookup_all_In. exists (sec_id s, pid). split; [|assumption].
    apply in_map_iff. eauto. }
  destruct (build_model_contents _ Hb) as [Hp [_ [_ [_ Hc]]]].
  assert (Hex : In (ExactlyOne vs) (constraints (model st))).
  { apply Hc. left. apply in_flat_map. exists s. split; [assumption|].
    unfold vs in *. rewrite Hp in *. now apply exactly_one_pattern_In. }
  destruct Hf as [_ Hh]. specialize (Hh _ Hex). simpl in Hh. lia.
Qed.

Lemma chosen_room_unique inp st pens sol s rid v crid :
  build_model inp = Ok (st, pens) -> feasible (model st) sol ->
  In s (sections inp) ->
  chosen_room inp st sol s = Some crid ->
  In rid (map room_id (rooms inp)) ->
  get2 (sec_id s, rid) (section_room_vars st) = Some v -> Value sol v = 1 ->
  rid = crid.
Proof.
  intros Hb Hf Hs Hch Hin Hg Hone.
  unfold chosen_room, extract_section in Hch. simpl in Hch.
  apply first_chosen_Some in Hch. destruct Hch as [Hcin [cv [Hcg Hcone]]].
  destruct (N.eq_dec rid crid) as [E|E]; [assumption|exfalso].
  set (vs := lookup_all (section_room_vars st)
               (map (fun i => (sec_id s, i)) (map room_id (rooms inp)))).
  assert (Hnn : forall w, In w vs -> 0 <= Value sol w).
  { intros w Hw. apply lookup_all_In in Hw. destruct Hw as [k [_ Hk]].
    assert (0 <= Value sol w <= 1) by (eapply room_values_boolean; eauto). lia. }
  assert (H2 : 2 <= sum_values sol vs)
    by (apply sum_lookup_two with (a := rid) (b := crid) (va := v) (vb := cv); assumption).
  assert (Hne : vs <> []).
  { intros E0. assert (Hv : In v vs); [|rewrite E0 in Hv; contradiction].
    apply lookup_all_In. exists (sec_id s, rid). split; [|assumption].
    apply in_map_iff. eauto. }
  destruct (build_model_contents _ Hb) as [_ [Hr [_ [_ Hc]]]].
  assert (Hex : In (ExactlyOne vs) (constraints (model st))).
  { apply Hc. left. apply in_flat_map. exists s. split; [assumption|].
    unfold vs in *. rewrite Hr in *. now apply exactly_one_room_In. }
  destruct Hf as [_ Hh]. specialize (Hh _ Hex). simpl in Hh. lia.
Qed.

(** X19. What the [immediately_after] connector does with the compatibility
    test as the code computes it.  For the parent and a child of a link group
    and every candidate pattern [pp] of the parent that is a pattern of the
    input: the compatible child patterns are the candidate patterns of the
    child that the test accepts for [pp], and the test accepts a pair exactly
    when on a shared day the child's start is between 0 and 30 minutes after
    the parent's end, both read on their hour and minute fields; if there is
    none, the constraint [x_parent,pp = 0] is in the model, otherwise the
    constraint [sum of the compatible child variables >= x_parent,pp] is; and
    under every feasible solution the test accepts the pattern chosen for the
    child after the pattern chosen for the parent. *)
Theorem immediately_after_coupling (inp : SolverInput) (st : CPSATSolver)
    (pens : list LinearExpr) (parent child : Section) :
  build_model inp = Ok (st, pens) ->
  link_connector_type inp = None \/ link_connector_type inp = Some immediately_after ->
  link_pair inp parent child ->
  let by_id := pattern_by_id (meeting_patterns inp) in
  let spv := section_pattern_vars st in
  (forall p c, compatible_30 p c = true <-> minute_gap_ok p c 30)
  /\ (forall ppid pp pv,
         dict_get uuid_eqb ppid by_id = Some pp ->
         get2 (sec_id parent, ppid) spv = Some pv ->
         let C := compatible_child_pids compatible_30 by_id pp
                    (keys_of_section spv (sec_id child)) in
         (forall cpid,
             In cpid C <-> exists cv cp,
               get2 (sec_id child, cpid) spv = Some cv
               /\ dict_get uuid_eqb cpid by_id = Some cp
               /\ compatible_30 pp cp = true)
         /\ (C = [] -> In (LinEq (lvar pv) (lconst 0)) (constraints (model st)))
         /\ (C <> [] ->
             In (LinGe (lsum_vars (lookup_all spv (map (fun cpid => (sec_id child, cpid)) C)))
                       (lvar pv))
                (constraints (model st))))
  /\ (forall sol ppid cpid,
         feasible (model st) sol ->
         chosen_pattern inp st sol parent = Some ppid ->
         chosen_pattern inp st sol child = Some cpid ->
         exists pp cp,
           dict_get uuid_eqb ppid by_id = Some pp
           /\ dict_get uuid_eqb cpid by_id = Some cp
           /\ In pp (meeting_patterns inp) /\ In cp (meeting_patterns inp)
           /\ mp_id pp = ppid /\ mp_id cp = cpid
           /\ compatible_30 pp cp = true).
Proof.
  intros Hb Hconn Hlink by_id spv.
  destruct (build_model_contents _ Hb) as [Hp [_ [_ [_ Hc]]]].
  assert (Hconn' : match link_connector_type inp with
                   | Some k => k
                   | None => immediately_after
                   end = immediately_after)
    by (destruct Hconn as [-> | ->]; reflexivity).
  rewrite Hconn' in Hc. rewrite <- Hp in Hc.
  assert (Hgen : forall ppid pp pv,
             dict_get uuid_eqb ppid by_id = Some pp ->
             get2 (sec_id parent, ppid) spv = Some pv ->
             let C := compatible_child_pids compatible_30 by_id pp
                        (keys_of_section spv (sec_id child)) in
             (C = [] -> In (LinEq (lvar pv) (lconst 0)) (constraints (model st)))
             /\ (C <> [] ->
                 In (LinGe (lsum_vars
                              (lookup_all spv (map (fun cpid => (sec_id child, cpid)) C)))
                           (lvar pv))
                    (constraints (model st)))).
  { intros ppid pp pv Hpp Hpv C.
    destruct (link_constraints_In compatible_30 true parent child (meeting_patterns inp)
                spv ppid Hpp Hpv) as [H0 H1].
    split; intros HC; apply Hc; do 4 right;
      apply linked_section_constraints_In with (parent := parent) (child := child);
      try assumption; unfold _add_immediately_after_constraint.
    - now apply H0.
    - now apply H1. }
  split; [|split].
  - intros p c. apply compatible_immediately_after_iff.
  - intros ppid pp pv Hpp Hpv C. split; [|now apply Hgen with (ppid := ppid)].
    intros cpid. apply compatible_child_pids_In.
  - intros sol ppid cpid Hf Hpc Hcc.
    destruct (link_pair_sections Hlink) as [Hps Hcs].
    pose proof Hpc as Hpc'. unfold chosen_pattern, extract_section in Hpc'. simpl in Hpc'.
    apply first_chosen_Some in Hpc'. destruct Hpc' as [Hpin [pv [Hpg Hpone]]].
    destruct (pattern_by_id_known _ _ Hpin) as [pp Hpp].
    destruct (pattern_by_id_get _ _ Hpp) as [Hppin Hppid].
    destruct (Hgen ppid pp pv Hpp Hpg) as [H0 H1].
    set (C := compatible_child_pids compatible_30 by_id pp
                (keys_of_section spv (sec_id child))) in *.
    destruct C as [|c0 cr] eqn:EC.
    + exfalso. destruct Hf as [_ Hh]. specialize (Hh _ (H0 eq_refl)). simpl in Hh.
      rewrite eval_lvar, eval_lconst in Hh. lia.
    + assert (Hne : c0 :: cr <> []) by discriminate.
      pose proof Hf as [_ Hh]. specialize (Hh _ (H1 Hne)). cbn [holds] in Hh.
      rewrite eval_lsum_vars, eval_lvar in Hh.
      destruct (sum_values_some_one sol
                  (lookup_all spv (map (fun cpid0 => (sec_id child, cpid0)) (c0 :: cr))))
        as [cv [Hcv Hcone]].
      * intros w Hw. apply lookup_all_In in Hw. destruct Hw as [k [_ Hk]].
        eapply pattern_values_boolean; eauto.
      * lia.
      * apply lookup_all_In in Hcv. destruct Hcv as [k [Hk Hkg]].
        apply in_map_iff in Hk. destruct Hk as [c1 [<- Hc1]].
        assert (Hc1' : In c1 C) by (rewrite EC; exact Hc1).
        apply compatible_child_pids_In in Hc1'.
        destruct Hc1' as [cv' [cp [Hcv' [Hcp Hcompat]]]].
        destruct (pattern_by_id_get _ _ Hcp) as [Hcpin Hcpid].
        assert (E : c1 = cpid).
        { apply chosen_pattern_unique with (inp := inp) (st := st) (pens := pens)
            (sol := sol) (s := child) (v := cv); try assumption.
          rewrite <- Hcpid. now apply in_map. }
        rewrite <- E. exists pp, cp. repeat split; assumption.
Qed.

Lemma immediately_after_coupling_witness :
  exists st pens,
    build_model linked_input = Ok (st, pens)
    /\ link_pair linked_input lecture lab
    /\ feasible (model st) linked_solution
    /\ chosen_pattern linked_input st linked_solution lecture = Some 1%N
    /\ chosen_pattern linked_input st linked_solution lab = Some 5%N
    /\ exists pp cp, mp_id pp = 1%N /\ mp_id cp = 5%N /\ compatible_30 pp cp = true.
Proof.
  destruct (build_model linked_input) as [[st pens]|e] eqn:Hb;
    [|vm_compute in Hb; discriminate].
  exists st, pens.
  assert (Hl : link_pair linked_input lecture lab).
  { exists (80%N, [lecture; lab]), [lab]. repeat split.
    - left. reflexivity.
    - simpl. lia.
    - now left. }
  assert (Hf : feasible (model st) linked_solution).
  { apply feasibleb_sound. vm_compute in Hb. injection Hb as <- _. vm_compute. reflexivity. }
  assert (Hp : chosen_pattern linked_input st linked_solution lecture = Some 1%N).
  { vm_compute in Hb. injection Hb as <- _. vm_compute. reflexivity. }
  assert (Hc : chosen_pattern linked_input st linked_solution lab = Some 5%N).
  { vm_compute in Hb. injection Hb as <- _. vm_compute. reflexivity. }
  repeat (split; [assumption || reflexivity|]).
  destruct (@immediately_after_coupling linked_input st pens lecture lab Hb
              (or_introl eq_refl) Hl) as [_ [_ H]].
  destruct (H linked_solution 1%N 5%N Hf Hp Hc) as [pp [cp [_ [_ [_ [_ [A [B C]]]]]]]].
  exists pp, cp. auto.
Defined.

(** A pattern variable of the parent whose id is not a pattern of the input
    (here 9) is skipped by the connector: nothing is emitted for it. *)
Example immediately_after_skips_unknown_parent :
  exists pv,
    get2 (20%N, 9%N) (section_pattern_vars (created unknown_linked_input)) = Some pv
    /\ dict_get uuid_eqb 9%N (pattern_by_id (meeting_patterns unknown_linked_input)) = None
    /\ linked_section_constraints (sections unknown_linked_input)
         (meeting_patterns unknown_linked_input)
         (section_pattern_vars (created unknown_linked_input)) immediately_after
       = [].
Proof. eexists. vm_compute. repeat split. Qed.

(** C5.  [_patterns_compatible_immediately_after] computes the gap from
    [hour * 60 + minute] of the two times and drops their seconds, against
    its docstring (child starts within [max_gap_minutes] after parent ends).
    A lab starting at 10:20:30 is accepted after a lecture ending at 9:50:00,
    thirty minutes and thirty seconds earlier; and a pattern starting at
    9:50:00 is accepted after one that ends at 9:50:30, although it starts
    before the other has ended.  At the failing input the lab's only pattern
    starts at 10:20:30: the generator does not forbid the lecture's pattern and
    the model has a feasible solution with the lecture at 9:00 and the lab at
    10:20:30. *)
Theorem immediately_after_ignores_seconds :
  (~ time_gap_ok mon_9 mon_late 30
   /\ _patterns_compatible_immediately_after mon_9 mon_late 30 = true)
  /\ (~ time_gap_ok mon_9_long mon_950 30
      /\ _patterns_compatible_immediately_after mon_9_long mon_950 30 = true)
  /\ exists st pens,
       build_model late_linked_input = Ok (st, pens)
       /\ link_pair late_linked_input lecture late_lab
       /\ (exists pv,
              get2 (20%N, 1%N) (section_pattern_vars st) = Some pv
              /\ ~ In (LinEq (lvar pv) (lconst 0)) (constraints (model st)))
       /\ feasible (model st) late_linked_solution
       /\ chosen_pattern late_linked_input st late_linked_solution lecture = Some 1%N
       /\ chosen_pattern late_linked_input st late_linked_solution late_lab = Some 7%N.
Proof.
  split; [|split].
  - split; [|reflexivity].
    intros [pt [ct [Hpt [Hct [_ H]]]]]. simpl in Hpt, Hct.
    destruct Hpt as [<-|[]]. destruct Hct as [<-|[]].
    vm_compute in H. destruct H as [_ H]. apply H. reflexivity.
  - split; [|reflexivity].
    intros [pt [ct [Hpt [Hct [_ H]]]]]. simpl in Hpt, Hct.
    destruct Hpt as [<-|[]]. destruct Hct as [<-|[]].
    vm_compute in H. destruct H as [H _]. apply H. reflexivity.
  - destruct (build_model late_linked_input) as [[st pens]|e] eqn:Hb;
      [|vm_compute in Hb; discriminate].
    exists st, pens. vm_compute in Hb. injection Hb as <- _.
    split; [reflexivity|]. split; [|split; [|split; [|split]]].
    + exists (80%N, [lecture; late_lab]), [late_lab]. repeat split.
      * left. reflexivity.
      * simpl. lia.
      * now left.
    + eexists. split; [vm_compute; reflexivity|].
      intros H. vm_compute in H.
      repeat (destruct H as [H|H]; [discriminate H|]). exact H.
    + apply feasibleb_sound. vm_compute. reflexivity.
    + vm_compute. reflexivity.
    + vm_compute. reflexivity.
Qed.

(* ===================================================================== *)
(** ** Instructor conflicts                                               *)
(* ===================================================================== *)

(** The innermost body never gets past its first test: with a variable for
    the first section and pattern the truth value of the handle is asked for,
    without one the test is false. *)
Lemma instructor_conflict_at_result spv siv i s1 s2 p1 p2 :
  instructor_conflict_at spv siv i s1 s2 p1 p2
  = match get2 (sec_id s1, p1) spv with
    | Some _ => Raise NotImplementedError
    | None => Ok []
    end.
Proof.
  unfold instructor_conflict_at, truth_and.
  destruct (get2 (sec_id s1, p1) spv) as [x1|]; reflexivity.
Qed.

(** C1.  The generator tests [if var_s1_p1 and var_s2_p2] on what the two
    lookups returned.  With a variable for the first section and pattern the
    truth value of a variable handle is asked for and OR-tools raises
    [NotImplementedError]; without one the test is false.  So the innermost
    body emits no inequality at all, for no combination of candidate and
    pre-assigned instructors, and at the failing input, where two sections are
    pre-assigned to the same instructor and may take two patterns that
    overlap, the generator and with it the building of the model raise instead
    of adding [x1 + x2 <= 1]. *)
Theorem instructor_conflict_both_preassigned_raises :
  (forall spv siv i s1 s2 p1 p2 x1,
      get2 (sec_id s1, p1) spv = Some x1 ->
      instructor_conflict_at spv siv i s1 s2 p1 p2 = Raise NotImplementedError)
  /\ (forall spv siv i s1 s2 p1 p2 cs,
         instructor_conflict_at spv siv i s1 s2 p1 p2 = Ok cs -> cs = [])
  /\ let st := _add_assignment_constraints both_preassigned_input
                 (_create_variables both_preassigned_input init_solver) in
     _patterns_overlap mon_9 mon_930 = true
     /\ section_instructor_vars st = []
     /\ (exists x1 x2,
            get2 (20%N, 1%N) (section_pattern_vars st) = Some x1
            /\ get2 (21%N, 2%N) (section_pattern_vars st) = Some x2)
     /\ instructor_conflict_at (section_pattern_vars st) (section_instructor_vars st) 100%N
          (with_assigned (section 20%N 25) [100%N]) (with_assigned (section 21%N 20) [100%N])
          1%N 2%N
        = Raise NotImplementedError
     /\ add_instructor_conflict_constraints (model st) (sections both_preassigned_input)
          (meeting_patterns both_preassigned_input) (section_pattern_vars st)
          (section_instructor_vars st)
        = Raise NotImplementedError
     /\ build_model both_preassigned_input = Raise NotImplementedError.
Proof.
  split; [|split].
  - intros spv siv i s1 s2 p1 p2 x1 H. now rewrite instructor_conflict_at_result, H.
  - intros spv siv i s1 s2 p1 p2 cs. rewrite instructor_conflict_at_result.
    destruct (get2 (sec_id s1, p1) spv); [discriminate | now intros [= <-]].
  - vm_compute. repeat split. do 2 eexists. split; reflexivity.
Qed.

(* ===================================================================== *)
(** ** Cross-listed sections                                              *)
(* ===================================================================== *)

Lemma equate_common_In d anchor other k av ov :
  get2 (sec_id anchor, k) d = Some av ->
  get2 (sec_id other, k) d = Some ov ->
  In (LinEq (lvar av) (lvar ov)) (equate_common d anchor other).
Proof.
  intros Ha Ho. unfold equate_common. apply in_flat_map. exists k. split.
  - unfold set_inter. apply filter_In. split.
    + apply set_of_In, keys_of_section_In. eauto.
    + apply mem_In, set_of_In, keys_of_section_In. eauto.
  - rewrite Ha, Ho. now left.
Qed.

Lemma cross_list_constraints_In inp spv srv anchor other c :
  cross_list_pair inp anchor other ->
  In c (equate_common spv anchor other ++ equate_common srv anchor other) ->
  In c (cross_list_constraints (sections inp) spv srv).
Proof.
  intros [kv [others [Hkv [Hg Ho]]]] Hc.
  unfold cross_list_constraints. apply in_flat_map. exists kv. split; [assumption|].
  rewrite Hg. destruct others as [|o r]; [contradiction|].
  apply in_flat_map. exists other. auto.
Qed.

Lemma first_chosen_exists sol d sid ids i v :
  In i ids -> get2 (sid, i) d = Some v -> Value sol v = 1 ->
  exists c, first_chosen sol d sid ids = Some c.
Proof.
  induction ids as [|x r IH]; simpl; intros Hin Hg Hone; [contradiction|].
  destruct (get2 (sid, x) d) as [w|] eqn:E.
  - destruct (Value sol w =? 1) eqn:Ew; [eauto|].
    destruct Hin as [->|Hin]; [|now apply IH].
    rewrite Hg in E. injection E as <-. apply Z.eqb_neq in Ew. contradiction.
  - destruct Hin as [->|Hin]; [congruence | now apply IH].
Qed.

(** What the cross-list generator does guarantee: under a feasible solution,
    when the pattern (the room) chosen for the anchor of a group is also a
    candidate of another section of the group, that section is given the same
    pattern (room). *)
Lemma cross_list_agree_on_common (inp : SolverInput) (st : CPSATSolver)
    (pens : list LinearExpr) (sol : Solution) (anchor other : Section) :
  build_model inp = Ok (st, pens) -> feasible (model st) sol ->
  cross_list_pair inp anchor other ->
  (forall pid ov,
      chosen_pattern inp st sol anchor = Some pid ->
      get2 (sec_id other, pid) (section_pattern_vars st) = Some ov ->
      chosen_pattern inp st sol other = Some pid)
  /\ (forall rid ov,
         chosen_room inp st sol anchor = Some rid ->
         get2 (sec_id other, rid) (section_room_vars st) = Some ov ->
         chosen_room inp st sol other = Some rid).
Proof.
  intros Hb Hf Hpair.
  destruct (build_model_contents _ Hb) as [Hp [Hr [_ [_ Hc]]]].
  rewrite <- Hp, <- Hr in Hc.
  assert (Hother : In other (sections inp)).
  { destruct Hpair as [kv [others [Hkv [Hg Ho]]]].
    assert (Hin : In other (snd kv)) by (rewrite Hg; now right).
    now destruct (group_sections_In _ _ _ _ Hkv Hin). }
  split.
  - intros pid ov Hch Hov.
    pose proof Hch as Hch'. unfold chosen_pattern, extract_section in Hch'. simpl in Hch'.
    apply first_chosen_Some in Hch'. destruct Hch' as [Hin [av [Hav Hone]]].
    assert (Heq : In (LinEq (lvar av) (lvar ov)) (constraints (model st))).
    { apply Hc. do 3 right. left.
      apply cross_list_constraints_In with (anchor := anchor) (other := other);
        [assumption|].
      apply in_or_app. left. now apply equate_common_In with (k := pid). }
    pose proof Hf as [_ Hh]. specialize (Hh _ Heq). cbn [holds] in Hh.
    rewrite !eval_lvar in Hh.
    assert (Hoone : Value sol ov = 1) by lia.
    destruct (first_chosen_exists sol (section_pattern_vars st) (sec_id other)
                (map mp_id (meeting_patterns inp)) pid Hin Hov Hoone) as [c Hcc].
    assert (Hco : chosen_pattern inp st sol other = Some c) by exact Hcc.
    rewrite Hco. f_equal. symmetry.
    eapply chosen_pattern_unique with (s := other) (v := ov); eauto.
  - intros rid ov Hch Hov.
    pose proof Hch as Hch'. unfold chosen_room, extract_section in Hch'. simpl in Hch'.
    apply first_chosen_Some in Hch'. destruct Hch' as [Hin [av [Hav Hone]]].
    assert (Heq : In (LinEq (lvar av) (lvar ov)) (constraints (model st))).
    { apply Hc. do 3 right. left.
      apply cross_list_constraints_In with (anchor := anchor) (other := other);
        [assumption|].
      apply in_or_app. right. now apply equate_common_In with (k := rid). }
    pose proof Hf as [_ Hh]. specialize (Hh _ Heq). cbn [holds] in Hh.
    rewrite !eval_lvar in Hh.
    assert (Hoone : Value sol ov = 1) by lia.
    destruct (first_chosen_exists sol (section_room_vars st) (sec_id other)
                (map room_id (rooms inp)) rid Hin Hov Hoone) as [c Hcc].
    assert (Hco : chosen_room inp st sol other = Some c) by exact Hcc.
    rewrite Hco. f_equal. symmetry.
    eapply chosen_room_unique with (s := other) (v := ov); eauto.
Qed.

(** C2, at the failing input.  Sections 20 and 21 are cross-listed; 20 allows
    the patterns 1 and 3, 21 allows 4 and 3.  The generator equates the two
    variables of the common pattern 3 and adds nothing for the patterns 1 and
    4, so the model has a feasible solution in which section 20 meets on
    pattern 1 and section 21 on pattern 4. *)
Theorem cross_listed_sections_differ :
  exists st pens s20 s21,
    build_model cross_list_input = Ok (st, pens)
    /\ sections cross_list_input = [s20; s21]
    /\ cross_list_group_id s20 = Some 70%N /\ cross_list_group_id s21 = Some 70%N
    /\ cross_list_constraints (sections cross_list_input) (section_pattern_vars st)
         (section_room_vars st)
       = [LinEq (lvar {| index := 1; var_name := sp 20%N 3%N; lb := 0; ub := 1 |})
                (lvar {| index := 9; var_name := sp 21%N 3%N; lb := 0; ub := 1 |});
          LinEq (lvar {| index := 2; var_name := sr 20%N 10%N; lb := 0; ub := 1 |})
                (lvar {| index := 10; var_name := sr 21%N 10%N; lb := 0; ub := 1 |});
          LinEq (lvar {| index := 3; var_name := sr 20%N 11%N; lb := 0; ub := 1 |})
                (lvar {| index := 11; var_name := sr 21%N 11%N; lb := 0; ub := 1 |})]
    /\ feasible (model st) cross_list_solution
    /\ is_assigned (extract_section cross_list_input st cross_list_solution s20) = true
    /\ is_assigned (extract_section cross_list_input st cross_list_solution s21) = true
    /\ chosen_pattern cross_list_input st cross_list_solution s20 = Some 1%N
    /\ chosen_pattern cross_list_input st cross_list_solution s21 = Some 4%N.
Proof.
  destruct (build_model cross_list_input) as [[st pens]|e] eqn:Hb;
    [|vm_compute in Hb; discriminate].
  exists st, pens. do 2 eexists. vm_compute in Hb. injection Hb as <- _.
  split; [reflexivity|]. split; [reflexivity|].
  split; [reflexivity|]. split; [reflexivity|].
  split; [vm_compute; reflexivity|].
  split; [apply feasibleb_sound; vm_compute; reflexivity|].
  repeat split.
Qed.

(* ===================================================================== *)
(** ** Instructor time preferences                                        *)
(* ===================================================================== *)

Lemma time_in_range_iff x s e : _time_in_range x s e = true <-> in_range x s e.
Proof. unfold _time_in_range, in_range. apply andb_true_iff. Qed.

Lemma matches_times_iff pref ts :
  matches_times pref ts = true
  <-> exists t,
      In t ts
      /\ (forall d, pref_day_of_week pref = Some d -> day_of_week t = d)
      /\ match pref_start_time pref, pref_end_time pref with
         | Some s, Some e => in_range (start_time t) s e \/ in_range (end_time t) s e
         | _, _ => pref_day_of_week pref <> None
         end.
Proof.
  induction ts as [|t r IH]; cbn [matches_times].
  - split; [discriminate | intros [t [[] _]]].
  - assert (Hrest : (exists t0, In t0 r
                       /\ (forall d, pref_day_of_week pref = Some d -> day_of_week t0 = d)
                       /\ match pref_start_time pref, pref_end_time pref with
                          | Some s, Some e =>
                              in_range (start_time t0) s e \/ in_range (end_time t0) s e
                          | _, _ => pref_day_of_week pref <> None
                          end)
                    -> exists t0, In t0 (t :: r)
                       /\ (forall d, pref_day_of_week pref = Some d -> day_of_week t0 = d)
                       /\ match pref_start_time pref, pref_end_time pref with
                          | Some s, Some e =>
                              in_range (start_time t0) s e \/ in_range (end_time t0) s e
                          | _, _ => pref_day_of_week pref <> None
                          end).
    { intros [t0 [H0 H1]]. exists t0. split; [now right | assumption]. }
    destruct (pref_day_of_week pref) as [d|] eqn:Ed.
    + destruct (day_of_week t =? d) eqn:Edd; cbn [negb].
      * apply Z.eqb_eq in Edd.
        destruct (pref_start_time pref) as [s|]; [destruct (pref_end_time pref) as [e|]|].
        -- destruct (_time_in_range (start_time t) s e) eqn:E1.
           { split; [intros _|reflexivity]. exists t. split; [now left|].
             split; [intros d' [= <-]; assumption|]. left. now apply time_in_range_iff. }
           destruct (_time_in_range (end_time t) s e) eqn:E2.
           { split; [intros _|reflexivity]. exists t. split; [now left|].
             split; [intros d' [= <-]; assumption|]. right. now apply time_in_range_iff. }
           rewrite IH. split; [exact Hrest|].
           intros [t0 [[<-|H0] [Hd H1]]]; [|exists t0; auto].
           destruct H1 as [H1|H1]; apply time_in_range_iff in H1; congruence.
        -- split; [intros _|reflexivity]. exists t. split; [now left|].
           split; [intros d' [= <-]; assumption | discriminate].
        -- split; [intros _|reflexivity]. exists t. split; [now left|].
           split; [intros d' [= <-]; assumption | discriminate].
      * apply Z.eqb_neq in Edd. rewrite IH. split; [exact Hrest|].
        intros [t0 [[<-|H0] [Hd H1]]]; [|exists t0; auto].
        exfalso. apply Edd. now apply Hd.
    + cbn [negb].
      destruct (pref_start_time pref) as [s|]; [destruct (pref_end_time pref) as [e|]|].
      * destruct (_time_in_range (start_time t) s e) eqn:E1.
        { split; [intros _|reflexivity]. exists t. split; [now left|].
          split; [discriminate|]. left. now apply time_in_range_iff. }
        destruct (_time_in_range (end_time t) s e) eqn:E2.
        { split; [intros _|reflexivity]. exists t. split; [now left|].
          split; [discriminate|]. right. now apply time_in_range_iff. }
        rewrite IH. split; [exact Hrest|].
        intros [t0 [[<-|H0] [Hd H1]]]; [|exists t0; auto].
        destruct H1 as [H1|H1]; apply time_in_range_iff in H1; congruence.
      * rewrite IH. split; [exact Hrest|].
        intros [t0 [[<-|H0] [Hd H1]]]; [|exists t0; auto]. congruence.
      * rewrite IH. split; [exact Hrest|].
        intros [t0 [[<-|H0] [Hd H1]]]; [|exists t0; auto]. congruence.
Qed.

Lemma pattern_matches_preference_iff p pref :
  _pattern_matches_preference p pref = true <-> spec_pattern_matches p pref.
Proof.
  unfold _pattern_matches_preference, spec_pattern_matches.
  destruct (meeting_pattern_id pref); [apply uuid_eqb_eq | apply matches_times_iff].
Qed.

(** *** The loops only add *)

Lemma pextends_refl acc : pextends acc acc.
Proof. split; [apply extends_refl | apply incl_refl]. Qed.

Lemma pextends_trans a b c : pextends a b -> pextends b c -> pextends a c.
Proof.
  intros [A B] [C D]. split; [eapply extends_trans | eapply incl_tran]; eauto.
Qed.

Lemma pextends_fold {B : Type} (f : PenaltyState -> B -> PenaltyState) (l : list B) acc :
  (forall a x, pextends a (f a x)) -> pextends acc (fold_left f l acc).
Proof.
  intros H. apply fold_left_inv with (P := fun x => pextends acc x).
  - apply pextends_refl.
  - intros a x _ Ha. eapply pextends_trans; eauto.
Qed.

Lemma pextends_preference_step base s iid p pv iv acc pref :
  pextends acc (preference_step base s iid p pv iv acc pref).
Proof.
  split; [apply extends_preference_step|].
  unfold preference_step.
  destruct (negb (_pattern_matches_preference p pref)); [apply incl_refl|].
  destruct (penalty_value_of base (preference_level pref) =? 0); [apply incl_refl|].
  simpl. apply incl_appl, incl_refl.
Qed.

Lemma pextends_preference_pattern_loop base spv siv s iid prefs acc p :
  pextends acc (preference_pattern_loop base spv siv s iid prefs acc p).
Proof.
  unfold preference_pattern_loop.
  destruct (get2 (sec_id s, mp_id p) spv); [|apply pextends_refl].
  apply pextends_fold. intros. apply pextends_preference_step.
Qed.

Lemma pextends_preference_instructor_loop base by_id mps spv siv s acc iid :
  pextends acc (preference_instructor_loop base by_id mps spv siv s acc iid).
Proof.
  unfold preference_instructor_loop.
  destruct (dict_get uuid_eqb iid by_id) as [i|]; [|apply pextends_refl].
  destruct (time_preferences i); [apply pextends_refl|].
  apply pextends_fold. intros. apply pextends_preference_pattern_loop.
Qed.

Lemma pextends_preference_section_loop base by_id mps spv siv acc s :
  pextends acc (preference_section_loop base by_id mps spv siv acc s).
Proof.
  unfold preference_section_loop.
  apply pextends_fold. intros. apply pextends_preference_instructor_loop.
Qed.

Lemma penalty_term_in_pextends acc acc' s i p x a w :
  penalty_term_in acc s i p x a w -> pextends acc acc' -> penalty_term_in acc' s i p x a w.
Proof.
  intros [g [H1 [H2 [H3 [H4 [H5 H6]]]]]] [[Hv Hc] Hp].
  exists g. repeat split; auto.
  destruct a; [apply Hc, H6 | intros Hm; apply Hc, H6, Hm].
Qed.

(** A loop reaches a property that one of its iterations establishes and the
    others keep. *)
Lemma fold_left_hit {A B : Type} (f : A -> B -> A) (Q : A -> Prop) (l : list B) (x : B) :
  In x l -> (forall a y, Q a -> Q (f a y)) -> (forall a, Q (f a x)) ->
  forall a, Q (fold_left f l a).
Proof.
  intros Hin Hkeep Hx. induction l as [|y r IH]; [contradiction|].
  intros a. simpl. destruct Hin as [->|Hin]; [|now apply IH].
  apply fold_left_inv; [apply Hx | intros; now apply Hkeep].
Qed.

Lemma preference_step_term base s i p x a acc pref :
  _pattern_matches_preference p pref = true ->
  penalty_value_of base (preference_level pref) <> 0 ->
  penalty_term_in (preference_step base s i p x a acc pref) s i p x a
                  (penalty_value_of base (preference_level pref)).
Proof.
  intros Hm Hw. unfold preference_step. rewrite Hm. cbn [negb].
  apply Z.eqb_neq in Hw. rewrite Hw.
  unfold penalty_term_in, NewBoolVar, new_var. cbn [fst snd].
  eexists. split; [apply in_or_app; right; now left|].
  destruct a as [iv|].
  - simpl. repeat split; try reflexivity.
    + apply in_or_app. right. now left.
    + apply in_or_app. right. now left.
  - destruct (mem i (assigned_instructor_ids s)); simpl; repeat split; try reflexivity;
      try (apply in_or_app; right; now left); try discriminate.
    intros _. apply in_or_app. right. now left.
Qed.

Lemma preference_penalties_complete m sects instrs mps spv siv weights s i instr p x pref :
  In s sects ->
  In i (assigned_instructor_ids s ++ preferred_instructor_ids s) ->
  dict_get uuid_eqb i (instructor_by_id instrs) = Some instr ->
  In p mps ->
  get2 (sec_id s, mp_id p) spv = Some x ->
  In pref (time_preferences instr) ->
  _pattern_matches_preference p pref = true ->
  penalty_value_of (weight_of weights "instructor_time_preference" 10)
                   (preference_level pref) <> 0 ->
  penalty_term_in (add_instructor_preference_penalties m sects instrs mps spv siv weights)
                  s i p x (get2 (sec_id s, i) siv)
                  (penalty_value_of (weight_of weights "instructor_time_preference" 10)
                                    (preference_level pref)).
Proof.
  intros Hs Hi Hinstr Hp Hx Hpref Hm Hw.
  unfold add_instructor_preference_penalties.
  apply fold_left_hit with (x := s); [assumption| |].
  { intros a y Ha. eapply penalty_term_in_pextends;
      [exact Ha | apply pextends_preference_section_loop]. }
  intros a. unfold preference_section_loop.
  apply fold_left_hit with (x := i).
  { unfold set_union. now apply set_of_In. }
  { intros b y Hb. eapply penalty_term_in_pextends;
      [exact Hb | apply pextends_preference_instructor_loop]. }
  intros b. unfold preference_instructor_loop. rewrite Hinstr.
  destruct (time_preferences instr) as [|pr0 prs] eqn:Et; [contradiction|].
  apply fold_left_hit with (x := p); [assumption| |].
  { intros c y Hc. eapply penalty_term_in_pextends;
      [exact Hc | apply pextends_preference_pattern_loop]. }
  intros c. unfold preference_pattern_loop. rewrite Hx.
  apply fold_left_hit with (x := pref); [assumption| |].
  { intros d y Hd. eapply penalty_term_in_pextends;
      [exact Hd | apply pextends_preference_step]. }
  intros d. now apply preference_step_term.
Qed.

Lemma preference_penalties_sound m sects instrs mps spv siv weights t :
  In t (snd (add_instructor_preference_penalties m sects instrs mps spv siv weights)) ->
  penalty_origin (weight_of weights "instructor_time_preference" 10) sects
                 (instructor_by_id instrs) mps spv t.
Proof.
  unfold add_instructor_preference_penalties.
  set (base := weight_of weights "instructor_time_preference" 10).
  set (by_id := instructor_by_id instrs).
  set (P := fun acc : PenaltyState =>
              forall t, In t (snd acc) -> penalty_origin base sects by_id mps spv t).
  revert t. change (P (fold_left (preference_section_loop base by_id mps spv siv) sects (m, []))).
  apply fold_left_inv; [intros t []|].
  intros a s Hs Ha. unfold preference_section_loop.
  apply fold_left_inv; [exact Ha|].
  intros b i Hi Hb. unfold preference_instructor_loop.
  destruct (dict_get uuid_eqb i by_id) as [instr|] eqn:Ei; [|exact Hb].
  destruct (time_preferences instr) as [|pr0 prs] eqn:Et; [exact Hb|].
  rewrite <- Et.
  apply fold_left_inv; [exact Hb|].
  intros c p Hp Hc. unfold preference_pattern_loop.
  destruct (get2 (sec_id s, mp_id p) spv) as [x|] eqn:Ex; [|exact Hc].
  apply fold_left_inv; [exact Hc|].
  intros d pref Hpref Hd. unfold preference_step.
  destruct (_pattern_matches_preference p pref) eqn:Em; cbn [negb]; [|exact Hd].
  destruct (penalty_value_of base (preference_level pref) =? 0) eqn:Ew; [exact Hd|].
  apply Z.eqb_neq in Ew.
  intros t Ht. cbn [NewBoolVar new_var snd] in Ht.
  apply in_app_iff in Ht. destruct Ht as [Ht|[<-|[]]]; [now apply Hd|].
  unfold set_union in Hi. apply (proj1 (set_of_In _ _)) in Hi.
  unfold penalty_origin. exists s, i, instr, p, x, pref. eexists.
  repeat split; try eassumption.
Qed.

(** C8. [base] is the configured weight ["instructor_time_preference"]
    truncated to an integer, 10 when absent; the weight of an entry is
    [100 * base] for PROHIBITED, [2 * base] for DISCOURAGED, [- base] for
    PREFERRED, [- 2 * base] for REQUIRED and 0 for NEUTRAL; the matcher is the
    predicate of the specification; for every section, instructor that could
    teach it, pattern with a variable and matching entry of the instructor,
    the penalties contain the term [weight * g] with [g] a Boolean variable
    constrained to [x * A] ([x] when the instructor is pre-assigned), unless
    the weight is 0, in which case nothing is added; and every term of the
    penalties arises this way, so a NEUTRAL entry contributes none. *)
Theorem preference_penalty_terms (m : CpModel) (sects : list Section)
    (instrs : list Instructor) (mps : list MeetingPattern)
    (sp_vars si_vars : dict Key2 IntVar) (weights : list (string * Q)) :
  let base := weight_of weights "instructor_time_preference" 10 in
  let res := add_instructor_preference_penalties m sects instrs mps sp_vars si_vars weights in
  base = match dict_get String.eqb "instructor_time_preference"%string weights with
         | Some w => Z.quot (Qnum w) (Zpos (Qden w))
         | None => 10
         end
  /\ (penalty_value_of base PROHIBITED = 100 * base
      /\ penalty_value_of base DISCOURAGED = 2 * base
      /\ penalty_value_of base PREFERRED = - base
      /\ penalty_value_of base REQUIRED = - 2 * base
      /\ penalty_value_of base NEUTRAL = 0)
  /\ (forall p pref,
         _pattern_matches_preference p pref = true <-> spec_pattern_matches p pref)
  /\ (forall s i instr p x pref,
         In s sects ->
         In i (assigned_instructor_ids s ++ preferred_instructor_ids s) ->
         dict_get uuid_eqb i (instructor_by_id instrs) = Some instr ->
         In p mps ->
         get2 (sec_id s, mp_id p) sp_vars = Some x ->
         In pref (time_preferences instr) ->
         spec_pattern_matches p pref ->
         penalty_value_of base (preference_level pref) <> 0 ->
         penalty_term_in res s i p x (get2 (sec_id s, i) si_vars)
                         (penalty_value_of base (preference_level pref)))
  /\ (forall t, In t (snd res) ->
                penalty_origin base sects (instructor_by_id instrs) mps sp_vars t).
Proof.
  intros base res. split; [reflexivity|]. split.
  { unfold penalty_value_of. repeat split; lia. }
  split; [apply pattern_matches_preference_iff|]. split.
  - intros s i instr p x pref Hs Hi Hinstr Hp Hx Hpref Hm Hw.
    apply pattern_matches_preference_iff in Hm.
    now apply preference_penalties_complete with (instr := instr).
  - intros t. apply preference_penalties_sound.
Qed.

Lemma preference_penalty_terms_witness :
  let st := _create_variables preference_input init_solver in
  penalty_term_in
    (add_instructor_preference_penalties (model st) (sections preference_input)
       (instructors preference_input) (meeting_patterns preference_input)
       (section_pattern_vars st) (section_instructor_vars st)
       (constraint_weights preference_input))
    (with_preferred (section 20%N 25) [100%N]) 100%N mon_9
    {| index := 0; var_name := sp 20%N 1%N; lb := 0; ub := 1 |}
    (Some {| index := 7; var_name := si 20%N 100%N; lb := 0; ub := 1 |})
    14.
Proof.
  intros st.
  destruct (preference_penalty_terms (model st) (sections preference_input)
              (instructors preference_input) (meeting_patterns preference_input)
              (section_pattern_vars st) (section_instructor_vars st)
              (constraint_weights preference_input)) as [_ [_ [_ [H _]]]].
  apply (H (with_preferred (section 20%N 25) [100%N]) 100%N picky_instructor mon_9
           {| index := 0; var_name := sp 20%N 1%N; lb := 0; ub := 1 |}
           discouraged_mornings).
  - left. reflexivity.
  - left. reflexivity.
  - reflexivity.
  - left. reflexivity.
  - reflexivity.
  - left. reflexivity.
  - apply pattern_matches_preference_iff. reflexivity.
  - vm_compute. discriminate.
Defined.

(* ===================================================================== *)
(** ** Further properties of the generators                               *)
(* ===================================================================== *)

(** *** Overlap of patterns *)

Lemma patterns_overlap_iff p1 p2 :
  _patterns_overlap p1 p2 = true <-> times_collide p1 p2.
Proof.
  unfold _patterns_overlap, times_collide. rewrite existsb_exists. split.
  - intros [t1 [H1 H]]. apply existsb_exists in H. destruct H as [t2 [H2 H]].
    apply andb_true_iff in H. destruct H as [H Hb].
    apply andb_true_iff in H. destruct H as [Hd Ha].
    apply Z.eqb_eq in Hd. exists t1, t2. auto.
  - intros [t1 [t2 [H1 [H2 [Hd [Ha Hb]]]]]]. exists t1. split; [assumption|].
    apply existsb_exists. exists t2. split; [assumption|].
    rewrite Ha, Hb. apply Z.eqb_eq in Hd. now rewrite Hd.
Qed.

Lemma patterns_overlap_sym p1 p2 : _patterns_overlap p1 p2 = _patterns_overlap p2 p1.
Proof.
  assert (H : forall a b, _patterns_overlap a b = true -> _patterns_overlap b a = true).
  { intros a b Hab. apply patterns_overlap_iff in Hab. apply patterns_overlap_iff.
    destruct Hab as [t1 [t2 [H1 [H2 [Hd [Ha Hb]]]]]].
    exists t2, t1. repeat split; auto. }
  destruct (_patterns_overlap p1 p2) eqn:E12, (_patterns_overlap p2 p1) eqn:E21;
    try reflexivity.
  - apply H in E12. congruence.
  - apply H in E21. congruence.
Qed.

(** X1. [_patterns_overlap] is symmetric, and it holds exactly when a time of
    the first pattern and a time of the second are on the same day with each
    starting before the other ends. *)
Theorem patterns_overlap_symmetric (p1 p2 : MeetingPattern) :
  _patterns_overlap p1 p2 = _patterns_overlap p2 p1
  /\ (_patterns_overlap p1 p2 = true <-> times_collide p1 p2).
Proof. split; [apply patterns_overlap_sym | apply patterns_overlap_iff]. Qed.

(** *** Exactly one pattern and one room *)

Lemma exactly_one_chosen sol d sid ids vs :
  vs = lookup_all d (map (fun i => (sid, i)) ids) ->
  (forall v, In v vs -> 0 <= Value sol v <= 1) ->
  sum_values sol vs = 1 ->
  exists c v,
    first_chosen sol d sid ids = Some c
    /\ In c ids /\ get2 (sid, c) d = Some v /\ Value sol v = 1
    /\ forall i w, In i ids -> get2 (sid, i) d = Some w -> i <> c -> Value sol w = 0.
Proof.
  intros -> Hb Hs.
  destruct (sum_values_some_one sol _ Hb) as [v0 [Hv0 H1]]; [lia|].
  apply lookup_all_In in Hv0. destruct Hv0 as [k [Hk Hg]].
  apply in_map_iff in Hk. destruct Hk as [i0 [<- Hi0]].
  destruct (first_chosen_exists sol d sid ids i0 Hi0 Hg H1) as [c Hc].
  pose proof (first_chosen_Some _ _ _ _ Hc) as [Hcin [v [Hcg Hcone]]].
  exists c, v. repeat split; try assumption.
  intros i w Hi Hw Hne.
  assert (Hwb : 0 <= Value sol w <= 1).
  { apply Hb. apply lookup_all_In. exists (sid, i). split; [|assumption].
    apply in_map_iff. eauto. }
  destruct (Z.eq_dec (Value sol w) 1) as [E|E]; [exfalso|lia].
  assert (2 <= sum_values sol (lookup_all d (map (fun j => (sid, j)) ids))); [|lia].
  apply sum_lookup_two with (a := i) (b := c) (va := w) (vb := v); try assumption.
  intros u Hu. apply Hb in Hu. lia.
Qed.

(** X2. Under a feasible solution of a built model, a section of the input
    that has a variable for some pattern of the input is given a pattern: its
    variable is 1 and the variables of the section's other patterns are 0.  The
    same holds for rooms, and a section with both is extracted as assigned. *)
Theorem section_gets_one_pattern_and_room (inp : SolverInput) (st : CPSATSolver)
    (pens : list LinearExpr) (sol : Solution) (s : Section) :
  build_model inp = Ok (st, pens) -> feasible (model st) sol -> In s (sections inp) ->
  ((exists pid x, In pid (map mp_id (meeting_patterns inp))
                  /\ get2 (sec_id s, pid) (section_pattern_vars st) = Some x) ->
   exists cp x,
     chosen_pattern inp st sol s = Some cp
     /\ get2 (sec_id s, cp) (section_pattern_vars st) = Some x /\ Value sol x = 1
     /\ forall pid w, In pid (map mp_id (meeting_patterns inp)) ->
                      get2 (sec_id s, pid) (section_pattern_vars st) = Some w ->
                      pid <> cp -> Value sol w = 0)
  /\ ((exists rid y, In rid (map room_id (rooms inp))
                     /\ get2 (sec_id s, rid) (section_room_vars st) = Some y) ->
      exists cr y,
        chosen_room inp st sol s = Some cr
        /\ get2 (sec_id s, cr) (section_room_vars st) = Some y /\ Value sol y = 1
        /\ forall rid w, In rid (map room_id (rooms inp)) ->
                         get2 (sec_id s, rid) (section_room_vars st) = Some w ->
                         rid <> cr -> Value sol w = 0)
  /\ ((exists pid x, In pid (map mp_id (meeting_patterns inp))
                     /\ get2 (sec_id s, pid) (section_pattern_vars st) = Some x) ->
      (exists rid y, In rid (map room_id (rooms inp))
                     /\ get2 (sec_id s, rid) (section_room_vars st) = Some y) ->
      is_assigned (extract_section inp st sol s) = true).
Proof.
  intros Hb Hf Hs.
  destruct (build_model_contents _ Hb) as [Hp [Hr [_ [_ Hc]]]].
  assert (HP : (exists pid x, In pid (map mp_id (meeting_patterns inp))
                  /\ get2 (sec_id s, pid) (section_pattern_vars st) = Some x) ->
               exists cp x,
                 chosen_pattern inp st sol s = Some cp
                 /\ get2 (sec_id s, cp) (section_pattern_vars st) = Some x /\ Value sol x = 1
                 /\ forall pid w, In pid (map mp_id (meeting_patterns inp)) ->
                                  get2 (sec_id s, pid) (section_pattern_vars st) = Some w ->
                                  pid <> cp -> Value sol w = 0).
  { intros [pid [x [Hin Hx]]].
    set (vs := lookup_all (section_pattern_vars st)
                 (map (fun i => (sec_id s, i)) (map mp_id (meeting_patterns inp)))).
    assert (Hne : vs <> []).
    { intros E0. assert (Hv : In x vs); [|rewrite E0 in Hv; contradiction].
      apply lookup_all_In. exists (sec_id s, pid). split; [|assumption].
      apply in_map_iff. eauto. }
    assert (Hex : In (ExactlyOne vs) (constraints (model st))).
    { apply Hc. left. apply in_flat_map. exists s. split; [assumption|].
      unfold vs in *. rewrite Hp in *. now apply exactly_one_pattern_In. }
    pose proof Hf as [_ Hh]. specialize (Hh _ Hex). cbn [holds] in Hh.
    destruct (exactly_one_chosen sol (section_pattern_vars st) (sec_id s)
                (map mp_id (meeting_patterns inp)) eq_refl) as [c [v [H1 [H2 [H3 [H4 H5]]]]]].
    - intros w Hw. apply lookup_all_In in Hw. destruct Hw as [k [_ Hk]].
      eapply pattern_values_boolean; eauto.
    - exact Hh.
    - exists c, v. repeat split; assumption. }
  assert (HR : (exists rid y, In rid (map room_id (rooms inp))
                  /\ get2 (sec_id s, rid) (section_room_vars st) = Some y) ->
               exists cr y,
                 chosen_room inp st sol s = Some cr
                 /\ get2 (sec_id s, cr) (section_room_vars st) = Some y /\ Value sol y = 1
                 /\ forall rid w, In rid (map room_id (rooms inp)) ->
                                  get2 (sec_id s, rid) (section_room_vars st) = Some w ->
                                  rid <> cr -> Value sol w = 0).
  { intros [rid [y [Hin Hy]]].
    set (vs := lookup_all (section_room_vars st)
                 (map (fun i => (sec_id s, i)) (map room_id (rooms inp)))).
    assert (Hne : vs <> []).
    { intros E0. assert (Hv : In y vs); [|rewrite E0 in Hv; contradiction].
      apply lookup_all_In. exists (sec_id s, rid). split; [|assumption].
      apply in_map_iff. eauto. }
    assert (Hex : In (ExactlyOne vs) (constraints (model st))).
    { apply Hc. left. apply in_flat_map. exists s. split; [assumption|].
      unfold vs in *. rewrite Hr in *. now apply exactly_one_room_In. }
    pose proof Hf as [_ Hh]. specialize (Hh _ Hex). cbn [holds] in Hh.
    destruct (exactly_one_chosen sol (section_room_vars st) (sec_id s)
                (map room_id (rooms inp)) eq_refl) as [c [v [H1 [H2 [H3 [H4 H5]]]]]].
    - intros w Hw. apply lookup_all_In in Hw. destruct Hw as [k [_ Hk]].
      eapply room_values_boolean; eauto.
    - exact Hh.
    - exists c, v. repeat split; assumption. }
  split; [exact HP|]. split; [exact HR|].
  intros H1 H2. destruct (HP H1) as [cp [x [Hcp _]]]. destruct (HR H2) as [cr [y [Hcr _]]].
  unfold chosen_pattern in Hcp. unfold chosen_room in Hcr.
  unfold extract_section in *. simpl in *. now rewrite Hcp, Hcr.
Qed.

Lemma section_gets_one_pattern_and_room_witness :
  exists st pens,
    build_model two_sections_input = Ok (st, pens)
    /\ feasible (model st) two_sections_solution
    /\ is_assigned (extract_section two_sections_input st two_sections_solution
                      (with_assigned (section 21%N 40) [101%N])) = true.
Proof.
  destruct (build_model two_sections_input) as [[st pens]|e] eqn:Hb;
    [|vm_compute in Hb; discriminate].
  exists st, pens. split; [reflexivity|].
  assert (Hf : feasible (model st) two_sections_solution).
  { apply feasibleb_sound. vm_compute in Hb. injection Hb as <- _. vm_compute. reflexivity. }
  split; [exact Hf|].
  destruct (@section_gets_one_pattern_and_room two_sections_input st pens
              two_sections_solution (with_assigned (section 21%N 40) [101%N]) Hb Hf)
    as [_ [_ H]].
  - right. left. reflexivity.
  - apply H.
    + exists 1%N. vm_compute in Hb. injection Hb as <- _. eexists. split.
      * left. reflexivity.
      * vm_compute. reflexivity.
    + exists 10%N. vm_compute in Hb. injection Hb as <- _. eexists. split.
      * left. reflexivity.
      * vm_compute. reflexivity.
Defined.

(** *** Room features *)

Lemma course_features_get inp : forall cid feats,
  dict_get uuid_eqb cid (course_features inp) = Some feats ->
  exists c, In c (courses inp) /\ course_ident c = cid
            /\ feats = set_of (course_required_room_features c).
Proof.
  unfold course_features.
  apply fold_left_inv with
    (P := fun d => forall cid feats,
              dict_get uuid_eqb cid d = Some feats ->
              exists c, In c (courses inp) /\ course_ident c = cid
                        /\ feats = set_of (course_required_room_features c)).
  - intros cid feats H. discriminate.
  - intros d c Hc IH cid feats H.
    destruct (N.eq_dec (course_ident c) cid) as [E|E].
    + subst cid. rewrite (dict_get_set_same uuid_eqb uuid_eqb_eq) in H.
      injection H as <-. exists c. auto.
    + rewrite (dict_get_set_other uuid_eqb uuid_eqb_eq) in H by assumption. now apply IH.
Qed.

Lemma course_features_known inp cid :
  In cid (map course_ident (courses inp)) ->
  exists feats, dict_get uuid_eqb cid (course_features inp) = Some feats.
Proof.
  unfold course_features. intros Hin.
  assert (G : forall l d,
             (In cid (map course_ident l) \/ exists f, dict_get uuid_eqb cid d = Some f) ->
             exists feats,
               dict_get uuid_eqb cid
                 (fold_left
                    (fun d c => dict_set uuid_eqb (course_ident c)
                                  (set_of (course_required_room_features c)) d) l d)
               = Some feats).
  { induction l as [|c r IH]; simpl; intros d H.
    - destruct H as [[]|H]. exact H.
    - apply IH. destruct (N.eq_dec (course_ident c) cid) as [E|E].
      + right. subst cid. rewrite (dict_get_set_same uuid_eqb uuid_eqb_eq). eauto.
      + destruct H as [[H|H]|H]; [contradiction | now left |].
        right. now rewrite (dict_get_set_other uuid_eqb uuid_eqb_eq). }
  apply G. now left.
Qed.

Lemma room_feature_constraints_In sects rms crs sr_vars s r v f :
  In s sects -> In r rms ->
  get2 (sec_id s, room_id r) sr_vars = Some v ->
  In f (required_features crs s) -> ~ In f (room_feature_ids r) ->
  In (LinEq (lvar v) (lconst 0)) (room_feature_constraints sects rms crs sr_vars).
Proof.
  intros Hs Hr Hv Hf Hn. unfold room_feature_constraints.
  apply in_flat_map. exists s. split; [assumption|].
  destruct (required_features crs s) as [|q qs] eqn:Eq; [contradiction|].
  apply in_flat_map. exists r. split; [assumption|]. rewrite Hv.
  assert (Hd : In f (set_diff (q :: qs) (map rf_id (features r)))).
  { unfold set_diff. apply filter_In. split; [assumption|].
    apply negb_true_iff. destruct (mem f (map rf_id (features r))) eqn:Em; [|reflexivity].
    apply mem_In in Em. contradiction. }
  destruct (set_diff (q :: qs) (map rf_id (features r))); [contradiction | now left].
Qed.

(** X3. Under a feasible solution of a built model, every room of the input
    that carries the id of the room chosen for a section offers every feature
    the section requires and every feature that the course table
    ([course_features]) requires for the section's course; the table holds,
    for a course id of the input, the features of a course of that id. *)
Theorem features_respected (inp : SolverInput) (st : CPSATSolver)
    (pens : list LinearExpr) (sol : Solution) (s : Section) (rid : UUID) :
  build_model inp = Ok (st, pens) -> feasible (model st) sol -> In s (sections inp) ->
  chosen_room inp st sol s = Some rid ->
  (exists r, In r (rooms inp) /\ room_id r = rid)
  /\ (forall r f,
         In r (rooms inp) -> room_id r = rid ->
         (In f (required_room_features s)
          \/ exists feats,
               dict_get uuid_eqb (course_id s) (course_features inp) = Some feats
               /\ In f feats) ->
         In f (room_feature_ids r))
  /\ (In (course_id s) (map course_ident (courses inp)) ->
      exists c, In c (courses inp) /\ course_ident c = course_id s
                /\ dict_get uuid_eqb (course_id s) (course_features inp)
                   = Some (set_of (course_required_room_features c))).
Proof.
  intros Hb Hf Hs Hch.
  destruct (build_model_contents _ Hb) as [_ [Hr [_ [_ Hc]]]].
  pose proof Hch as Hch'. unfold chosen_room, extract_section in Hch'. simpl in Hch'.
  apply first_chosen_Some in Hch'. destruct Hch' as [Hin [v [Hg Hone]]].
  split; [|split].
  - apply in_map_iff in Hin. destruct Hin as [r [E Hrin]]. eauto.
  - intros r f Hrin <- Hreq.
    destruct (in_dec N.eq_dec f (room_feature_ids r)) as [Hy|Hn]; [assumption|exfalso].
    assert (Hrf : In f (required_features (course_features inp) s)).
    { unfold required_features, set_union. apply set_of_In. apply in_or_app.
      destruct Hreq as [H|[feats [E H]]]; [now left|]. right. now rewrite E. }
    assert (Hz : In (LinEq (lvar v) (lconst 0)) (constraints (model st))).
    { apply Hc. right. right. left. rewrite <- Hr.
      now apply room_feature_constraints_In with (s := s) (r := r) (f := f). }
    destruct Hf as [_ Hh]. specialize (Hh _ Hz). cbn [holds] in Hh.
    rewrite eval_lvar, eval_lconst in Hh. lia.
  - intros Hk. destruct (course_features_known inp _ Hk) as [feats E].
    destruct (course_features_get inp _ E) as [c [H1 [H2 H3]]].
    exists c. repeat split; try assumption. now rewrite E, H3.
Qed.

Lemma features_respected_witness :
  exists st pens,
    build_model feature_input = Ok (st, pens)
    /\ feasible (model st) feature_solution
    /\ chosen_room feature_input st feature_solution (section 20%N 25) = Some 12%N
    /\ In 60%N (room_feature_ids projector_room).
Proof.
  destruct (build_model feature_input) as [[st pens]|e] eqn:Hb;
    [|vm_compute in Hb; discriminate].
  exists st, pens. split; [reflexivity|].
  assert (Hf : feasible (model st) feature_solution).
  { apply feasibleb_sound. vm_compute in Hb. injection Hb as <- _. vm_compute. reflexivity. }
  assert (Hc : chosen_room feature_input st feature_solution (section 20%N 25) = Some 12%N).
  { vm_compute in Hb. injection Hb as <- _. vm_compute. reflexivity. }
  split; [exact Hf|]. split; [exact Hc|].
  destruct (@features_respected feature_input st pens feature_solution (section 20%N 25)
              12%N Hb Hf (or_introl eq_refl) Hc) as [_ [H _]].
  apply (H projector_room 60%N).
  - right. left. reflexivity.
  - reflexivity.
  - right. eexists. split; [vm_compute; reflexivity | left; reflexivity].
Defined.

(** *** The other connectors of linked sections *)

Lemma days_intersect_iff p c : days_intersect p c = true <-> share_a_day p c.
Proof.
  unfold days_intersect, share_a_day, _get_pattern_days. rewrite existsb_exists. split.
  - intros [d [Hd H]]. apply existsb_exists in H. destruct H as [d' [Hd' E]].
    apply Z.eqb_eq in E. subst d'.
    apply in_map_iff in Hd. destruct Hd as [pt [E1 Hpt]].
    apply in_map_iff in Hd'. destruct Hd' as [ct [E2 Hct]].
    exists pt, ct. repeat split; try assumption. congruence.
  - intros [pt [ct [Hpt [Hct E]]]]. exists (day_of_week pt). split; [now apply in_map|].
    apply existsb_exists. exists (day_of_week ct). split; [now apply in_map|].
    now apply Z.eqb_eq.
Qed.

Lemma linked_constraints_of_connector inp parent child spv connector c :
  link_pair inp parent child ->
  In c (match connector with
        | immediately_after =>
            _add_immediately_after_constraint parent child (meeting_patterns inp) spv
        | same_day => _add_same_day_constraint parent child (meeting_patterns inp) spv
        | different_day =>
            _add_different_day_constraint parent child (meeting_patterns inp) spv
        | other_connector => []
        end) ->
  In c (linked_section_constraints (sections inp) (meeting_patterns inp) spv connector).
Proof.
  intros [kv [children [Hkv [Hlen [Hpc Hch]]]]] Hc.
  unfold linked_section_constraints. apply in_flat_map. exists kv. split; [assumption|].
  destruct (snd kv) as [|a [|b rest]] eqn:Ek; simpl in Hlen; try lia.
  rewrite Hpc. apply in_flat_map. exists child. auto.
Qed.

(** The coupling that the shared loop of the three connectors gives: when the
    constraints of the loop are in the model and the parent's pattern has a
    compatible child candidate, the child's pattern is compatible. *)
Lemma link_coupling (compat : MeetingPattern -> MeetingPattern -> bool) (forbid : bool)
    (inp : SolverInput) (st : CPSATSolver) (pens : list LinearExpr) (sol : Solution)
    (parent child : Section) (ppid cpid : UUID) (pp : MeetingPattern) :
  build_model inp = Ok (st, pens) -> feasible (model st) sol ->
  In child (sections inp) ->
  (forall c, In c (link_constraints_of compat forbid parent child (meeting_patterns inp)
                     (section_pattern_vars st)) ->
             In c (constraints (model st))) ->
  chosen_pattern inp st sol parent = Some ppid ->
  chosen_pattern inp st sol child = Some cpid ->
  dict_get uuid_eqb ppid (pattern_by_id (meeting_patterns inp)) = Some pp ->
  compatible_child_pids compat (pattern_by_id (meeting_patterns inp)) pp
    (keys_of_section (section_pattern_vars st) (sec_id child)) <> [] ->
  exists cp,
    dict_get uuid_eqb cpid (pattern_by_id (meeting_patterns inp)) = Some cp
    /\ In cp (meeting_patterns inp) /\ mp_id cp = cpid
    /\ compat pp cp = true.
Proof.
  intros Hb Hf Hcs Hc Hpc Hcc Hpp Hne.
  pose proof Hpc as Hpc'. unfold chosen_pattern, extract_section in Hpc'. simpl in Hpc'.
  apply first_chosen_Some in Hpc'. destruct Hpc' as [Hpin [pv [Hpg Hpone]]].
  destruct (link_constraints_In compat forbid parent child (meeting_patterns inp)
              (section_pattern_vars st) ppid Hpp Hpg) as [_ H1].
  specialize (H1 Hne). apply Hc in H1.
  pose proof Hf as [_ Hh]. specialize (Hh _ H1). cbn [holds] in Hh.
  rewrite eval_lsum_vars, eval_lvar in Hh.
  destruct (sum_values_some_one sol
              (lookup_all (section_pattern_vars st)
                 (map (fun cpid0 => (sec_id child, cpid0))
                    (compatible_child_pids compat (pattern_by_id (meeting_patterns inp)) pp
                       (keys_of_section (section_pattern_vars st) (sec_id child))))))
    as [cv [Hcv Hcone]].
  - intros w Hw. apply lookup_all_In in Hw. destruct Hw as [k [_ Hk]].
    eapply pattern_values_boolean; eauto.
  - lia.
  - apply lookup_all_In in Hcv. destruct Hcv as [k [Hk Hkg]].
    apply in_map_iff in Hk. destruct Hk as [c1 [<- Hc1]].
    apply compatible_child_pids_In in Hc1.
    destruct Hc1 as [cv' [cp [Hcv' [Hcp Hcompat]]]].
    destruct (pattern_by_id_get _ _ Hcp) as [Hcpin Hcpid].
    assert (E : c1 = cpid).
    { apply chosen_pattern_unique with (inp := inp) (st := st) (pens := pens)
        (sol := sol) (s := child) (v := cv); try assumption.
      rewrite <- Hcpid. now apply in_map. }
    rewrite <- E. exists cp. repeat split; assumption.
Qed.

Lemma link_constraints_never_forbid compat parent child mps spv c :
  In c (link_constraints_of compat false parent child mps spv) ->
  exists a b, c = LinGe a b.
Proof.
  unfold link_constraints_of. intros Hin.
  apply in_flat_map in Hin. destruct Hin as [q [_ Hq]].
  destruct (dict_get uuid_eqb q (pattern_by_id mps)); [|contradiction].
  destruct (get2 (sec_id parent, q) spv); [|contradiction].
  destruct (compatible_child_pids _ _ _ _); [contradiction|].
  destruct (lookup_all _ _); [contradiction|].
  destruct Hq as [<-|[]]. eauto.
Qed.

(** X4. With the connector [same_day], for the parent and a child of a link
    group: a parent pattern that has a child candidate sharing a day with it
    gets the constraint [sum of those child variables >= x_parent], and under
    a feasible solution the child's pattern then shares a day with the
    parent's pattern.  The connector adds constraints of this one form only:
    it never forbids a parent pattern that has no such candidate. *)
Theorem same_day_coupling (inp : SolverInput) (st : CPSATSolver)
    (pens : list LinearExpr) (parent child : Section) :
  build_model inp = Ok (st, pens) ->
  link_connector_type inp = Some same_day ->
  link_pair inp parent child ->
  let by_id := pattern_by_id (meeting_patterns inp) in
  let spv := section_pattern_vars st in
  (forall ppid pp pv,
      dict_get uuid_eqb ppid by_id = Some pp ->
      get2 (sec_id parent, ppid) spv = Some pv ->
      let C := compatible_child_pids days_intersect by_id pp
                 (keys_of_section spv (sec_id child)) in
      (forall cpid,
          In cpid C <-> exists cv cp,
            get2 (sec_id child, cpid) spv = Some cv
            /\ dict_get uuid_eqb cpid by_id = Some cp
            /\ share_a_day pp cp)
      /\ (C <> [] ->
          In (LinGe (lsum_vars (lookup_all spv (map (fun cpid => (sec_id child, cpid)) C)))
                    (lvar pv))
             (constraints (model st))))
  /\ (forall c, In c (_add_same_day_constraint parent child (meeting_patterns inp) spv) ->
                exists a b, c = LinGe a b)
  /\ (forall sol ppid cpid pp,
         feasible (model st) sol ->
         chosen_pattern inp st sol parent = Some ppid ->
         chosen_pattern inp st sol child = Some cpid ->
         dict_get uuid_eqb ppid by_id = Some pp ->
         compatible_child_pids days_intersect by_id pp
           (keys_of_section spv (sec_id child)) <> [] ->
         exists cp,
           dict_get uuid_eqb cpid by_id = Some cp
           /\ In cp (meeting_patterns inp) /\ mp_id cp = cpid
           /\ share_a_day pp cp).
Proof.
  intros Hb Hconn Hlink by_id spv.
  destruct (build_model_contents _ Hb) as [Hp [_ [_ [_ Hc]]]].
  rewrite Hconn in Hc. rewrite <- Hp in Hc.
  assert (Hsub : forall c,
             In c (link_constraints_of days_intersect false parent child
                     (meeting_patterns inp) spv) ->
             In c (constraints (model st))).
  { intros c Hin. apply Hc. do 4 right.
    now apply linked_constraints_of_connector with (parent := parent) (child := child). }
  split; [|split].
  - intros ppid pp pv Hpp Hpv C. split.
    + intros cpid. unfold C. rewrite compatible_child_pids_In.
      split; intros [cv [cp [H1 [H2 H3]]]]; exists cv, cp; repeat split; try assumption;
        now apply days_intersect_iff.
    + intros HC. apply Hsub.
      now apply (link_constraints_In days_intersect false parent child
                   (meeting_patterns inp) spv ppid Hpp Hpv).
  - intros c Hin. now apply link_constraints_never_forbid in Hin.
  - intros sol ppid cpid pp Hf Hpc Hcc Hpp Hne.
    destruct (link_pair_sections Hlink) as [_ Hcs].
    destruct (@link_coupling days_intersect false inp st pens sol parent child ppid cpid pp
                Hb Hf Hcs Hsub Hpc Hcc Hpp Hne) as [cp [H1 [H2 [H3 H4]]]].
    exists cp. repeat split; try assumption. now apply days_intersect_iff.
Qed.

Lemma same_day_coupling_witness :
  exists st pens,
    build_model (with_connector linked_input same_day) = Ok (st, pens)
    /\ feasible (model st) linked_solution
    /\ exists cp, mp_id cp = 5%N /\ share_a_day mon_9 cp.
Proof.
  destruct (build_model (with_connector linked_input same_day)) as [[st pens]|e] eqn:Hb;
    [|vm_compute in Hb; discriminate].
  exists st, pens. split; [reflexivity|].
  assert (Hl : link_pair (with_connector linked_input same_day) lecture lab).
  { exists (80%N, [lecture; lab]), [lab]. repeat split.
    - left. reflexivity.
    - simpl. lia.
    - now left. }
  assert (Hf : feasible (model st) linked_solution).
  { apply feasibleb_sound. vm_compute in Hb. injection Hb as <- _. vm_compute. reflexivity. }
  split; [exact Hf|].
  destruct (@same_day_coupling (with_connector linked_input same_day) st pens lecture lab
              Hb eq_refl Hl) as [_ [_ H]].
  destruct (H linked_solution 1%N 5%N mon_9 Hf) as [cp [_ [_ [A B]]]].
  - vm_compute in Hb. injection Hb as <- _. vm_compute. reflexivity.
  - vm_compute in Hb. injection Hb as <- _. vm_compute. reflexivity.
  - reflexivity.
  - vm_compute in Hb. injection Hb as <- _. vm_compute. discriminate.
  - exists cp. auto.
Defined.

(** X5. With the connector [different_day], for the parent and a child of a
    link group: a parent pattern that has a child candidate sharing no day
    with it gets the constraint [sum of those child variables >= x_parent],
    and under a feasible solution the child's pattern then shares no day with
    the parent's pattern.  The connector never forbids a parent pattern. *)
Theorem different_day_coupling (inp : SolverInput) (st : CPSATSolver)
    (pens : list LinearExpr) (parent child : Section) :
  build_model inp = Ok (st, pens) ->
  link_connector_type inp = Some different_day ->
  link_pair inp parent child ->
  let by_id := pattern_by_id (meeting_patterns inp) in
  let spv := section_pattern_vars st in
  let apart := fun p c => negb (days_intersect p c) in
  (forall ppid pp pv,
      dict_get uuid_eqb ppid by_id = Some pp ->
      get2 (sec_id parent, ppid) spv = Some pv ->
      let C := compatible_child_pids apart by_id pp (keys_of_section spv (sec_id child)) in
      (forall cpid,
          In cpid C <-> exists cv cp,
            get2 (sec_id child, cpid) spv = Some cv
            /\ dict_get uuid_eqb cpid by_id = Some cp
            /\ ~ share_a_day pp cp)
      /\ (C <> [] ->
          In (LinGe (lsum_vars (lookup_all spv (map (fun cpid => (sec_id child, cpid)) C)))
                    (lvar pv))
             (constraints (model st))))
  /\ (forall c,
         In c (_add_different_day_constraint parent child (meeting_patterns inp) spv) ->
         exists a b, c = LinGe a b)
  /\ (forall sol ppid cpid pp,
         feasible (model st) sol ->
         chosen_pattern inp st sol parent = Some ppid ->
         chosen_pattern inp st sol child = Some cpid ->
         dict_get uuid_eqb ppid by_id = Some pp ->
         compatible_child_pids apart by_id pp (keys_of_section spv (sec_id child)) <> [] ->
         exists cp,
           dict_get uuid_eqb cpid by_id = Some cp
           /\ In cp (meeting_patterns inp) /\ mp_id cp = cpid
           /\ ~ share_a_day pp cp).
Proof.
  intros Hb Hconn Hlink by_id spv apart.
  assert (Hapart : forall p c, apart p c = true <-> ~ share_a_day p c).
  { intros p c. unfold apart. rewrite negb_true_iff, <- days_intersect_iff.
    destruct (days_intersect p c); split; congruence. }
  destruct (build_model_contents _ Hb) as [Hp [_ [_ [_ Hc]]]].
  rewrite Hconn in Hc. rewrite <- Hp in Hc.
  assert (Hsub : forall c,
             In c (link_constraints_of apart false parent child
                     (meeting_patterns inp) spv) ->
             In c (constraints (model st))).
  { intros c Hin. apply Hc. do 4 right.
    now apply linked_constraints_of_connector with (parent := parent) (child := child). }
  split; [|split].
  - intros ppid pp pv Hpp Hpv C. split.
    + intros cpid. unfold C. rewrite compatible_child_pids_In.
      split; intros [cv [cp [H1 [H2 H3]]]]; exists cv, cp; repeat split; try assumption;
        now apply Hapart.
    + intros HC. apply Hsub.
      now apply (link_constraints_In apart false parent child
                   (meeting_patterns inp) spv ppid Hpp Hpv).
  - intros c Hin. now apply link_constraints_never_forbid in Hin.
  - intros sol ppid cpid pp Hf Hpc Hcc Hpp Hne.
    destruct (link_pair_sections Hlink) as [_ Hcs].
    destruct (@link_coupling apart false inp st pens sol parent child ppid cpid pp
                Hb Hf Hcs Hsub Hpc Hcc Hpp Hne) as [cp [H1 [H2 [H3 H4]]]].
    exists cp. repeat split; try assumption. now apply Hapart.
Qed.

Lemma different_day_coupling_witness :
  exists st pens,
    build_model (with_connector linked_input different_day) = Ok (st, pens)
    /\ feasible (model st) other_day_solution
    /\ exists cp, mp_id cp = 3%N /\ ~ share_a_day mon_9 cp.
Proof.
  destruct (build_model (with_connector linked_input different_day))
    as [[st pens]|e] eqn:Hb; [|vm_compute in Hb; discriminate].
  exists st, pens. split; [reflexivity|].
  assert (Hl : link_pair (with_connector linked_input different_day) lecture lab).
  { exists (80%N, [lecture; lab]), [lab]. repeat split.
    - left. reflexivity.
    - simpl. lia.
    - now left. }
  assert (Hf : feasible (model st) other_day_solution).
  { apply feasibleb_sound. vm_compute in Hb. injection Hb as <- _. vm_compute. reflexivity. }
  split; [exact Hf|].
  destruct (@different_day_coupling (with_connector linked_input different_day) st pens
              lecture lab Hb eq_refl Hl) as [_ [_ H]].
  destruct (H other_day_solution 1%N 3%N mon_9 Hf) as [cp [_ [_ [A B]]]].
  - vm_compute in Hb. injection Hb as <- _. vm_compute. reflexivity.
  - vm_compute in Hb. injection Hb as <- _. vm_compute. reflexivity.
  - reflexivity.
  - vm_compute in Hb. injection Hb as <- _. vm_compute. discriminate.
  - exists cp. auto.
Defined.

(** *** Fixed values *)

Lemma classic_candidate_pattern inp s pid :
  candidate_pattern inp s pid \/ ~ candidate_pattern inp s pid.
Proof.
  unfold candidate_pattern.
  destruct (allowed_meeting_pattern_ids s) as [[|x r]|];
    match goal with
    | |- In ?a ?l \/ _ => destruct (in_dec N.eq_dec a l); auto
    end.
Qed.

Lemma classic_candidate_room inp s rid :
  candidate_room inp s rid \/ ~ candidate_room inp s rid.
Proof.
  unfold candidate_room.
  destruct (allowed_room_ids s) as [[|x r]|];
    match goal with
    | |- In ?a ?l \/ _ => destruct (in_dec N.eq_dec a l); auto
    end.
Qed.

Lemma created_pattern_var inp st pens s pid v :
  build_model inp = Ok (st, pens) ->
  NoDup (map sec_id (sections inp)) -> In s (sections inp) ->
  get2 (sec_id s, pid) (section_pattern_vars st) = Some v ->
  candidate_pattern inp s pid /\ pattern_var_shape s pid v /\ In v (variables (model st)).
Proof.
  intros Hb Hnd Hs Hg.
  destruct (build_model_contents _ Hb) as [Hp [_ [_ [Hv _]]]].
  rewrite Hp in Hg.
  assert (Hin : In v (variables (model st))).
  { apply Hv. destruct (boolean_tables_create_variables inp) as [Hbt _].
    apply (dict_get_In key2_eqb key2_eqb_eq) in Hg. now destruct (Hbt _ _ Hg). }
  destruct (create_variables_pattern_table inp (sections inp) init_solver s Hnd Hs
              (fun _ => eq_refl) pid) as [H1 H2].
  destruct (classic_candidate_pattern inp s pid) as [Hc|Hc].
  - destruct (H1 Hc) as [v' [Hg' Hshape]]. unfold created, _create_variables in Hg.
    rewrite Hg in Hg'. injection Hg' as <-. auto.
  - specialize (H2 Hc). unfold created, _create_variables in Hg. congruence.
Qed.

Lemma created_room_var inp st pens s rid v :
  build_model inp = Ok (st, pens) ->
  NoDup (map sec_id (sections inp)) -> In s (sections inp) ->
  get2 (sec_id s, rid) (section_room_vars st) = Some v ->
  candidate_room inp s rid /\ room_var_shape s rid v /\ In v (variables (model st)).
Proof.
  intros Hb Hnd Hs Hg.
  destruct (build_model_contents _ Hb) as [_ [Hr [_ [Hv _]]]].
  rewrite Hr in Hg.
  assert (Hin : In v (variables (model st))).
  { apply Hv. destruct (boolean_tables_create_variables inp) as [_ Hbt].
    apply (dict_get_In key2_eqb key2_eqb_eq) in Hg. now destruct (Hbt _ _ Hg). }
  destruct (create_variables_room_table inp (sections inp) init_solver s Hnd Hs
              (fun _ => eq_refl) rid) as [H1 H2].
  destruct (classic_candidate_room inp s rid) as [Hc|Hc].
  - destruct (H1 Hc) as [v' [Hg' Hshape]]. unfold created, _create_variables in Hg.
    rewrite Hg in Hg'. injection Hg' as <-. auto.
  - specialize (H2 Hc). unfold created, _create_variables in Hg. congruence.
Qed.

(** X6. In an input whose section ids are distinct, under a feasible solution
    of the built model, a section with a fixed pattern is given that pattern
    whenever it is given one, and likewise for a fixed room; the date pattern
    reported for a section is its fixed date pattern when there is one, the
    first date pattern of the input otherwise, and none when the input has no
    date pattern. *)
Theorem fixed_values_respected (inp : SolverInput) (st : CPSATSolver)
    (pens : list LinearExpr) (sol : Solution) (s : Section) :
  build_model inp = Ok (st, pens) -> feasible (model st) sol ->
  NoDup (map sec_id (sections inp)) -> In s (sections inp) ->
  (forall f cp, fixed_meeting_pattern_id s = Some f ->
                chosen_pattern inp st sol s = Some cp -> cp = f)
  /\ (forall f cr, fixed_room_id s = Some f ->
                   chosen_room inp st sol s = Some cr -> cr = f)
  /\ a_date_pattern_id (extract_section inp st sol s)
     = match fixed_date_pattern_id s with
       | Some d => Some d
       | None => option_map dp_id (hd_error (date_patterns inp))
       end.
Proof.
  intros Hb Hf Hnd Hs. split; [|split].
  - intros f cp Hfix Hch.
    unfold chosen_pattern, extract_section in Hch. simpl in Hch.
    apply first_chosen_Some in Hch. destruct Hch as [_ [v [Hg Hone]]].
    destruct (@created_pattern_var inp st pens s cp v Hb Hnd Hs Hg) as [_ [Hshape Hin]].
    unfold pattern_var_shape in Hshape. rewrite Hfix in Hshape.
    destruct Hshape as [_ [Hl Hu]].
    destruct Hf as [Hdom _]. specialize (Hdom v Hin). unfold in_domain in Hdom.
    destruct (uuid_eqb cp f) eqn:E; [now apply uuid_eqb_eq in E | lia].
  - intros f cr Hfix Hch.
    unfold chosen_room, extract_section in Hch. simpl in Hch.
    apply first_chosen_Some in Hch. destruct Hch as [_ [v [Hg Hone]]].
    destruct (@created_room_var inp st pens s cr v Hb Hnd Hs Hg) as [_ [Hshape Hin]].
    unfold room_var_shape in Hshape. rewrite Hfix in Hshape.
    destruct Hshape as [_ [Hl Hu]].
    destruct Hf as [Hdom _]. specialize (Hdom v Hin). unfold in_domain in Hdom.
    destruct (uuid_eqb cr f) eqn:E; [now apply uuid_eqb_eq in E | lia].
  - unfold extract_section. simpl.
    destruct (fixed_date_pattern_id s); [reflexivity|].
    now destruct (date_patterns inp).
Qed.

Lemma fixed_values_respected_witness :
  exists st pens,
    build_model fixed_input = Ok (st, pens)
    /\ feasible (model st) fixed_solution
    /\ chosen_pattern fixed_input st fixed_solution
         (with_fixed_pattern (section 20%N 25) 3%N) = Some 3%N.
Proof.
  destruct (build_model fixed_input) as [[st pens]|e] eqn:Hb;
    [|vm_compute in Hb; discriminate].
  exists st, pens. split; [reflexivity|].
  assert (Hf : feasible (model st) fixed_solution).
  { apply feasibleb_sound. vm_compute in Hb. injection Hb as <- _. vm_compute. reflexivity. }
  split; [exact Hf|].
  assert (Hnd : NoDup (map sec_id (sections fixed_input))).
  { simpl. constructor; [simpl; tauto | constructor]. }
  destruct (@fixed_values_respected fixed_input st pens fixed_solution
              (with_fixed_pattern (section 20%N 25) 3%N) Hb Hf Hnd (or_introl eq_refl))
    as [H _].
  destruct (chosen_pattern fixed_input st fixed_solution
              (with_fixed_pattern (section 20%N 25) 3%N)) as [cp|] eqn:E.
  - f_equal. now apply (H 3%N cp).
  - vm_compute in Hb. injection Hb as <- _. vm_compute in E. discriminate E.
Defined.

(* ===================================================================== *)
(** ** The instructor and room-pattern tables                             *)
(* ===================================================================== *)

Lemma fold_unchanged {B : Type} {T : Type} (proj : CPSATSolver -> T)
    (f : CPSATSolver -> B -> CPSATSolver) (l : list B) st :
  (forall a x, proj (f a x) = proj a) -> proj (fold_left f l st) = proj st.
Proof.
  intros H. apply fold_left_inv with (P := fun x => proj x = proj st); [reflexivity|].
  intros a x _ Ha. now rewrite H.
Qed.

Lemma create_instructor_var_get s st iid :
  exists v,
    section_instructor_vars (create_instructor_var s st iid)
    = dict_set key2_eqb (sec_id s, iid) v (section_instructor_vars st)
    /\ lb v = 0 /\ ub v = 1 /\ var_name v = si (sec_id s) iid
    /\ variables (model (create_instructor_var s st iid)) = variables (model st) ++ [v].
Proof. unfold create_instructor_var. simpl. eexists. repeat split. Qed.

Lemma fold_instructor_other s iids : forall st k,
  fst k <> sec_id s \/ ~ In (snd k) iids ->
  get2 k (section_instructor_vars (fold_left (create_instructor_var s) iids st))
  = get2 k (section_instructor_vars st).
Proof.
  induction iids as [|p r IH]; simpl; intros st k Hk; [reflexivity|].
  rewrite IH by tauto.
  destruct (create_instructor_var_get s st p) as [v [-> _]].
  apply get2_set_other. destruct k as [a b]; simpl in *. intros [= <- <-]. tauto.
Qed.

Lemma fold_instructor_in s iids : forall st iid,
  In iid iids ->
  exists v,
    get2 (sec_id s, iid) (section_instructor_vars (fold_left (create_instructor_var s) iids st))
    = Some v.
Proof.
  induction iids as [|p r IH]; simpl; intros st iid Hin; [contradiction|].
  destruct (in_dec N.eq_dec iid r) as [Hr|Hr]; [now apply IH|].
  destruct Hin as [->|Hin]; [|contradiction].
  rewrite fold_instructor_other by (simpl; tauto).
  destruct (create_instructor_var_get s st iid) as [v [-> _]].
  exists v. apply get2_set_same.
Qed.

Lemma before_instructors_unchanged inp st s :
  section_instructor_vars
    (fold_left
       (fun st0 pattern_id =>
          fold_left (create_room_pattern_var s pattern_id) (allowed_rooms inp s) st0)
       (allowed_patterns inp s)
       (fold_left (create_room_var s) (allowed_rooms inp s)
          (fold_left (create_pattern_var s) (allowed_patterns inp s) st)))
  = section_instructor_vars st.
Proof.
  rewrite (fold_unchanged section_instructor_vars).
  - rewrite (fold_unchanged section_instructor_vars).
    + apply (fold_unchanged section_instructor_vars).
      intros a x. unfold create_pattern_var.
      now destruct (fixed_meeting_pattern_id s).
    + intros a x. unfold create_room_var. now destruct (fixed_room_id s).
  - intros a x. apply (fold_unchanged section_instructor_vars).
    intros b y. reflexivity.
Qed.

Lemma create_section_instructor_other inp st s k :
  fst k <> sec_id s \/ ~ In (snd k) (potential_instructors s) ->
  get2 k (section_instructor_vars (create_section_variables inp st s))
  = get2 k (section_instructor_vars st).
Proof.
  intros Hk. unfold create_section_variables.
  rewrite fold_instructor_other by assumption.
  now rewrite before_instructors_unchanged.
Qed.

Lemma create_section_instructor_in inp st s iid :
  In iid (potential_instructors s) ->
  exists v, get2 (sec_id s, iid)
              (section_instructor_vars (create_section_variables inp st s)) = Some v.
Proof. intros H. unfold create_section_variables. now apply fold_instructor_in. Qed.

Lemma create_variables_instructor_other inp l : forall st sid iid,
  ~ In sid (map sec_id l) ->
  get2 (sid, iid) (section_instructor_vars (fold_left (create_section_variables inp) l st))
  = get2 (sid, iid) (section_instructor_vars st).
Proof.
  induction l as [|a r IH]; simpl; intros st sid iid Hn; [reflexivity|].
  rewrite IH by tauto.
  apply create_section_instructor_other. simpl. left. intros E. apply Hn. now left.
Qed.

Lemma create_variables_instructor_table inp l : forall st s,
  NoDup (map sec_id l) -> In s l ->
  (forall iid, get2 (sec_id s, iid) (section_instructor_vars st) = None) ->
  forall iid,
    (In iid (potential_instructors s) ->
     exists v,
       get2 (sec_id s, iid)
            (section_instructor_vars (fold_left (create_section_variables inp) l st))
       = Some v)
    /\ (~ In iid (potential_instructors s) ->
        get2 (sec_id s, iid)
             (section_instructor_vars (fold_left (create_section_variables inp) l st))
        = None).
Proof.
  induction l as [|a r IH]; simpl; intros st s Hnd Hin Hst iid; [contradiction|].
  inversion Hnd as [|x y Hna Hnr]; subst.
  destruct Hin as [->|Hin].
  - rewrite create_variables_instructor_other by assumption.
    split; intros Hc.
    + now apply create_section_instructor_in.
    + rewrite create_section_instructor_other; [apply Hst|]. simpl. now right.
  - apply IH; try assumption.
    intros q. rewrite create_section_instructor_other; [apply Hst|].
    simpl. left. intros E. apply Hna. rewrite <- E. now apply in_map.
Qed.

Lemma potential_instructors_In s i :
  In i (potential_instructors s)
  <-> In i (preferred_instructor_ids s) /\ ~ In i (assigned_instructor_ids s).
Proof.
  unfold potential_instructors, set_diff. rewrite filter_In, set_of_In, negb_true_iff.
  split; intros [A B]; split; try assumption.
  - intros H. apply (proj2 (set_of_In _ _)) in H. apply (proj2 (mem_In _ _)) in H.
    congruence.
  - destruct (mem i (set_of (assigned_instructor_ids s))) eqn:E; [|reflexivity].
    apply (proj1 (mem_In _ _)) in E. apply (proj1 (set_of_In _ _)) in E. contradiction.
Qed.

(** *** All four tables hold Boolean variables of the model *)

Lemma dict_set_In3 k v (d : dict Key3 IntVar) kv :
  In kv (dict_set key3_eqb k v d) -> kv = (k, v) \/ In kv d.
Proof. apply (dict_set_In key3_eqb key3_eqb_eq). Qed.

Lemma boolean_table3_extends d m m' :
  boolean_table3 d m -> extends m m' -> boolean_table3 d m'.
Proof.
  intros H [Hv _] k v Hin. destruct (H k v Hin) as [A B]. split; auto.
Qed.

Lemma boolean_other_tables_create_section inp st s :
  boolean_table (section_instructor_vars st) (model st)
  /\ boolean_table3 (section_room_pattern_vars st) (model st) ->
  boolean_table (section_instructor_vars (create_section_variables inp st s))
                (model (create_section_variables inp st s))
  /\ boolean_table3 (section_room_pattern_vars (create_section_variables inp st s))
                    (model (create_section_variables inp st s)).
Proof.
  intros H0. unfold create_section_variables.
  set (P := fun x => boolean_table (section_instructor_vars x) (model x)
                     /\ boolean_table3 (section_room_pattern_vars x) (model x)).
  change (P (fold_left (create_instructor_var s) (potential_instructors s)
               (fold_left
                  (fun st0 pattern_id =>
                     fold_left (create_room_pattern_var s pattern_id) (allowed_rooms inp s) st0)
                  (allowed_patterns inp s)
                  (fold_left (create_room_var s) (allowed_rooms inp s)
                     (fold_left (create_pattern_var s) (allowed_patterns inp s) st))))).
  apply fold_left_inv.
  - apply fold_left_inv.
    + apply fold_left_inv.
      * apply fold_left_inv; [exact H0|].
        intros a pid _ [Hi H3]. unfold P.
        assert (E1 : section_instructor_vars (create_pattern_var s a pid)
                     = section_instructor_vars a)
          by (unfold create_pattern_var; now destruct (fixed_meeting_pattern_id s)).
        assert (E2 : section_room_pattern_vars (create_pattern_var s a pid)
                     = section_room_pattern_vars a)
          by (unfold create_pattern_var; now destruct (fixed_meeting_pattern_id s)).
        rewrite E1, E2. split.
        -- eapply boolean_table_extends; [exact Hi | apply extends_create_pattern_var].
        -- eapply boolean_table3_extends; [exact H3 | apply extends_create_pattern_var].
      * intros a rid _ [Hi H3]. unfold P.
        assert (E1 : section_instructor_vars (create_room_var s a rid)
                     = section_instructor_vars a)
          by (unfold create_room_var; now destruct (fixed_room_id s)).
        assert (E2 : section_room_pattern_vars (create_room_var s a rid)
                     = section_room_pattern_vars a)
          by (unfold create_room_var; now destruct (fixed_room_id s)).
        rewrite E1, E2. split.
        -- eapply boolean_table_extends; [exact Hi | apply extends_create_room_var].
        -- eapply boolean_table3_extends; [exact H3 | apply extends_create_room_var].
    + intros a pid _ Ha. apply fold_left_inv; [exact Ha|].
      intros b rid _ [Hi H3]. unfold P. split.
      * eapply boolean_table_extends; [exact Hi | apply extends_create_room_pattern_var].
      * intros k w Hin.
        pose proof (extends_create_room_pattern_var s pid b rid) as [Hext _].
        unfold create_room_pattern_var in *. cbn [NewBoolVar new_var] in *.
        cbn [section_room_pattern_vars] in Hin.
        apply dict_set_In3 in Hin. destruct Hin as [[= -> ->]|Hin].
        -- split; [|simpl; lia].
           destruct (get2 _ (section_pattern_vars b));
             [destruct (get2 _ (section_room_vars b))|];
             simpl; apply in_or_app; right; now left.
        -- destruct (H3 k w Hin) as [A B]. split; [|assumption]. now apply Hext.
  - intros a iid _ [Hi H3]. unfold P. split.
    + destruct (create_instructor_var_get s a iid) as [v [-> [Hl [Hu [_ Hv]]]]].
      intros k w Hin. rewrite Hv. apply dict_set_In2 in Hin.
      destruct Hin as [[= -> ->]|Hin].
      * split; [apply in_or_app; right; now left | lia].
      * destruct (Hi k w Hin) as [A B]. split; [apply in_or_app; now left | assumption].
    + eapply boolean_table3_extends; [exact H3 | apply extends_create_instructor_var].
Qed.

Lemma boolean_other_tables_create_variables inp :
  boolean_table (section_instructor_vars (created inp)) (model (created inp))
  /\ boolean_table3 (section_room_pattern_vars (created inp)) (model (created inp)).
Proof.
  unfold created, _create_variables.
  apply fold_left_inv with
    (P := fun x => boolean_table (section_instructor_vars x) (model x)
                   /\ boolean_table3 (section_room_pattern_vars x) (model x)).
  - split; intros k v [].
  - intros a s _ Ha. now apply boolean_other_tables_create_section.
Qed.

(* ===================================================================== *)
(** ** Instructors of an assignment                                       *)
(* ===================================================================== *)

Lemma instructor_values_boolean inp st pens sol k v :
  build_model inp = Ok (st, pens) -> feasible (model st) sol ->
  get2 k (section_instructor_vars st) = Some v -> 0 <= Value sol v <= 1.
Proof.
  intros Hb [Hdom _] Hg.
  destruct (build_model_contents _ Hb) as [_ [_ [Hi [Hv _]]]].
  rewrite Hi in Hg. apply (dict_get_In key2_eqb key2_eqb_eq) in Hg.
  destruct (boolean_other_tables_create_variables inp) as [Hbt _].
  destruct (Hbt k v Hg) as [Hin [Hl Hu]].
  specialize (Hdom v (Hv v Hin)). unfold in_domain in Hdom. lia.
Qed.

Lemma created_instructor_var inp st pens s i w :
  build_model inp = Ok (st, pens) ->
  NoDup (map sec_id (sections inp)) -> In s (sections inp) ->
  get2 (sec_id s, i) (section_instructor_vars st) = Some w ->
  In i (preferred_instructor_ids s) /\ ~ In i (assigned_instructor_ids s).
Proof.
  intros Hb Hnd Hs Hg.
  destruct (build_model_contents _ Hb) as [_ [_ [Hi _]]].
  rewrite Hi in Hg. unfold created, _create_variables in Hg.
  destruct (create_variables_instructor_table inp (sections inp) init_solver s Hnd Hs
              (fun _ => eq_refl) i) as [_ H2].
  apply potential_instructors_In.
  destruct (in_dec N.eq_dec i (potential_instructors s)) as [H|H]; [assumption|].
  rewrite (H2 H) in Hg. discriminate.
Qed.

Lemma chosen_instructors_In sol d sid instrs i :
  In i (chosen_instructors sol d sid instrs)
  <-> In i (map instr_id instrs) /\ exists w, get2 (sid, i) d = Some w /\ Value sol w = 1.
Proof.
  unfold chosen_instructors. rewrite in_flat_map. split.
  - intros [x [Hx H]]. destruct (get2 (sid, instr_id x) d) as [w|] eqn:E; [|contradiction].
    destruct (Value sol w =? 1) eqn:Ew; [|contradiction].
    destruct H as [<-|[]]. split; [now apply in_map|].
    exists w. split; [assumption | now apply Z.eqb_eq].
  - intros [Hin [w [Hg Hone]]]. apply in_map_iff in Hin. destruct Hin as [x [<- Hx]].
    exists x. split; [assumption|]. rewrite Hg.
    apply Z.eqb_eq in Hone. rewrite Hone. now left.
Qed.

Lemma at_most_one_instructor_In inp st s :
  assigned_instructor_ids s = [] ->
  lookup_all (section_instructor_vars st)
             (map (fun i => (sec_id s, i)) (preferred_instructor_ids s)) <> [] ->
  In (AtMostOne (lookup_all (section_instructor_vars st)
                   (map (fun i => (sec_id s, i)) (preferred_instructor_ids s))))
     (assignment_constraints_of inp st s).
Proof.
  intros Ha Hne. unfold assignment_constraints_of. rewrite Ha.
  destruct (lookup_all (section_instructor_vars st)
              (map (fun i => (sec_id s, i)) (preferred_instructor_ids s)));
    [contradiction|].
  apply in_or_app. right. apply in_or_app. right. now left.
Qed.

(** X7. In an input whose section ids are distinct, under a feasible solution
    of the built model: the instructors reported for a section are its
    pre-assigned instructors followed by instructors of the input that are
    preferred for the section, not pre-assigned, and whose variable is 1; and
    a section without pre-assigned instructor is given at most one
    instructor id. *)
Theorem assignment_instructors (inp : SolverInput) (st : CPSATSolver)
    (pens : list LinearExpr) (sol : Solution) (s : Section) :
  build_model inp = Ok (st, pens) -> feasible (model st) sol ->
  NoDup (map sec_id (sections inp)) -> In s (sections inp) ->
  (forall i,
      In i (a_instructor_ids (extract_section inp st sol s))
      <-> In i (assigned_instructor_ids s)
          \/ (In i (map instr_id (instructors inp))
              /\ In i (preferred_instructor_ids s)
              /\ ~ In i (assigned_instructor_ids s)
              /\ exists w, get2 (sec_id s, i) (section_instructor_vars st) = Some w
                           /\ Value sol w = 1))
  /\ (assigned_instructor_ids s = [] ->
      forall i j,
        In i (a_instructor_ids (extract_section inp st sol s)) ->
        In j (a_instructor_ids (extract_section inp st sol s)) ->
        i = j).
Proof.
  intros Hb Hf Hnd Hs.
  assert (Hiff : forall i,
             In i (a_instructor_ids (extract_section inp st sol s))
             <-> In i (assigned_instructor_ids s)
                 \/ (In i (map instr_id (instructors inp))
                     /\ In i (preferred_instructor_ids s)
                     /\ ~ In i (assigned_instructor_ids s)
                     /\ exists w, get2 (sec_id s, i) (section_instructor_vars st) = Some w
                                  /\ Value sol w = 1)).
  { intros i. unfold extract_section. cbn [a_instructor_ids].
    rewrite in_app_iff, chosen_instructors_In. split.
    - intros [H|[H [w [Hg Hone]]]]; [now left|]. right.
      destruct (@created_instructor_var inp st pens s i w Hb Hnd Hs Hg) as [A B].
      repeat split; eauto.
    - intros [H|[H1 [_ [_ H2]]]]; [now left | now right]. }
  split; [exact Hiff|].
  intros Ha i j Hi Hj.
  apply Hiff in Hi. apply Hiff in Hj. rewrite Ha in Hi, Hj.
  destruct Hi as [[]|[_ [Hip [_ [wi [Hgi Hi1]]]]]].
  destruct Hj as [[]|[_ [Hjp [_ [wj [Hgj Hj1]]]]]].
  destruct (N.eq_dec i j) as [E|E]; [assumption|exfalso].
  set (vs := lookup_all (section_instructor_vars st)
               (map (fun k => (sec_id s, k)) (preferred_instructor_ids s))).
  assert (Hnn : forall w, In w vs -> 0 <= Value sol w).
  { intros w Hw. apply lookup_all_In in Hw. destruct Hw as [k [_ Hk]].
    assert (0 <= Value sol w <= 1) by (eapply instructor_values_boolean; eauto). lia. }
  assert (H2 : 2 <= sum_values sol vs)
    by (apply sum_lookup_two with (a := i) (b := j) (va := wi) (vb := wj); assumption).
  assert (Hne : vs <> []).
  { intros E0. assert (Hv : In wi vs); [|rewrite E0 in Hv; contradiction].
    apply lookup_all_In. exists (sec_id s, i). split; [|assumption].
    apply in_map_iff. eauto. }
  destruct (build_model_contents _ Hb) as [_ [_ [Hit [_ Hc]]]].
  assert (Hex : In (AtMostOne vs) (constraints (model st))).
  { apply Hc. left. apply in_flat_map. exists s. split; [assumption|].
    unfold vs in *. rewrite Hit in *. now apply at_most_one_instructor_In. }
  destruct Hf as [_ Hh]. specialize (Hh _ Hex). cbn [holds] in Hh. lia.
Qed.

Lemma assignment_instructors_witness :
  exists st pens,
    build_model choice_input = Ok (st, pens)
    /\ feasible (model st) choice_solution
    /\ a_instructor_ids (extract_section choice_input st choice_solution
                           (with_preferred (section 20%N 25) [100%N; 101%N]))
       = [101%N]
    /\ forall i,
         In i (a_instructor_ids (extract_section choice_input st choice_solution
                                   (with_preferred (section 20%N 25) [100%N; 101%N]))) ->
         i = 101%N.
Proof.
  destruct (build_model choice_input) as [[st pens]|e] eqn:Hb;
    [|vm_compute in Hb; discriminate].
  exists st, pens. split; [reflexivity|].
  assert (Hf : feasible (model st) choice_solution).
  { apply feasibleb_sound. vm_compute in Hb. injection Hb as <- _. vm_compute. reflexivity. }
  assert (He : a_instructor_ids (extract_section choice_input st choice_solution
                                   (with_preferred (section 20%N 25) [100%N; 101%N]))
               = [101%N]).
  { vm_compute in Hb. injection Hb as <- _. vm_compute. reflexivity. }
  split; [exact Hf|]. split; [exact He|].
  assert (Hnd : NoDup (map sec_id (sections choice_input))).
  { simpl. constructor; [simpl; tauto | constructor]. }
  destruct (@assignment_instructors choice_input st pens choice_solution
              (with_preferred (section 20%N 25) [100%N; 101%N]) Hb Hf Hnd
              (or_introl eq_refl)) as [_ H].
  intros i Hi. apply (H eq_refl i 101%N Hi). rewrite He. now left.
Defined.

(* ===================================================================== *)
(** ** The overlap table and the conflict generators                      *)
(* ===================================================================== *)

Lemma overlaps_of_dd_add k x d p q :
  In q (overlaps_of (dd_add k x d) p) <-> In q (overlaps_of d p) \/ (p = k /\ q = x).
Proof.
  unfold overlaps_of, dd_add.
  destruct (dict_get uuid_eqb k d) as [s|] eqn:Ek.
  - destruct (N.eq_dec k p) as [E|E].
    + subst p. rewrite (dict_get_set_same uuid_eqb uuid_eqb_eq), Ek.
      destruct (mem x s) eqn:Em.
      * apply mem_In in Em. split; [tauto|]. intros [H|[_ ->]]; assumption.
      * rewrite in_app_iff. simpl. split; [intros [H|[H|[]]]; auto|].
        intros [H|[_ ->]]; auto.
    + rewrite (dict_get_set_other uuid_eqb uuid_eqb_eq) by assumption.
      split; [tauto|]. intros [H|[H _]]; [assumption|]. congruence.
  - destruct (N.eq_dec k p) as [E|E].
    + subst p. rewrite (dict_get_set_same uuid_eqb uuid_eqb_eq), Ek. simpl.
      split; [intros [H|[]]; auto|]. intros [[]|[_ ->]]. now left.
    + rewrite (dict_get_set_other uuid_eqb uuid_eqb_eq) by assumption.
      split; [tauto|]. intros [H|[H _]]; [assumption|]. congruence.
Qed.

Lemma overlapping_inner_spec p1 l : forall d p q,
  In q (overlaps_of
          (fold_left
             (fun d p2 =>
                if negb (uuid_eqb (mp_id p1) (mp_id p2)) && _patterns_overlap p1 p2
                then dd_add (mp_id p1) (mp_id p2) d
                else d)
             l d) p)
  <-> In q (overlaps_of d p)
      \/ (p = mp_id p1
          /\ exists p2, In p2 l /\ mp_id p2 = q /\ mp_id p1 <> q
                        /\ _patterns_overlap p1 p2 = true).
Proof.
  induction l as [|x r IH]; simpl; intros d p q.
  - split; [tauto|]. intros [H|[_ [p2 [[] _]]]]. assumption.
  - rewrite IH.
    destruct (negb (uuid_eqb (mp_id p1) (mp_id x)) && _patterns_overlap p1 x) eqn:E.
    + apply andb_true_iff in E. destruct E as [E1 E2].
      apply negb_true_iff, uuid_eqb_neq in E1.
      rewrite overlaps_of_dd_add. split.
      * intros [[H|[-> ->]]|[-> [p2 [H2 H3]]]]; auto.
        -- right. split; [reflexivity|]. exists x. auto.
        -- right. split; [reflexivity|]. exists p2. auto.
      * intros [H|[-> [p2 [[->|H2] [H3 [H4 H5]]]]]]; auto.
        right. split; [reflexivity|]. exists p2. auto.
    + split.
      * intros [H|[-> [p2 [H2 H3]]]]; auto.
        right. split; [reflexivity|]. exists p2. auto.
      * intros [H|[-> [p2 [[->|H2] [H3 [H4 H5]]]]]]; auto.
        -- exfalso. rewrite H5, andb_true_r in E.
           apply negb_false_iff, uuid_eqb_eq in E. congruence.
        -- right. split; [reflexivity|]. exists p2. auto.
Qed.

Lemma overlapping_outer_spec mps l : forall d p q,
  In q (overlaps_of
          (fold_left
             (fun d p1 =>
                fold_left
                  (fun d p2 =>
                     if negb (uuid_eqb (mp_id p1) (mp_id p2)) && _patterns_overlap p1 p2
                     then dd_add (mp_id p1) (mp_id p2) d
                     else d)
                  mps d)
             l d) p)
  <-> In q (overlaps_of d p)
      \/ exists p1 p2, In p1 l /\ In p2 mps /\ mp_id p1 = p /\ mp_id p2 = q /\ p <> q
                       /\ _patterns_overlap p1 p2 = true.
Proof.
  induction l as [|x r IH]; simpl; intros d p q.
  - split; [tauto|]. intros [H|[p1 [p2 [[] _]]]]. assumption.
  - rewrite IH, overlapping_inner_spec. split.
    + intros [[H|[-> [p2 [H1 [H2 [H3 H4]]]]]]|[p1 [p2 [H1 H2]]]]; auto.
      * right. exists x, p2. repeat split; auto.
      * right. exists p1, p2. tauto.
    + intros [H|[p1 [p2 [[->|H1] [H2 [H3 [H4 [H5 H6]]]]]]]]; auto.
      * left. right. split; [auto|]. exists p2. subst. auto.
      * right. exists p1, p2. repeat split; auto.
Qed.

Lemma overlapping_patterns_iff mps a b :
  In b (overlaps_of (overlapping_patterns mps) a)
  <-> exists p1 p2, In p1 mps /\ In p2 mps /\ mp_id p1 = a /\ mp_id p2 = b
                    /\ a <> b /\ _patterns_overlap p1 p2 = true.
Proof.
  unfold overlapping_patterns. rewrite overlapping_outer_spec.
  split; [intros [[]|H]; exact H | auto].
Qed.

(** X8. The overlap table that both conflict generators build relates a
    pattern id to another exactly when two patterns of the input carry these
    ids, the ids differ and the patterns overlap; the relation is symmetric
    and never relates an id to itself. *)
Theorem overlapping_patterns_spec (mps : list MeetingPattern) (p q : UUID) :
  (In q (overlaps_of (overlapping_patterns mps) p)
   <-> exists p1 p2, In p1 mps /\ In p2 mps /\ mp_id p1 = p /\ mp_id p2 = q /\ p <> q
                     /\ _patterns_overlap p1 p2 = true)
  /\ (In q (overlaps_of (overlapping_patterns mps) p)
      -> In p (overlaps_of (overlapping_patterns mps) q))
  /\ ~ In p (overlaps_of (overlapping_patterns mps) p).
Proof.
  split; [apply overlapping_patterns_iff|]. split.
  - intros Hq. apply overlapping_patterns_iff in Hq. apply overlapping_patterns_iff.
    destruct Hq as [p1 [p2 [H1 [H2 [H3 [H4 [H5 H6]]]]]]].
    exists p2, p1. repeat split; auto.
    rewrite patterns_overlap_sym. assumption.
  - intros Hp. apply overlapping_patterns_iff in Hp.
    destruct Hp as [p1 [p2 [_ [_ [_ [_ [Hne _]]]]]]]. now apply Hne.
Qed.

Lemma build_model_conflicts inp st pens :
  build_model inp = Ok (st, pens) ->
  (exists ic,
      instructor_conflict_constraints (sections inp) (meeting_patterns inp)
        (section_pattern_vars (created inp)) (section_instructor_vars (created inp)) = Ok ic
      /\ incl ic (constraints (model st)))
  /\ incl (flat_map
             (room_conflict_constraints_of (sections inp) (meeting_patterns inp)
                (section_room_pattern_vars (created inp)))
             (rooms inp))
          (constraints (model st))
  /\ section_room_pattern_vars st = section_room_pattern_vars (created inp)
  /\ incl (constraints (model (created inp))) (constraints (model st)).
Proof.
  unfold build_model, _add_hard_constraints, add_instructor_conflict_constraints.
  fold (created inp).
  destruct (instructor_conflict_constraints _ _ _ _) as [ic|e] eqn:Ei; simpl; [|discriminate].
  intros [= E].
  match type of E with
  | _add_soft_constraints inp ?x = _ =>
      destruct (soft_constraints_grow inp x) as [[Hv Hc] _];
      assert (Hs : section_room_pattern_vars (fst (_add_soft_constraints inp x))
                   = section_room_pattern_vars x)
  end.
  { unfold _add_soft_constraints.
    destruct (add_instructor_preference_penalties _ _ _ _ _ _ _) as [m1 p1].
    destruct (add_instructor_workload_penalties _ _ _ _ _) as [m2 p2]. reflexivity. }
  rewrite E in *. simpl in *.
  split; [exists ic; split; [reflexivity|]|split; [|split]].
  - intros c Hin. apply Hc. rewrite !in_app_iff. tauto.
  - intros c Hin. apply Hc. rewrite !in_app_iff. tauto.
  - exact Hs.
  - intros c Hin. apply Hc. rewrite !in_app_iff. tauto.
Qed.

Lemma in_split_two {A : Type} (l : list A) (a b : A) :
  In a l -> In b l -> a <> b ->
  (exists l1 l2 l3, l = l1 ++ a :: l2 ++ b :: l3)
  \/ (exists l1 l2 l3, l = l1 ++ b :: l2 ++ a :: l3).
Proof.
  intros Ha Hb Hne. apply in_split in Ha. destruct Ha as [l1 [l2 ->]].
  apply in_app_or in Hb. destruct Hb as [Hb|[Hb|Hb]].
  - right. apply in_split in Hb. destruct Hb as [m1 [m2 ->]].
    exists m1, m2, l2. now rewrite <- app_assoc.
  - contradiction.
  - left. apply in_split in Hb. destruct Hb as [m1 [m2 ->]]. exists l1, m1, m2. reflexivity.
Qed.

(** *** What the instructor-conflict generator does *)







(* ===================================================================== *)
(** ** Room conflicts                                                     *)
(* ===================================================================== *)

(** *** The product variables *)

Lemma fold_left_hit_inv {A B : Type} (f : A -> B -> A) (I Q : A -> Prop)
    (l : list B) (x : B) :
  In x l ->
  (forall a y, I a -> I (f a y)) ->
  (forall a y, I a -> Q a -> Q (f a y)) ->
  (forall a, I a -> Q (f a x)) ->
  forall a, I a -> Q (fold_left f l a).
Proof.
  intros Hin HI HQ Hx. induction l as [|y r IH]; [contradiction|].
  intros a Ha. simpl. destruct Hin as [->|Hin]; [|apply IH; auto].
  assert (G : forall l' b, I b -> Q b -> Q (fold_left f l' b)).
  { induction l' as [|z l' IH']; simpl; intros b Hb Hq; [assumption|].
    apply IH'; auto. }
  apply G; auto.
Qed.

Lemma get3_set_same k v d : get3 k (dict_set key3_eqb k v d) = Some v.
Proof. apply dict_get_set_same, key3_eqb_eq. Qed.

Lemma get3_set_other k k' v d : k <> k' -> get3 k' (dict_set key3_eqb k v d) = get3 k' d.
Proof. apply dict_get_set_other, key3_eqb_eq. Qed.

Lemma product_var_ok_step s pid st rid sid r p x y :
  get2 (sid, p) (section_pattern_vars st) = Some x ->
  get2 (sid, r) (section_room_vars st) = Some y ->
  product_var_ok st sid r p x y ->
  product_var_ok (create_room_pattern_var s pid st rid) sid r p x y.
Proof.
  intros Hx Hy [z [Hz Hc]]. unfold product_var_ok, create_room_pattern_var.
  cbn [NewBoolVar new_var section_room_pattern_vars model].
  destruct (key3_eqb (sec_id s, rid, pid) (sid, r, p)) eqn:E.
  - apply key3_eqb_eq in E. injection E as -> -> ->.
    rewrite get3_set_same. eexists. split; [reflexivity|].
    rewrite Hx, Hy. cbn [Add constraints variables]. apply in_or_app. right. now left.
  - assert (Hne : (sec_id s, rid, pid) <> (sid, r, p)).
    { intros E'. apply key3_eqb_eq in E'. congruence. }
    rewrite get3_set_other by assumption. exists z. split; [assumption|].
    clear Hx Hy.
    destruct (get2 (sec_id s, pid) (section_pattern_vars st));
      [destruct (get2 (sec_id s, rid) (section_room_vars st))|];
      cbn [Add constraints variables]; auto.
    apply in_or_app. now left.
Qed.

Lemma product_var_ok_hit s pid st rid x y :
  get2 (sec_id s, pid) (section_pattern_vars st) = Some x ->
  get2 (sec_id s, rid) (section_room_vars st) = Some y ->
  product_var_ok (create_room_pattern_var s pid st rid) (sec_id s) rid pid x y.
Proof.
  intros Hx Hy. unfold product_var_ok, create_room_pattern_var.
  cbn [NewBoolVar new_var section_room_pattern_vars model].
  rewrite get3_set_same. eexists. split; [reflexivity|].
  rewrite Hx, Hy. cbn [Add constraints variables]. apply in_or_app. right. now left.
Qed.

Lemma product_loop s pids rids st pid rid x y :
  In pid pids -> In rid rids ->
  get2 (sec_id s, pid) (section_pattern_vars st) = Some x ->
  get2 (sec_id s, rid) (section_room_vars st) = Some y ->
  product_var_ok
    (fold_left
       (fun st0 pattern_id => fold_left (create_room_pattern_var s pattern_id) rids st0)
       pids st)
    (sec_id s) rid pid x y.
Proof.
  intros Hp Hr Hx Hy.
  set (I := fun a : CPSATSolver =>
              get2 (sec_id s, pid) (section_pattern_vars a) = Some x
              /\ get2 (sec_id s, rid) (section_room_vars a) = Some y).
  assert (Hstep : forall q a y0, I a -> I (create_room_pattern_var s q a y0)).
  { intros q a y0 Ha. exact Ha. }
  assert (Hinner : forall q l a, I a -> I (fold_left (create_room_pattern_var s q) l a)).
  { intros q l a Ha. apply fold_left_inv; [assumption|]. intros; now apply Hstep. }
  apply fold_left_hit_inv with (I := I) (x := pid); try assumption.
  - intros a q Ha. now apply Hinner.
  - intros a q Ha Hq.
    assert (G : forall l b, I b -> product_var_ok b (sec_id s) rid pid x y ->
                            product_var_ok (fold_left (create_room_pattern_var s q) l b)
                                           (sec_id s) rid pid x y).
    { induction l as [|z l IHl]; simpl; intros b Hb Hpb; [assumption|].
      apply IHl; [now apply Hstep|]. destruct Hb. now apply product_var_ok_step. }
    now apply G.
  - intros a Ha. apply fold_left_hit_inv with (I := I) (x := rid); try assumption.
    + intros b q Hb. now apply Hstep.
    + intros b q [Hb1 Hb2] Hq. now apply product_var_ok_step.
    + intros b [Hb1 Hb2]. now apply product_var_ok_hit.
  - split; assumption.
Qed.

Lemma product_var_ok_grows st st' sid r p x y :
  section_room_pattern_vars st' = section_room_pattern_vars st ->
  extends (model st) (model st') ->
  product_var_ok st sid r p x y -> product_var_ok st' sid r p x y.
Proof.
  intros E [_ Hc] [z [Hz Hin]]. exists z. rewrite E. split; [assumption | now apply Hc].
Qed.

Lemma create_section_product inp st s pid rid x y :
  (forall q, get2 (sec_id s, q) (section_pattern_vars st) = None) ->
  (forall q, get2 (sec_id s, q) (section_room_vars st) = None) ->
  get2 (sec_id s, pid) (section_pattern_vars (create_section_variables inp st s)) = Some x ->
  get2 (sec_id s, rid) (section_room_vars (create_section_variables inp st s)) = Some y ->
  product_var_ok (create_section_variables inp st s) (sec_id s) rid pid x y.
Proof.
  intros Hnp Hnr Hx Hy.
  rewrite create_section_pattern_vars in Hx. rewrite create_section_room_vars in Hy.
  assert (Hp : In pid (allowed_patterns inp s)).
  { destruct (in_dec N.eq_dec pid (allowed_patterns inp s)) as [H|H]; [assumption|].
    rewrite fold_pattern_other in Hx by (simpl; tauto). rewrite Hnp in Hx. discriminate. }
  assert (Hr : In rid (allowed_rooms inp s)).
  { destruct (in_dec N.eq_dec rid (allowed_rooms inp s)) as [H|H]; [assumption|].
    rewrite fold_room_other, fold_pattern_room_vars in Hy by (simpl; tauto).
    rewrite Hnr in Hy. discriminate. }
  unfold create_section_variables.
  eapply product_var_ok_grows;
    [| apply extends_fold, extends_create_instructor_var |].
  - apply (fold_unchanged section_room_pattern_vars). intros a i. reflexivity.
  - apply product_loop; try assumption.
    now rewrite fold_room_pattern_vars.
Qed.

Lemma create_section_product_other inp st a sid r p x y :
  sec_id a <> sid ->
  product_var_ok st sid r p x y ->
  product_var_ok (create_section_variables inp st a) sid r p x y.
Proof.
  intros Hne [z [Hz Hc]]. exists z. split.
  - unfold create_section_variables.
    rewrite (fold_unchanged section_room_pattern_vars)
      by (intros b i; reflexivity).
    assert (G : forall pids b,
               get3 (sid, r, p) (section_room_pattern_vars b) = Some z ->
               get3 (sid, r, p)
                    (section_room_pattern_vars
                       (fold_left
                          (fun st0 pattern_id =>
                             fold_left (create_room_pattern_var a pattern_id)
                                       (allowed_rooms inp a) st0)
                          pids b)) = Some z).
    { intros pids b Hb0.
      apply fold_left_inv with
        (P := fun c => get3 (sid, r, p) (section_room_pattern_vars c) = Some z);
        [assumption|].
      intros c q _ Hc0.
      apply fold_left_inv with
        (P := fun c => get3 (sid, r, p) (section_room_pattern_vars c) = Some z);
        [assumption|].
      intros d q' _ Hd. unfold create_room_pattern_var.
      cbn [NewBoolVar new_var section_room_pattern_vars].
      rewrite get3_set_other; [assumption|]. intros [= E _ _]. contradiction. }
    apply G.
    rewrite (fold_unchanged section_room_pattern_vars).
    + rewrite (fold_unchanged section_room_pattern_vars); [assumption|].
      intros b q. unfold create_pattern_var. now destruct (fixed_meeting_pattern_id a).
    + intros b q. unfold create_room_var. now destruct (fixed_room_id a).
  - now apply (extends_create_section_variables inp st a).
Qed.

Lemma create_variables_product inp l : forall st s pid rid x y,
  NoDup (map sec_id l) -> In s l ->
  (forall q, get2 (sec_id s, q) (section_pattern_vars st) = None) ->
  (forall q, get2 (sec_id s, q) (section_room_vars st) = None) ->
  get2 (sec_id s, pid)
       (section_pattern_vars (fold_left (create_section_variables inp) l st)) = Some x ->
  get2 (sec_id s, rid)
       (section_room_vars (fold_left (create_section_variables inp) l st)) = Some y ->
  product_var_ok (fold_left (create_section_variables inp) l st) (sec_id s) rid pid x y.
Proof.
  induction l as [|a r IH]; simpl; intros st s pid rid x y Hnd Hin Hnp Hnr Hx Hy;
    [contradiction|].
  inversion Hnd as [|u v Hna Hnr']; subst.
  destruct Hin as [->|Hin].
  - rewrite create_variables_pattern_other in Hx by assumption.
    rewrite create_variables_room_other in Hy by assumption.
    pose proof (create_section_product inp st s pid rid Hnp Hnr Hx Hy) as H0.
    clear - H0 Hna.
    revert H0. generalize (create_section_variables inp st s) as b.
    induction r as [|c r IHr]; simpl; intros b Hb; [assumption|].
    apply IHr; [simpl in Hna; tauto|].
    apply create_section_product_other; [|assumption].
    intros E. apply Hna. left. assumption.
  - apply IH; try assumption.
    + intros q. rewrite create_section_pattern_vars, fold_pattern_other; [apply Hnp|].
      simpl. left. intros E. apply Hna. rewrite <- E. now apply in_map.
    + intros q.
      rewrite create_section_room_vars, fold_room_other, fold_pattern_room_vars;
        [apply Hnr|].
      simpl. left. intros E. apply Hna. rewrite <- E. now apply in_map.
Qed.

(** *** The variables filed per pattern *)

Lemma vars_at_dd_append k x d pid :
  vars_at (dd_append k x d) pid = vars_at d pid ++ (if uuid_eqb k pid then [x] else []).
Proof.
  unfold vars_at, dd_append.
  destruct (uuid_eqb k pid) eqn:E.
  - apply uuid_eqb_eq in E. subst pid.
    destruct (dict_get uuid_eqb k d) as [l|];
      now rewrite (dict_get_set_same uuid_eqb uuid_eqb_eq).
  - assert (Hne : k <> pid) by (intros H; apply uuid_eqb_eq in H; congruence).
    destruct (dict_get uuid_eqb k d) as [l|];
      rewrite (dict_get_set_other uuid_eqb uuid_eqb_eq) by assumption;
      now rewrite app_nil_r.
Qed.

Lemma by_pattern_inner srp_vars rid pid s mps : forall d,
  vars_at
    (fold_left
       (fun d pattern =>
          match get3 (sec_id s, rid, mp_id pattern) srp_vars with
          | Some v => dd_append (mp_id pattern) v d
          | None => d
          end)
       mps d) pid
  = vars_at d pid ++ section_room_vars_at mps srp_vars rid pid s.
Proof.
  unfold section_room_vars_at.
  induction mps as [|p r IH]; intros d; cbn [fold_left flat_map].
  - now rewrite app_nil_r.
  - rewrite IH. destruct (get3 (sec_id s, rid, mp_id p) srp_vars) as [v|].
    + rewrite vars_at_dd_append, <- app_assoc. reflexivity.
    + destruct (uuid_eqb (mp_id p) pid); reflexivity.
Qed.

Lemma by_pattern_outer srp_vars rid pid mps sects : forall d,
  vars_at
    (fold_left
       (fun d section =>
          fold_left
            (fun d pattern =>
               match get3 (sec_id section, rid, mp_id pattern) srp_vars with
               | Some v => dd_append (mp_id pattern) v d
               | None => d
               end)
            mps d)
       sects d) pid
  = vars_at d pid ++ flat_map (section_room_vars_at mps srp_vars rid pid) sects.
Proof.
  induction sects as [|s r IH]; intros d; cbn [fold_left flat_map].
  - now rewrite app_nil_r.
  - rewrite IH, by_pattern_inner, <- app_assoc. reflexivity.
Qed.

Lemma room_section_by_pattern_at sects mps srp_vars rid pid :
  vars_at (room_section_by_pattern sects mps srp_vars rid) pid
  = flat_map (section_room_vars_at mps srp_vars rid pid) sects.
Proof. unfold room_section_by_pattern. now rewrite by_pattern_outer. Qed.

Lemma section_room_vars_at_In mps srp_vars rid pid s v :
  In v (section_room_vars_at mps srp_vars rid pid s)
  <-> In pid (map mp_id mps) /\ get3 (sec_id s, rid, pid) srp_vars = Some v.
Proof.
  unfold section_room_vars_at. rewrite in_flat_map. split.
  - intros [p [Hp Hv]]. destruct (uuid_eqb (mp_id p) pid) eqn:E; [|contradiction].
    apply uuid_eqb_eq in E. subst pid.
    destruct (get3 _ srp_vars) as [w|]; [|contradiction].
    destruct Hv as [->|[]]. split; [now apply in_map | reflexivity].
  - intros [Hp Hg]. apply in_map_iff in Hp. destruct Hp as [p [<- Hp]].
    exists p. split; [assumption|]. rewrite uuid_eqb_refl, Hg. now left.
Qed.

Lemma sum_values_In_ge sol vs z :
  (forall v, In v vs -> 0 <= Value sol v) -> In z vs -> Value sol z <= sum_values sol vs.
Proof.
  intros Hn Hin. apply in_split in Hin. destruct Hin as [a [b ->]].
  rewrite sum_values_app. change (z :: b) with ([z] ++ b). rewrite sum_values_app.
  assert (0 <= sum_values sol a) by (apply sum_values_nonneg; intros; apply Hn, in_or_app; auto).
  assert (0 <= sum_values sol b).
  { apply sum_values_nonneg. intros. apply Hn, in_or_app. right. now right. }
  unfold sum_values at 2. simpl. lia.
Qed.

Lemma sum_values_flat_map {A : Type} sol (f : A -> list IntVar) (l1 l2 : list A) :
  sum_values sol (flat_map f (l1 ++ l2))
  = sum_values sol (flat_map f l1) + sum_values sol (flat_map f l2).
Proof. now rewrite flat_map_app, sum_values_app. Qed.

Lemma sum_values_flat_map_two {A : Type} sol (f : A -> list IntVar) (l : list A) a b z1 z2 :
  In a l -> In b l -> a <> b -> In z1 (f a) -> In z2 (f b) ->
  (forall v, In v (flat_map f l) -> 0 <= Value sol v) ->
  Value sol z1 + Value sol z2 <= sum_values sol (flat_map f l).
Proof.
  intros Ha Hb Hne H1 H2 Hn.
  assert (G : forall l1 l2 l3 x y u w,
             l = l1 ++ x :: l2 ++ y :: l3 -> In u (f x) -> In w (f y) ->
             Value sol u + Value sol w <= sum_values sol (flat_map f l)).
  { intros l1 l2 l3 x y u w E Hu Hw.
    assert (Hpart : forall m, incl m l -> 0 <= sum_values sol (flat_map f m)).
    { intros m Hm. apply sum_values_nonneg. intros v Hv. apply Hn.
      apply in_flat_map in Hv. destruct Hv as [q [Hq Hv]].
      apply in_flat_map. exists q. split; [now apply Hm | assumption]. }
    assert (Hfx : Value sol u <= sum_values sol (f x)).
    { apply sum_values_In_ge; [|assumption]. intros v Hv. apply Hn, in_flat_map.
      exists x. split; [|assumption]. rewrite E. apply in_or_app. right. now left. }
    assert (Hfy : Value sol w <= sum_values sol (f y)).
    { apply sum_values_In_ge; [|assumption]. intros v Hv. apply Hn, in_flat_map.
      exists y. split; [|assumption]. rewrite E. apply in_or_app. right. right.
      apply in_or_app. right. now left. }
    assert (H1' : 0 <= sum_values sol (flat_map f l1)).
    { apply Hpart. rewrite E. now apply incl_appl, incl_refl. }
    assert (H2' : 0 <= sum_values sol (flat_map f l2)).
    { apply Hpart. rewrite E. apply incl_appr, incl_tl, incl_appl, incl_refl. }
    assert (H3' : 0 <= sum_values sol (flat_map f l3)).
    { apply Hpart. rewrite E. apply incl_appr, incl_tl, incl_appr, incl_tl, incl_refl. }
    rewrite E. rewrite sum_values_flat_map. cbn [flat_map]. rewrite sum_values_app.
    rewrite sum_values_flat_map. cbn [flat_map]. rewrite sum_values_app. lia. }
  destruct (in_split_two _ Ha Hb Hne) as [[l1 [l2 [l3 E]]]|[l1 [l2 [l3 E]]]].
  - eapply G; eauto.
  - rewrite Z.add_comm. eapply G; eauto.
Qed.

(** *** The loop over overlapping pairs *)

Lemma sorted_pair_eq a b c d :
  sorted_pair a b = sorted_pair c d -> (a = c /\ b = d) \/ (a = d /\ b = c).
Proof.
  unfold sorted_pair. destruct (N.leb a b), (N.leb c d); intros [= -> ->]; auto.
Qed.

Lemma existsb_key2 pair l : existsb (key2_eqb pair) l = true <-> In pair l.
Proof.
  rewrite existsb_exists. split.
  - intros [x [Hx E]]. apply key2_eqb_eq in E. now subst.
  - intros H. exists pair. split; [assumption | now apply key2_eqb_eq].
Qed.

Lemma pair_covered_grows by_pattern sol cs cs' a b :
  incl cs cs' -> pair_covered by_pattern sol cs a b -> pair_covered by_pattern sol cs' a b.
Proof. intros Hi Hc Ha Hb Hh. apply Hc; auto. Qed.

Lemma pair_covered_sym by_pattern sol cs a b :
  pair_covered by_pattern sol cs a b -> pair_covered by_pattern sol cs b a.
Proof. intros Hc Ha Hb Hh. rewrite Z.add_comm. apply Hc; auto. Qed.

Lemma room_overlap_step_inv by_pattern sol p acc o :
  (forall a b, In (sorted_pair a b) (fst acc) -> pair_covered by_pattern sol (snd acc) a b) ->
  forall a b, In (sorted_pair a b) (fst (room_overlap_step by_pattern p acc o)) ->
              pair_covered by_pattern sol (snd (room_overlap_step by_pattern p acc o)) a b.
Proof.
  intros Hinv a b. unfold room_overlap_step.
  destruct (existsb (key2_eqb (sorted_pair p o)) (fst acc)) eqn:E; [apply Hinv|].
  fold (vars_at by_pattern p). fold (vars_at by_pattern o).
  cbn [fst snd]. intros Hin. apply in_app_or in Hin.
  assert (Hincl : incl (snd acc)
                    match vars_at by_pattern p, vars_at by_pattern o with
                    | _ :: _, _ :: _ =>
                        snd acc ++ [LinLe (ladd (lsum_vars (vars_at by_pattern p))
                                                (lsum_vars (vars_at by_pattern o)))
                                          (lconst 1)]
                    | _, _ => snd acc
                    end).
  { destruct (vars_at by_pattern p); [apply incl_refl|].
    destruct (vars_at by_pattern o); [apply incl_refl|]. apply incl_appl, incl_refl. }
  destruct Hin as [Hin|[Heq|[]]].
  - eapply pair_covered_grows; [exact Hincl | now apply Hinv].
  - assert (Hpo : pair_covered by_pattern sol
                    match vars_at by_pattern p, vars_at by_pattern o with
                    | _ :: _, _ :: _ =>
                        snd acc ++ [LinLe (ladd (lsum_vars (vars_at by_pattern p))
                                                (lsum_vars (vars_at by_pattern o)))
                                          (lconst 1)]
                    | _, _ => snd acc
                    end p o).
    { intros Hp Ho Hh.
      destruct (vars_at by_pattern p) as [|v1 r1] eqn:E1; [congruence|].
      destruct (vars_at by_pattern o) as [|v2 r2] eqn:E2; [congruence|].
      assert (Hc : holds sol (LinLe (ladd (lsum_vars (v1 :: r1)) (lsum_vars (v2 :: r2)))
                                    (lconst 1))).
      { apply Hh, in_or_app. right. now left. }
      clear Hh. rename Hc into Hh. cbn [holds] in Hh. now rewrite eval_ladd, !eval_lsum_vars, eval_lconst in Hh. }
    apply sorted_pair_eq in Heq. destruct Heq as [[-> ->]|[-> ->]];
      [assumption | now apply pair_covered_sym].
Qed.

Lemma room_overlap_step_keeps by_pattern p acc o pr :
  In pr (fst acc) -> In pr (fst (room_overlap_step by_pattern p acc o)).
Proof.
  intros H. unfold room_overlap_step.
  destruct (existsb _ (fst acc)); [assumption|]. cbn [fst]. apply in_or_app. now left.
Qed.

Lemma room_overlap_step_reaches by_pattern p acc o :
  In (sorted_pair p o) (fst (room_overlap_step by_pattern p acc o)).
Proof.
  unfold room_overlap_step.
  destruct (existsb _ (fst acc)) eqn:E; [now apply existsb_key2|].
  cbn [fst]. apply in_or_app. right. now left.
Qed.

Lemma overlap_pairs_covered by_pattern sol (table : dict UUID (list UUID)) kv o :
  In kv table -> In o (snd kv) ->
  pair_covered by_pattern sol
    (snd (fold_left
            (fun acc kv => fold_left (room_overlap_step by_pattern (fst kv)) (snd kv) acc)
            table ([], [])))
    (fst kv) o.
Proof.
  intros Hkv Ho.
  set (Inv := fun acc : list Key2 * list Constraint =>
                forall a b, In (sorted_pair a b) (fst acc) ->
                            pair_covered by_pattern sol (snd acc) a b).
  set (Reached := fun acc : list Key2 * list Constraint =>
                    In (sorted_pair (fst kv) o) (fst acc)).
  assert (Hinner_inv : forall p l acc, Inv acc ->
                         Inv (fold_left (room_overlap_step by_pattern p) l acc)).
  { intros p l acc Ha. apply fold_left_inv; [assumption|].
    intros a x _ Hx. unfold Inv. now apply room_overlap_step_inv. }
  assert (Hinner_keep : forall p l acc, Reached acc ->
                          Reached (fold_left (room_overlap_step by_pattern p) l acc)).
  { intros p l acc Ha. apply fold_left_inv; [assumption|].
    intros a x _ Hx. now apply room_overlap_step_keeps. }
  assert (H : Inv (fold_left
                     (fun acc kv =>
                        fold_left (room_overlap_step by_pattern (fst kv)) (snd kv) acc)
                     table ([], []))
              /\ Reached (fold_left
                            (fun acc kv =>
                               fold_left (room_overlap_step by_pattern (fst kv)) (snd kv) acc)
                            table ([], []))).
  { split.
    - apply fold_left_inv; [intros a b []|]. intros acc x _ Ha. now apply Hinner_inv.
    - apply fold_left_hit with (x := kv); [assumption| |].
      + intros acc y Ha. now apply Hinner_keep.
      + intros acc. apply fold_left_hit with (x := o); [assumption| |].
        * intros a y Ha. now apply room_overlap_step_keeps.
        * intros a. apply room_overlap_step_reaches. }
  destruct H as [H1 H2]. now apply H1.
Qed.

(** *** No room is double-booked *)

Lemma chosen_product_one inp st pens sol s p r :
  build_model inp = Ok (st, pens) -> feasible (model st) sol ->
  NoDup (map sec_id (sections inp)) -> In s (sections inp) ->
  chosen_pattern inp st sol s = Some p -> chosen_room inp st sol s = Some r ->
  In p (map mp_id (meeting_patterns inp)) /\ In r (map room_id (rooms inp))
  /\ exists z, get3 (sec_id s, r, p) (section_room_pattern_vars (created inp)) = Some z
               /\ Value sol z = 1.
Proof.
  intros Hb Hf Hnd Hs Hp Hr.
  unfold chosen_pattern, extract_section in Hp. simpl in Hp.
  unfold chosen_room, extract_section in Hr. simpl in Hr.
  apply first_chosen_Some in Hp. destruct Hp as [Hpin [x [Hx Hvx]]].
  apply first_chosen_Some in Hr. destruct Hr as [Hrin [y [Hy Hvy]]].
  split; [assumption|]. split; [assumption|].
  destruct (build_model_contents _ Hb) as [Ep [Er _]].
  destruct (build_model_conflicts _ Hb) as [_ [_ [_ Hc]]].
  rewrite Ep in Hx. rewrite Er in Hy.
  destruct (@create_variables_product inp (sections inp) init_solver s p r x y Hnd Hs
              (fun _ => eq_refl) (fun _ => eq_refl) Hx Hy) as [z [Hz Hm]].
  exists z. split; [exact Hz|].
  destruct Hf as [_ Hh]. specialize (Hh _ (Hc _ Hm)). cbn [holds prod_values fold_right] in Hh.
  rewrite Hh, Hvx, Hvy. reflexivity.
Qed.

Lemma product_values_boolean inp st pens sol k v :
  build_model inp = Ok (st, pens) -> feasible (model st) sol ->
  get3 k (section_room_pattern_vars (created inp)) = Some v -> 0 <= Value sol v <= 1.
Proof.
  intros Hb [Hdom _] Hg.
  destruct (build_model_contents _ Hb) as [_ [_ [_ [Hv _]]]].
  apply (dict_get_In key3_eqb key3_eqb_eq) in Hg.
  destruct (boolean_other_tables_create_variables inp) as [_ Hbt].
  destruct (Hbt k v Hg) as [Hin [Hl Hu]].
  specialize (Hdom v (Hv v Hin)). unfold in_domain in Hdom. lia.
Qed.

(** Two different sections are never given the same room together with
    patterns of the same id: the product variables of both are filed under
    that pattern for that room, and their sum is at most one. *)
Lemma room_pattern_not_shared inp st pens sol s1 s2 r p1 p2 :
  build_model inp = Ok (st, pens) -> feasible (model st) sol ->
  NoDup (map sec_id (sections inp)) ->
  In s1 (sections inp) -> In s2 (sections inp) -> s1 <> s2 ->
  chosen_room inp st sol s1 = Some r -> chosen_room inp st sol s2 = Some r ->
  chosen_pattern inp st sol s1 = Some p1 -> chosen_pattern inp st sol s2 = Some p2 ->
  p1 <> p2.
Proof.
  intros Hb Hf Hnd Hs1 Hs2 Hne Hr1 Hr2 Hc1 Hc2 E. subst p2.
  destruct (@chosen_product_one inp st pens sol s1 p1 r Hb Hf Hnd Hs1 Hc1 Hr1)
    as [Hp1 [Hrin [z1 [Hz1 Hv1]]]].
  destruct (@chosen_product_one inp st pens sol s2 p1 r Hb Hf Hnd Hs2 Hc2 Hr2)
    as [_ [_ [z2 [Hz2 Hv2]]]].
  apply in_map_iff in Hrin. destruct Hrin as [R [HR HRin]].
  destruct (build_model_conflicts _ Hb) as [_ [Hroom _]].
  set (srp_vars := section_room_pattern_vars (created inp)) in *.
  set (bp := room_section_by_pattern (sections inp) (meeting_patterns inp) srp_vars r).
  assert (Hcs : forall c,
             In c (room_conflict_constraints_of (sections inp) (meeting_patterns inp)
                     srp_vars R) -> holds sol c).
  { intros c Hc. destruct Hf as [_ Hh]. apply Hh, Hroom, in_flat_map.
    exists R. split; assumption. }
  unfold room_conflict_constraints_of in Hcs. rewrite HR in Hcs. fold bp in Hcs.
  assert (Hat : vars_at bp p1
                = flat_map (section_room_vars_at (meeting_patterns inp) srp_vars r p1)
                           (sections inp)).
  { apply room_section_by_pattern_at. }
  assert (Hbool : forall v, In v (vars_at bp p1) -> 0 <= Value sol v <= 1).
  { intros v Hv. rewrite Hat in Hv. apply in_flat_map in Hv.
    destruct Hv as [s [_ Hv]]. apply section_room_vars_at_In in Hv. destruct Hv as [_ Hg].
    apply (@product_values_boolean inp st pens sol _ v Hb Hf Hg). }
  assert (Hsum : Value sol z1 + Value sol z2 <= sum_values sol (vars_at bp p1)).
  { rewrite Hat. apply sum_values_flat_map_two with (a := s1) (b := s2); try assumption.
    - apply section_room_vars_at_In. split; assumption.
    - apply section_room_vars_at_In. split; assumption.
    - intros v Hv. rewrite <- Hat in Hv. now apply Hbool. }
  assert (Hget : vars_at bp p1 <> [] -> In (p1, vars_at bp p1) bp).
  { unfold vars_at. destruct (dict_get uuid_eqb p1 bp) as [l|] eqn:Eg; [|congruence].
    intros _. now apply (dict_get_In uuid_eqb uuid_eqb_eq). }
  destruct (vars_at bp p1) as [|v [|w l]] eqn:El.
  - unfold sum_values in Hsum. simpl in Hsum. lia.
  - assert (Hv : 0 <= Value sol v <= 1) by (apply Hbool; now left).
    unfold sum_values in Hsum. simpl in Hsum. lia.
  - assert (Hh : holds sol (LinLe (lsum_vars (v :: w :: l)) (lconst 1))).
    { apply Hcs, in_or_app. left. apply in_flat_map.
      exists (p1, v :: w :: l). split; [apply Hget; discriminate | now left]. }
    cbn [holds] in Hh. rewrite eval_lsum_vars, eval_lconst in Hh. lia.
Qed.

(** X10. In an input whose section ids are distinct, under a feasible
    solution of a model that was built, two different sections that are given
    the same room are never given patterns of the same id, and never two
    patterns that overlap. *)
Theorem no_room_double_booking (inp : SolverInput) (st : CPSATSolver)
    (pens : list LinearExpr) (sol : Solution) (s1 s2 : Section) (r p1 p2 : UUID) :
  build_model inp = Ok (st, pens) -> feasible (model st) sol ->
  NoDup (map sec_id (sections inp)) ->
  In s1 (sections inp) -> In s2 (sections inp) -> s1 <> s2 ->
  chosen_room inp st sol s1 = Some r -> chosen_room inp st sol s2 = Some r ->
  chosen_pattern inp st sol s1 = Some p1 -> chosen_pattern inp st sol s2 = Some p2 ->
  p1 <> p2
  /\ forall P1 P2, In P1 (meeting_patterns inp) -> In P2 (meeting_patterns inp) ->
                   mp_id P1 = p1 -> mp_id P2 = p2 -> _patterns_overlap P1 P2 = false.
Proof.
  intros Hb Hf Hnd Hs1 Hs2 Hne Hr1 Hr2 Hc1 Hc2.
  destruct (@chosen_product_one inp st pens sol s1 p1 r Hb Hf Hnd Hs1 Hc1 Hr1)
    as [Hp1 [Hrin [z1 [Hz1 Hv1]]]].
  destruct (@chosen_product_one inp st pens sol s2 p2 r Hb Hf Hnd Hs2 Hc2 Hr2)
    as [Hp2 [_ [z2 [Hz2 Hv2]]]].
  apply in_map_iff in Hrin. destruct Hrin as [R [HR HRin]].
  destruct (build_model_conflicts _ Hb) as [_ [Hroom _]].
  set (srp_vars := section_room_pattern_vars (created inp)) in *.
  set (bp := room_section_by_pattern (sections inp) (meeting_patterns inp) srp_vars r).
  assert (Hcs : forall c,
             In c (room_conflict_constraints_of (sections inp) (meeting_patterns inp)
                     srp_vars R) -> holds sol c).
  { intros c Hc. destruct Hf as [_ Hh]. apply Hh, Hroom, in_flat_map.
    exists R. split; assumption. }
  unfold room_conflict_constraints_of in Hcs. rewrite HR in Hcs. fold bp in Hcs.
  assert (Hat : forall pid, vars_at bp pid
                            = flat_map (section_room_vars_at (meeting_patterns inp)
                                          srp_vars r pid) (sections inp)).
  { intros pid. apply room_section_by_pattern_at. }
  assert (Hbool : forall pid v, In v (vars_at bp pid) -> 0 <= Value sol v).
  { intros pid v Hv. rewrite Hat in Hv. apply in_flat_map in Hv.
    destruct Hv as [s [_ Hv]]. apply section_room_vars_at_In in Hv. destruct Hv as [_ Hg].
    apply (@product_values_boolean inp st pens sol _ v Hb Hf Hg). }
  assert (Hin1 : In z1 (section_room_vars_at (meeting_patterns inp) srp_vars r p1 s1)).
  { apply section_room_vars_at_In. split; assumption. }
  assert (Hin2 : In z2 (section_room_vars_at (meeting_patterns inp) srp_vars r p2 s2)).
  { apply section_room_vars_at_In. split; assumption. }
  assert (Hne12 : p1 <> p2).
  { apply (@room_pattern_not_shared inp st pens sol s1 s2 r p1 p2); assumption. }
  split; [assumption|].
  intros P1 P2 HP1 HP2 E1 E2.
  destruct (_patterns_overlap P1 P2) eqn:Eo; [exfalso|reflexivity].
  assert (Hov : In p2 (overlaps_of (overlapping_patterns (meeting_patterns inp)) p1)).
  { apply overlapping_patterns_iff. exists P1, P2. repeat split; assumption. }
  unfold overlaps_of in Hov.
  destruct (dict_get uuid_eqb p1 (overlapping_patterns (meeting_patterns inp)))
    as [ov|] eqn:Eg; [|contradiction].
  apply (dict_get_In uuid_eqb uuid_eqb_eq) in Eg.
  pose proof (@overlap_pairs_covered bp sol _ (p1, ov) p2 Eg Hov) as Hcov.
  cbn [fst] in Hcov.
  assert (H1 : Value sol z1 <= sum_values sol (vars_at bp p1)).
  { apply sum_values_In_ge; [apply Hbool|]. rewrite Hat. apply in_flat_map. eauto. }
  assert (H2 : Value sol z2 <= sum_values sol (vars_at bp p2)).
  { apply sum_values_In_ge; [apply Hbool|]. rewrite Hat. apply in_flat_map. eauto. }
  assert (Hle : sum_values sol (vars_at bp p1) + sum_values sol (vars_at bp p2) <= 1).
  { apply Hcov.
    - intros E. assert (Hi : In z1 (vars_at bp p1)).
      { rewrite Hat. apply in_flat_map. eauto. }
      rewrite E in Hi. contradiction.
    - intros E. assert (Hi : In z2 (vars_at bp p2)).
      { rewrite Hat. apply in_flat_map. eauto. }
      rewrite E in Hi. contradiction.
    - intros c Hc. apply Hcs, in_or_app. now right. }
  lia.
Qed.

Lemma no_room_double_booking_witness :
  exists st pens,
    build_model two_sections_input = Ok (st, pens)
    /\ feasible (model st) shared_room_solution
    /\ chosen_room two_sections_input st shared_room_solution
         (with_assigned (section 20%N 25) [100%N]) = Some 11%N
    /\ chosen_room two_sections_input st shared_room_solution
         (with_assigned (section 21%N 40) [101%N]) = Some 11%N
    /\ (1%N <> 3%N
        /\ forall P1 P2, In P1 (meeting_patterns two_sections_input) ->
                         In P2 (meeting_patterns two_sections_input) ->
                         mp_id P1 = 1%N -> mp_id P2 = 3%N -> _patterns_overlap P1 P2 = false).
Proof.
  destruct (build_model two_sections_input) as [[st pens]|e] eqn:Hb;
    [|vm_compute in Hb; discriminate].
  exists st, pens. split; [reflexivity|].
  assert (Hf : feasible (model st) shared_room_solution).
  { apply feasibleb_sound. vm_compute in Hb. injection Hb as <- _. vm_compute. reflexivity. }
  assert (H1 : chosen_room two_sections_input st shared_room_solution
                 (with_assigned (section 20%N 25) [100%N]) = Some 11%N).
  { vm_compute in Hb. injection Hb as <- _. vm_compute. reflexivity. }
  assert (H2 : chosen_room two_sections_input st shared_room_solution
                 (with_assigned (section 21%N 40) [101%N]) = Some 11%N).
  { vm_compute in Hb. injection Hb as <- _. vm_compute. reflexivity. }
  split; [exact Hf|]. split; [exact H1|]. split; [exact H2|].
  apply (@no_room_double_booking two_sections_input st pens shared_room_solution
           (with_assigned (section 20%N 25) [100%N])
           (with_assigned (section 21%N 40) [101%N]) 11%N 1%N 3%N Hb Hf).
  - simpl. constructor; [simpl; intros [H|[]]; discriminate|].
    constructor; [simpl; tauto | constructor].
  - left. reflexivity.
  - right. left. reflexivity.
  - discriminate.
  - exact H1.
  - exact H2.
  - vm_compute in Hb. injection Hb as <- _. vm_compute. reflexivity.
  - vm_compute in Hb. injection Hb as <- _. vm_compute. reflexivity.
Defined.

(* ===================================================================== *)
(** ** Workload penalties                                                 *)
(* ===================================================================== *)

Lemma pextends_workload_step sects si_vars uw ow tw acc i :
  pextends acc (workload_step sects si_vars uw ow tw acc i).
Proof.
  split; [apply extends_workload_step|].
  unfold workload_step.
  destruct (workload_sections sects si_vars i); [apply incl_refl|].
  destruct (0 <? Qnum (min_load i)); destruct (target_load i); cbn [snd NewIntVar new_var];
    intros x Hx; rewrite ?in_app_iff; tauto.
Qed.

Lemma workload_terms_in_grows acc acc' sects isects i uw ow tw :
  pextends acc acc' ->
  workload_terms_in acc sects isects i uw ow tw ->
  workload_terms_in acc' sects isects i uw ow tw.
Proof.
  intros [[Hv Hc] Hp] [T [[HT HT'] [HeT [HO [HU HD]]]]].
  exists T. split; [split; [now apply Hv | exact HT']|]. split; [now apply Hc|].
  split; [|split].
  - destruct HO as [O [[H1 H1'] [H2 H3]]]. exists O. repeat split; auto; apply H1'.
  - intros Hm. destruct (HU Hm) as [U [[H1 H1'] [H2 H3]]]. exists U.
    repeat split; auto; apply H1'.
  - intros t Ht. destruct (HD t Ht) as [D [[H1 H1'] [H2 H3]]]. exists D.
    repeat split; auto; apply H1'.
Qed.

Ltac in_tail :=
  solve [ repeat first [ now left
                       | apply in_or_app; right; now left
                       | apply in_or_app; left ] ].

Lemma workload_step_terms sects si_vars uw ow tw acc i :
  workload_sections sects si_vars i <> [] ->
  workload_terms_in (workload_step sects si_vars uw ow tw acc i) sects
                    (workload_sections sects si_vars i) i uw ow tw.
Proof.
  intros Hne. unfold workload_step, workload_terms_in.
  destruct (workload_sections sects si_vars i) as [|e0 es] eqn:Ei; [congruence|].
  fold (max_possible_load sects (e0 :: es)).
  set (mpl := max_possible_load sects (e0 :: es)).
  set (E := lsum (map (load_expr (section_loads_scaled (section_loads sects) (e0 :: es)))
                      (e0 :: es))).
  destruct (0 <? Qnum (min_load i)) eqn:Em; destruct (target_load i) as [t|] eqn:Et;
    cbn [NewIntVar new_var Add fst snd variables constraints];
    match goal with |- context [LinEq (lvar ?v) _] => exists v end;
    (split; [split; [in_tail | repeat split]|]);
    (split; [in_tail|]);
    (split; [match goal with |- context [lmul ?v ow] => exists v end;
             split; [split; [in_tail | repeat split] | split; in_tail] |]);
    (split;
     [ intros Hm;
       first [ match goal with |- context [lmul ?v uw] => exists v end;
               split; [split; [in_tail | repeat split] | split; in_tail]
             | apply Z.ltb_lt in Hm; congruence ]
     | intros t' Ht';
       first [ discriminate
             | injection Ht' as <-;
               match goal with |- context [lmul ?v tw] => exists v end;
               split; [split; [in_tail | repeat split] | split; in_tail] ] ]).
Qed.

Lemma workload_penalties_terms m sects instrs si_vars weights i :
  In i instrs -> workload_sections sects si_vars i <> [] ->
  workload_terms_in (add_instructor_workload_penalties m sects instrs si_vars weights)
    sects (workload_sections sects si_vars i) i
    (weight_of weights "instructor_underload" 20)
    (weight_of weights "instructor_overload" 50)
    (weight_of weights "instructor_target_deviation" 5).
Proof.
  intros Hin Hne. unfold add_instructor_workload_penalties.
  apply fold_left_hit with (x := i); [assumption| |].
  - intros a y Ha. eapply workload_terms_in_grows; [apply pextends_workload_step | exact Ha].
  - intros a. now apply workload_step_terms.
Qed.

Lemma build_model_workload inp st pens i :
  build_model inp = Ok (st, pens) ->
  In i (instructors inp) ->
  workload_sections (sections inp) (section_instructor_vars (created inp)) i <> [] ->
  workload_terms_in (model st, pens) (sections inp)
    (workload_sections (sections inp) (section_instructor_vars (created inp)) i) i
    (weight_of (constraint_weights inp) "instructor_underload" 20)
    (weight_of (constraint_weights inp) "instructor_overload" 50)
    (weight_of (constraint_weights inp) "instructor_target_deviation" 5).
Proof.
  unfold build_model. fold (created inp).
  destruct (_add_hard_constraints inp _) as [st3|e] eqn:Eh; simpl; [|discriminate].
  intros [= E] Hin Hne.
  assert (Hsi : section_instructor_vars st3 = section_instructor_vars (created inp)).
  { unfold _add_hard_constraints in Eh.
    destruct (add_instructor_conflict_constraints _ _ _ _ _) as [m|e]; simpl in Eh;
      [|discriminate].
    injection Eh as <-. reflexivity. }
  unfold _add_soft_constraints in E. rewrite Hsi in E.
  destruct (add_instructor_preference_penalties _ _ _ _ _ _ _) as [m1 pens1].
  pose proof (@workload_penalties_terms m1 (sections inp) (instructors inp)
                (section_instructor_vars (created inp)) (constraint_weights inp) i Hin Hne)
    as H.
  destruct (add_instructor_workload_penalties _ _ _ _ _) as [m2 pens2].
  injection E as <- <-.
  eapply workload_terms_in_grows; [|exact H].
  split; [apply extends_refl | cbn [snd]; now apply incl_appr, incl_refl].
Qed.

Lemma eval_lscale sol k a : eval sol (lscale k a) = k * eval sol a.
Proof.
  unfold eval, lscale. cbn [terms offset].
  induction (terms a) as [|x r IH]; cbn [map fold_right fst snd]; [reflexivity|].
  rewrite IH. lia.
Qed.

Lemma eval_lsub sol a b : eval sol (lsub a b) = eval sol a - eval sol b.
Proof. unfold lsub. rewrite eval_ladd, eval_lscale. lia. Qed.

Lemma eval_lmul sol v k : eval sol (lmul v k) = k * Value sol v.
Proof. unfold eval, lmul. cbn [terms offset fold_right fst snd]. lia. Qed.

(** X11. The target-deviation variable is bounded by ten times the largest
    load the instructor could get, and must equal the distance between the
    load and the target: when the scaled target exceeds eleven times that
    largest load, the model that was built has no solution at all. *)
Theorem far_target_is_infeasible (inp : SolverInput) (st : CPSATSolver)
    (pens : list LinearExpr) (i : Instructor) (t : Q) :
  build_model inp = Ok (st, pens) ->
  In i (instructors inp) -> target_load i = Some t ->
  workload_sections (sections inp) (section_instructor_vars st) i <> [] ->
  11 * max_possible_load (sections inp)
         (workload_sections (sections inp) (section_instructor_vars st) i)
  < scaled t ->
  forall sol, ~ feasible (model st) sol.
Proof.
  intros Hb Hi Ht Hne Hfar sol [Hdom Hh].
  destruct (build_model_contents _ Hb) as [_ [_ [Esi _]]].
  rewrite Esi in Hne, Hfar.
  destruct (@build_model_workload inp st pens i Hb Hi Hne)
    as [T [[HT [_ [HTl HTu]]] [_ [_ [_ HD]]]]].
  destruct (HD t Ht) as [D [[HDin [_ [HDl HDu]]] [Habs _]]].
  cbn [fst] in *.
  pose proof (Hdom _ HT) as dT. pose proof (Hdom _ HDin) as dD.
  unfold in_domain in dT, dD. rewrite HTl, HTu in dT. rewrite HDl, HDu in dD.
  specialize (Hh _ Habs). cbn [holds] in Hh.
  rewrite eval_lsub, eval_lvar, eval_lconst in Hh. lia.
Qed.

Lemma far_target_is_infeasible_witness :
  exists st pens,
    build_model far_target_input = Ok (st, pens)
    /\ forall sol, ~ feasible (model st) sol.
Proof.
  destruct (build_model far_target_input) as [[st pens]|e] eqn:Hb;
    [|vm_compute in Hb; discriminate].
  exists st, pens. split; [reflexivity|].
  apply (@far_target_is_infeasible far_target_input st pens target_instructor (12 # 1) Hb).
  - left. reflexivity.
  - reflexivity.
  - vm_compute in Hb. injection Hb as <- _. vm_compute. discriminate.
  - vm_compute in Hb. injection Hb as <- _. vm_compute. reflexivity.
Defined.

(** *** The load variable and the reported assignment *)

Lemma section_loads_fold_other sid l : forall d,
  ~ In sid (map sec_id l) ->
  dict_get uuid_eqb sid
    (fold_left (fun d s => dict_set uuid_eqb (sec_id s) (credit_hours s) d) l d)
  = dict_get uuid_eqb sid d.
Proof.
  induction l as [|a r IH]; simpl; intros d Hn; [reflexivity|].
  rewrite IH by tauto.
  apply (dict_get_set_other uuid_eqb uuid_eqb_eq). intros E. apply Hn. now left.
Qed.

Lemma section_loads_get sects s :
  NoDup (map sec_id sects) -> In s sects ->
  dict_get uuid_eqb (sec_id s) (section_loads sects) = Some (credit_hours s).
Proof.
  unfold section_loads. generalize (@nil (UUID * Q)) as d.
  induction sects as [|a r IH]; simpl; intros d Hnd Hin; [contradiction|].
  inversion Hnd as [|u v Hna Hnr]; subst.
  destruct Hin as [->|Hin]; [|now apply IH].
  rewrite section_loads_fold_other by assumption.
  apply (dict_get_set_same uuid_eqb uuid_eqb_eq).
Qed.

Lemma section_loads_scaled_get loads sid isects : forall d,
  In sid (map fst isects) \/ dict_get uuid_eqb sid d = Some (load_of loads sid) ->
  dict_get uuid_eqb sid
    (fold_left (fun d (e : UUID * LoadTerm) =>
                  dict_set uuid_eqb (fst e) (load_of loads (fst e)) d) isects d)
  = Some (load_of loads sid).
Proof.
  induction isects as [|e r IH]; simpl; intros d H.
  - destruct H as [[]|H]; assumption.
  - apply IH. destruct (N.eq_dec (fst e) sid) as [E|E].
    + right. rewrite E. apply (dict_get_set_same uuid_eqb uuid_eqb_eq).
    + destruct H as [[H|H]|H]; [contradiction | now left |].
      right. now rewrite (dict_get_set_other uuid_eqb uuid_eqb_eq).
Qed.

Lemma load_expr_value sol sects isects s t :
  NoDup (map sec_id sects) -> In s sects -> In (sec_id s, t) isects ->
  eval sol (load_expr (section_loads_scaled (section_loads sects) isects) (sec_id s, t))
  = match t with
    | load_var v => scaled (credit_hours s) * Value sol v
    | load_one => scaled (credit_hours s)
    end.
Proof.
  intros Hnd Hs Hin.
  assert (E : dict_get uuid_eqb (sec_id s)
                (section_loads_scaled (section_loads sects) isects)
              = Some (scaled (credit_hours s))).
  { unfold section_loads_scaled.
    rewrite section_loads_scaled_get
      by (left; apply in_map_iff; exists (sec_id s, t); split; [reflexivity | assumption]).
    unfold load_of. now rewrite (@section_loads_get sects s Hnd Hs). }
  unfold load_expr. cbn [fst snd]. rewrite E.
  destruct t; [apply eval_lmul | apply eval_lconst].
Qed.

Lemma workload_sections_In sects si_vars i s t :
  In s sects ->
  In (sec_id s, t)
     match get2 (sec_id s, instr_id i) si_vars with
     | Some v => [(sec_id s, load_var v)]
     | None =>
         if mem (instr_id i) (assigned_instructor_ids s)
         then [(sec_id s, load_one)] else []
     end ->
  In (sec_id s, t) (workload_sections sects si_vars i).
Proof.
  intros Hs Hin. unfold workload_sections. apply in_flat_map. exists s. split; assumption.
Qed.

Lemma load_sum_value sol sects si_vars i :
  NoDup (map sec_id sects) ->
  eval sol (lsum (map (load_expr (section_loads_scaled (section_loads sects)
                                    (workload_sections sects si_vars i)))
                      (workload_sections sects si_vars i)))
  = fold_right Z.add 0 (map (load_contribution sol si_vars (instr_id i)) sects).
Proof.
  intros Hnd. unfold lsum. rewrite eval_fold_ladd, eval_lconst. cbn [Z.add].
  set (sl := section_loads_scaled (section_loads sects) (workload_sections sects si_vars i)).
  assert (G : forall l, incl l sects ->
             fold_right (fun e acc => eval sol e + acc) 0
               (map (load_expr sl) (workload_sections l si_vars i))
             = fold_right Z.add 0 (map (load_contribution sol si_vars (instr_id i)) l)).
  { induction l as [|a r IH]; intros Hl; [reflexivity|].
    assert (Ha : In a sects) by (apply Hl; now left).
    assert (Hr : incl r sects) by (intros x Hx; apply Hl; now right).
    unfold workload_sections. cbn [flat_map]. fold (workload_sections r si_vars i).
    rewrite map_app, fold_right_app, (IH Hr). cbn [map fold_right].
    unfold load_contribution at 2.
    pose proof (fun t => @workload_sections_In sects si_vars i a t Ha) as Hin.
    destruct (get2 (sec_id a, instr_id i) si_vars) as [v|].
    - cbn [map fold_right]. unfold sl.
      rewrite (@load_expr_value sol sects _ a (load_var v) Hnd Ha) by (apply Hin; now left).
      reflexivity.
    - destruct (mem (instr_id i) (assigned_instructor_ids a)).
      + cbn [map fold_right]. unfold sl.
        rewrite (@load_expr_value sol sects _ a load_one Hnd Ha) by (apply Hin; now left).
        reflexivity.
      + cbn [map fold_right]. lia. }
  rewrite (G sects (incl_refl _)). reflexivity.
Qed.

Lemma load_contribution_reported inp st pens sol i s :
  build_model inp = Ok (st, pens) -> feasible (model st) sol ->
  NoDup (map sec_id (sections inp)) -> In i (instructors inp) -> In s (sections inp) ->
  load_contribution sol (section_instructor_vars st) (instr_id i) s
  = if mem (instr_id i) (a_instructor_ids (extract_section inp st sol s))
    then scaled (credit_hours s) else 0.
Proof.
  intros Hb Hf Hnd Hi Hs. unfold load_contribution, extract_section.
  cbn [a_instructor_ids].
  destruct (get2 (sec_id s, instr_id i) (section_instructor_vars st)) as [v|] eqn:Eg.
  - destruct (@created_instructor_var inp st pens s (instr_id i) v Hb Hnd Hs Eg) as [_ Hna].
    pose proof (@instructor_values_boolean inp st pens sol _ v Hb Hf Eg) as Hv.
    destruct (mem (instr_id i) _) eqn:Em.
    + apply mem_In in Em. apply in_app_or in Em. destruct Em as [Em|Em]; [contradiction|].
      apply chosen_instructors_In in Em. destruct Em as [_ [w [Hw Hone]]].
      rewrite Eg in Hw. injection Hw as <-. rewrite Hone. lia.
    + assert (Hz : Value sol v = 0).
      { destruct (Z.eq_dec (Value sol v) 1) as [E1|E1]; [|lia].
        assert (H : In (instr_id i)
                      (assigned_instructor_ids s
                       ++ chosen_instructors sol (section_instructor_vars st) (sec_id s)
                            (instructors inp))).
        { apply in_or_app. right. apply chosen_instructors_In.
          split; [now apply in_map | eauto]. }
        apply mem_In in H. congruence. }
      rewrite Hz. lia.
  - destruct (mem (instr_id i) (assigned_instructor_ids s)) eqn:Ea.
    + assert (H : In (instr_id i)
                    (assigned_instructor_ids s
                     ++ chosen_instructors sol (section_instructor_vars st) (sec_id s)
                          (instructors inp))).
      { apply in_or_app. left. now apply mem_In. }
      apply mem_In in H. now rewrite H.
    + destruct (mem (instr_id i) (_ ++ _)) eqn:Em; [|reflexivity].
      apply mem_In in Em. apply in_app_or in Em. destruct Em as [Em|Em].
      * apply mem_In in Em. congruence.
      * apply chosen_instructors_In in Em. destruct Em as [_ [w [Hw _]]]. congruence.
Qed.

Lemma load_value_reported inp st pens sol i :
  build_model inp = Ok (st, pens) -> feasible (model st) sol ->
  NoDup (map sec_id (sections inp)) -> In i (instructors inp) ->
  eval sol (lsum (map (load_expr (section_loads_scaled (section_loads (sections inp))
                                    (workload_sections (sections inp)
                                       (section_instructor_vars st) i)))
                      (workload_sections (sections inp) (section_instructor_vars st) i)))
  = reported_load inp st sol (instr_id i).
Proof.
  intros Hb Hf Hnd Hi. rewrite load_sum_value by assumption. unfold reported_load.
  f_equal. apply map_ext_in. intros s Hs.
  apply (@load_contribution_reported inp st pens sol i s Hb Hf Hnd Hi Hs).
Qed.

Lemma candidate_has_workload inp st pens i s :
  build_model inp = Ok (st, pens) ->
  NoDup (map sec_id (sections inp)) -> In s (sections inp) ->
  In (instr_id i) (assigned_instructor_ids s ++ preferred_instructor_ids s) ->
  workload_sections (sections inp) (section_instructor_vars st) i <> [].
Proof.
  intros Hb Hnd Hs Hc.
  assert (H : exists t, In (sec_id s, t)
                          (workload_sections (sections inp) (section_instructor_vars st) i)).
  { destruct (get2 (sec_id s, instr_id i) (section_instructor_vars st)) as [v|] eqn:Eg.
    - exists (load_var v). apply workload_sections_In; [assumption|]. rewrite Eg. now left.
    - assert (Ha : In (instr_id i) (assigned_instructor_ids s)).
      { destruct (in_dec N.eq_dec (instr_id i) (assigned_instructor_ids s)) as [H|H];
          [assumption|exfalso].
        apply in_app_or in Hc. destruct Hc as [Hc|Hc]; [contradiction|].
        destruct (build_model_contents _ Hb) as [_ [_ [Esi _]]].
        rewrite Esi in Eg. unfold created, _create_variables in Eg.
        destruct (create_variables_instructor_table inp (sections inp) init_solver s Hnd Hs
                    (fun _ => eq_refl) (instr_id i)) as [H1 _].
        destruct H1 as [v Hv]; [apply potential_instructors_In; now split|]. congruence. }
      exists load_one. apply workload_sections_In; [assumption|]. rewrite Eg.
      apply mem_In in Ha. rewrite Ha. now left. }
  destruct H as [t Ht]. intros E. rewrite E in Ht. contradiction.
Qed.

(** X12. In an input whose section ids are distinct, under a feasible
    solution of a model that was built, an instructor of the input who is
    pre-assigned to or preferred for some section has a load variable whose
    value is the scaled credit hours of the sections reported with that
    instructor.  The overload penalty variable is at least the excess of that
    load over the scaled maximum, the underload variable (for a positive
    minimum) at least the shortfall below the scaled minimum, and the
    deviation variable (for a target) the distance to the scaled target; each
    enters the penalty list with its weight. *)
Theorem workload_measures_reported_load (inp : SolverInput) (st : CPSATSolver)
    (pens : list LinearExpr) (sol : Solution) (i : Instructor) (s : Section) :
  build_model inp = Ok (st, pens) -> feasible (model st) sol ->
  NoDup (map sec_id (sections inp)) -> In i (instructors inp) ->
  In s (sections inp) ->
  In (instr_id i) (assigned_instructor_ids s ++ preferred_instructor_ids s) ->
  let total := reported_load inp st sol (instr_id i) in
  (exists T, In T (variables (model st)) /\ var_name T = load (instr_id i)
             /\ Value sol T = total)
  /\ (exists O, var_name O = overload (instr_id i)
                /\ In (lmul O (weight_of (constraint_weights inp) "instructor_overload" 50))
                      pens
                /\ 0 <= Value sol O /\ total - scaled (max_load i) <= Value sol O)
  /\ (0 < Qnum (min_load i) ->
      exists U, var_name U = underload (instr_id i)
                /\ In (lmul U (weight_of (constraint_weights inp) "instructor_underload" 20))
                      pens
                /\ 0 <= Value sol U /\ scaled (min_load i) - total <= Value sol U)
  /\ (forall t, target_load i = Some t ->
      exists D, var_name D = target_dev (instr_id i)
                /\ In (lmul D (weight_of (constraint_weights inp)
                                 "instructor_target_deviation" 5)) pens
                /\ Value sol D = Z.abs (total - scaled t)).
Proof.
  intros Hb Hf Hnd Hi Hs Hc total.
  pose proof (@candidate_has_workload inp st pens i s Hb Hnd Hs Hc) as Hne.
  pose proof (@load_value_reported inp st pens sol i Hb Hf Hnd Hi) as Hload.
  fold total in Hload.
  destruct (build_model_contents _ Hb) as [_ [_ [Esi _]]].
  rewrite Esi in Hne, Hload.
  destruct (@build_model_workload inp st pens i Hb Hi Hne)
    as [T [[HT [HTn _]] [HeT [HO [HU HD]]]]].
  cbn [fst snd] in *.
  destruct Hf as [Hdom Hh].
  assert (HvT : Value sol T = total).
  { specialize (Hh _ HeT). cbn [holds] in Hh. rewrite eval_lvar in Hh. congruence. }
  split; [exists T; auto|]. split; [|split].
  - destruct HO as [O [[HOin [HOn [HOl _]]] [HOc HOp]]]. exists O.
    split; [assumption|]. split; [assumption|].
    pose proof (Hdom _ HOin) as dO. unfold in_domain in dO.
    specialize (Hh _ HOc). cbn [holds] in Hh.
    rewrite eval_lsub, !eval_lvar, eval_lconst in Hh. lia.
  - intros Hm. destruct (HU Hm) as [U [[HUin [HUn [HUl _]]] [HUc HUp]]]. exists U.
    split; [assumption|]. split; [assumption|].
    pose proof (Hdom _ HUin) as dU. unfold in_domain in dU.
    specialize (Hh _ HUc). cbn [holds] in Hh.
    rewrite eval_lsub, !eval_lvar, eval_lconst in Hh. lia.
  - intros t Ht. destruct (HD t Ht) as [D [[HDin [HDn _]] [HDc HDp]]]. exists D.
    split; [assumption|]. split; [assumption|].
    specialize (Hh _ HDc). cbn [holds] in Hh.
    rewrite eval_lsub, eval_lvar, eval_lconst in Hh. congruence.
Qed.

Lemma workload_measures_reported_load_witness :
  exists st pens,
    build_model two_sections_input = Ok (st, pens)
    /\ feasible (model st) two_sections_solution
    /\ reported_load two_sections_input st two_sections_solution 100%N = 30
    /\ (exists T, In T (variables (model st)) /\ var_name T = load 100%N
                  /\ Value two_sections_solution T
                     = reported_load two_sections_input st two_sections_solution 100%N).
Proof.
  destruct (build_model two_sections_input) as [[st pens]|e] eqn:Hb;
    [|vm_compute in Hb; discriminate].
  exists st, pens. split; [reflexivity|].
  assert (Hf : feasible (model st) two_sections_solution).
  { apply feasibleb_sound. vm_compute in Hb. injection Hb as <- _. vm_compute. reflexivity. }
  split; [exact Hf|]. split.
  { vm_compute in Hb. injection Hb as <- _. vm_compute. reflexivity. }
  apply (@workload_measures_reported_load two_sections_input st pens two_sections_solution
           (instructor 100%N) (with_assigned (section 20%N 25) [100%N]) Hb Hf).
  - simpl. constructor; [simpl; intros [H|[]]; discriminate|].
    constructor; [simpl; tauto | constructor].
  - left. reflexivity.
  - left. reflexivity.
  - left. reflexivity.
Defined.

(* ===================================================================== *)
(** ** Validation and the solver                                          *)
(* ===================================================================== *)

Lemma or_default_candidate_room inp s rid :
  In rid (or_default (allowed_room_ids s) (map room_id (rooms inp)))
  <-> candidate_room inp s rid.
Proof.
  unfold or_default, candidate_room.
  destruct (allowed_room_ids s) as [[|x r]|]; reflexivity.
Qed.

Lemma validate_section_rooms_issue inp s i :
  In i (validate_section inp s) /\ issue_type i = no_valid_rooms
  <-> i = rooms_issue s
      /\ forall r, In r (rooms inp) -> candidate_room inp s (room_id r) ->
                   capacity r < expected_enrollment s.
Proof.
  unfold validate_section.
  set (f := fun r => mem (room_id r)
                       (or_default (allowed_room_ids s) (map room_id (rooms inp)))
                     && (capacity r >=? expected_enrollment s)).
  assert (Hf : filter f (rooms inp) = [] <->
               forall r, In r (rooms inp) -> candidate_room inp s (room_id r) ->
                         capacity r < expected_enrollment s).
  { split.
    - intros E r Hr Hc.
      destruct (Z_lt_ge_dec (capacity r) (expected_enrollment s)) as [H|H]; [assumption|].
      assert (Hin : In r (filter f (rooms inp))).
      { apply filter_In. split; [assumption|]. unfold f. apply andb_true_iff. split.
        - apply mem_In. now apply or_default_candidate_room.
        - apply Z.geb_le. lia. }
      rewrite E in Hin. contradiction.
    - intros H. destruct (filter f (rooms inp)) as [|r l] eqn:E; [reflexivity|exfalso].
      assert (Hin : In r (filter f (rooms inp))) by (rewrite E; now left).
      apply filter_In in Hin. destruct Hin as [Hr Hfr]. unfold f in Hfr.
      apply andb_true_iff in Hfr. destruct Hfr as [Hm Hc].
      apply mem_In, or_default_candidate_room in Hm. apply Z.geb_le in Hc.
      specialize (H r Hr Hm). lia. }
  split.
  - intros [Hin Ht]. apply in_app_or in Hin. destruct Hin as [Hin|Hin].
    + destruct (filter f (rooms inp)) eqn:E; [|contradiction].
      destruct Hin as [<-|[]]. split; [reflexivity | now apply Hf].
    + destruct (or_default (allowed_meeting_pattern_ids s) _); [|contradiction].
      destruct Hin as [<-|[]]. discriminate.
  - intros [-> H]. apply Hf in H. rewrite H. split; [now left | reflexivity].
Qed.

(** X14. [validate_input] reports a [no_valid_rooms] issue for a section
    exactly when every room of the input that the section may take (its
    allowed rooms when the set is given and not empty, every room otherwise)
    has fewer seats than the expected enrollment. *)
Theorem validate_input_reports_rooms (inp : SolverInput) (i : Issue) :
  In i (issues (validate_input inp)) /\ issue_type i = no_valid_rooms
  <-> exists s,
      In s (sections inp) /\ i = rooms_issue s
      /\ forall r, In r (rooms inp) -> candidate_room inp s (room_id r) ->
                   capacity r < expected_enrollment s.
Proof.
  cbn [validate_input issues]. rewrite in_flat_map. split.
  - intros [[s [Hs Hi]] Ht]. exists s. split; [assumption|].
    apply validate_section_rooms_issue. auto.
  - intros [s [Hs H]]. apply validate_section_rooms_issue in H.
    destruct H as [Hi Ht]. split; [exists s; auto | assumption].
Qed.

(** A section for which validation reports [no_valid_rooms] is given no room
    by a feasible solution: the variable of every room it may take among the
    rooms of the input is forced to 0. *)
Lemma no_valid_rooms_no_room (inp : SolverInput) (st : CPSATSolver)
    (pens : list LinearExpr) (sol : Solution) (s : Section) :
  build_model inp = Ok (st, pens) -> feasible (model st) sol ->
  NoDup (map sec_id (sections inp)) -> In s (sections inp) ->
  In (rooms_issue s) (validate_section inp s) ->
  chosen_room inp st sol s = None
  /\ is_assigned (extract_section inp st sol s) = false.
Proof.
  intros Hb Hf Hnd Hs Hi.
  assert (Hv : forall r, In r (rooms inp) -> candidate_room inp s (room_id r) ->
                         capacity r < expected_enrollment s).
  { apply (validate_section_rooms_issue inp s (rooms_issue s)). split; [assumption|reflexivity]. }
  assert (Hn : first_chosen sol (section_room_vars st) (sec_id s) (map room_id (rooms inp))
               = None).
  { destruct (first_chosen sol (section_room_vars st) (sec_id s) (map room_id (rooms inp)))
      as [rid|] eqn:Er; [exfalso|reflexivity].
    apply first_chosen_Some in Er. destruct Er as [Hin [v [Hg Hone]]].
    apply in_map_iff in Hin. destruct Hin as [r [<- Hr]].
    destruct (@created_room_var inp st pens s (room_id r) v Hb Hnd Hs Hg) as [Hc _].
    specialize (Hv r Hr Hc).
    destruct (build_model_contents _ Hb) as [_ [Er [_ [_ Hcs]]]].
    assert (Hin : In (LinEq (lvar v) (lconst 0)) (constraints (model st))).
    { apply Hcs. right. left. rewrite <- Er.
      now apply room_capacity_constraints_In with (s := s) (r := r). }
    destruct Hf as [_ Hh]. specialize (Hh _ Hin). cbn [holds] in Hh.
    rewrite eval_lvar, eval_lconst in Hh. lia. }
  split.
  - unfold chosen_room, extract_section. cbn [a_room_id]. exact Hn.
  - unfold extract_section. cbn [is_assigned]. rewrite Hn.
    now destruct (first_chosen sol (section_pattern_vars st) (sec_id s) _).
Qed.

(* ===================================================================== *)
(** ** Section preferences                                                *)
(* ===================================================================== *)

Lemma section_penalty_term base vars sid (prefs : dict UUID PreferenceLevel) t :
  In t (flat_map
          (fun kv : UUID * PreferenceLevel =>
             match get2 (sid, fst kv) vars with
             | None => []
             | Some v =>
                 let penalty_value := section_penalty_value base (snd kv) in
                 if penalty_value =? 0 then [] else [lmul v penalty_value]
             end)
          prefs)
  <-> exists id level v,
      In (id, level) prefs /\ get2 (sid, id) vars = Some v /\ base <> 0
      /\ ((level = DISCOURAGED /\ t = lmul v base)
          \/ (level = PREFERRED /\ t = lmul v (- base))).
Proof.
  rewrite in_flat_map. split.
  - intros [[id level] [Hin Ht]]. cbn [fst snd] in Ht.
    destruct (get2 (sid, id) vars) as [v|] eqn:Eg; [|contradiction].
    cbv zeta in Ht.
    destruct (section_penalty_value base level =? 0) eqn:Ez; [contradiction|].
    apply Z.eqb_neq in Ez. destruct Ht as [<-|[]].
    exists id, level, v. split; [assumption|]. split; [exact Eg|].
    destruct level; cbn [section_penalty_value] in *; try congruence.
    + split; [assumption | left; auto].
    + split; [lia | right; auto].
  - intros [id [level [v [Hin [Hg [Hb Hl]]]]]]. exists (id, level). split; [assumption|].
    cbn [fst snd]. rewrite Hg. cbv zeta.
    destruct Hl as [[-> ->]|[-> ->]]; cbn [section_penalty_value].
    + destruct (base =? 0) eqn:E; [apply Z.eqb_eq in E; contradiction | now left].
    + destruct (- base =? 0) eqn:E; [apply Z.eqb_eq in E; lia | now left].
Qed.

Lemma section_penalties_origin base sects vars
    (all_prefs : dict UUID (dict UUID PreferenceLevel)) t :
  In t (flat_map
          (fun section =>
             match dict_get uuid_eqb (sec_id section) all_prefs with
             | None | Some [] => []
             | Some prefs =>
                 flat_map
                   (fun kv : UUID * PreferenceLevel =>
                      match get2 (sec_id section, fst kv) vars with
                      | None => []
                      | Some v =>
                          let penalty_value := section_penalty_value base (snd kv) in
                          if penalty_value =? 0 then [] else [lmul v penalty_value]
                      end)
                   prefs
             end)
          sects)
  <-> section_penalty_origin base sects vars all_prefs t.
Proof.
  rewrite in_flat_map. unfold section_penalty_origin. split.
  - intros [s [Hs Ht]].
    destruct (dict_get uuid_eqb (sec_id s) all_prefs) as [[|kv prefs]|] eqn:Ed;
      try contradiction.
    apply section_penalty_term in Ht. destruct Ht as [id [level [v H]]].
    exists s, (kv :: prefs), id, level, v. tauto.
  - intros [s [prefs [id [level [v [Hs [Hd [Hin H]]]]]]]]. exists s. split; [assumption|].
    rewrite Hd. destruct prefs as [|kv prefs]; [contradiction|].
    apply section_penalty_term. exists id, level, v. tauto.
Qed.

(** X16. The terms that the two section-preference generators return are
    exactly [var * w] for a [DISCOURAGED] entry and [var * (-w)] for a
    [PREFERRED] entry of the preferences of a section of the list, where the
    section and the entry's id have a variable and the weight [w] is not
    zero.  Entries of the levels [PROHIBITED], [REQUIRED] and [NEUTRAL] give
    no term. *)
Theorem section_preference_penalties_spec (m : CpModel) (sects : list Section)
    (mps : list MeetingPattern) (rms : list Room) (sp_vars sr_vars : dict Key2 IntVar)
    (time_prefs room_prefs : dict UUID (dict UUID PreferenceLevel))
    (weights : list (string * Q)) (t : LinearExpr) :
  (In t (add_time_preference_penalties m sects mps sp_vars time_prefs weights)
   <-> section_penalty_origin (weight_of weights "section_time_preference" 5)
         sects sp_vars time_prefs t)
  /\ (In t (add_room_preference_penalties m sects rms sr_vars room_prefs weights)
      <-> section_penalty_origin (weight_of weights "section_room_preference" 5)
            sects sr_vars room_prefs t).
Proof.
  split; [unfold add_time_preference_penalties | unfold add_room_preference_penalties];
    apply section_penalties_origin.
Qed.

(* ===================================================================== *)
(** ** Cross-listed sections and the room conflicts                       *)
(* ===================================================================== *)

Lemma candidate_has_pattern_var inp st pens s pid :
  build_model inp = Ok (st, pens) ->
  NoDup (map sec_id (sections inp)) -> In s (sections inp) ->
  candidate_pattern inp s pid ->
  exists v, get2 (sec_id s, pid) (section_pattern_vars st) = Some v.
Proof.
  intros Hb Hnd Hs Hc. destruct (build_model_contents _ Hb) as [Hp _]. rewrite Hp.
  destruct (create_variables_pattern_table inp (sections inp) init_solver s Hnd Hs
              (fun _ => eq_refl) pid) as [H _].
  destruct (H Hc) as [v [Hv _]]. exists v. exact Hv.
Qed.

Lemma candidate_has_room_var inp st pens s rid :
  build_model inp = Ok (st, pens) ->
  NoDup (map sec_id (sections inp)) -> In s (sections inp) ->
  candidate_room inp s rid ->
  exists v, get2 (sec_id s, rid) (section_room_vars st) = Some v.
Proof.
  intros Hb Hnd Hs Hc. destruct (build_model_contents _ Hb) as [_ [Hr _]]. rewrite Hr.
  destruct (create_variables_room_table inp (sections inp) init_solver s Hnd Hs
              (fun _ => eq_refl) rid) as [H _].
  destruct (H Hc) as [v [Hv _]]. exists v. exact Hv.
Qed.

Lemma some_pattern_chosen inp st pens sol s pid x :
  build_model inp = Ok (st, pens) -> feasible (model st) sol -> In s (sections inp) ->
  In pid (map mp_id (meeting_patterns inp)) ->
  get2 (sec_id s, pid) (section_pattern_vars st) = Some x ->
  exists cp, chosen_pattern inp st sol s = Some cp.
Proof.
  intros Hb Hf Hs Hin Hx.
  destruct (build_model_contents _ Hb) as [Hp [_ [_ [_ Hc]]]].
  set (vs := lookup_all (section_pattern_vars st)
               (map (fun i => (sec_id s, i)) (map mp_id (meeting_patterns inp)))).
  assert (Hne : vs <> []).
  { intros E0. assert (Hv : In x vs); [|rewrite E0 in Hv; contradiction].
    apply lookup_all_In. exists (sec_id s, pid). split; [|assumption].
    apply in_map_iff. eauto. }
  assert (Hex : In (ExactlyOne vs) (constraints (model st))).
  { apply Hc. left. apply in_flat_map. exists s. split; [assumption|].
    unfold vs in *. rewrite Hp in *. now apply exactly_one_pattern_In. }
  pose proof Hf as [_ Hh]. specialize (Hh _ Hex). cbn [holds] in Hh.
  destruct (exactly_one_chosen sol (section_pattern_vars st) (sec_id s)
              (map mp_id (meeting_patterns inp)) eq_refl) as [c [v [H1 _]]].
  - intros w Hw. apply lookup_all_In in Hw. destruct Hw as [k [_ Hk]].
    eapply pattern_values_boolean; eauto.
  - exact Hh.
  - exists c. exact H1.
Qed.

Lemma some_room_chosen inp st pens sol s rid y :
  build_model inp = Ok (st, pens) -> feasible (model st) sol -> In s (sections inp) ->
  In rid (map room_id (rooms inp)) ->
  get2 (sec_id s, rid) (section_room_vars st) = Some y ->
  exists cr, chosen_room inp st sol s = Some cr.
Proof.
  intros Hb Hf Hs Hin Hy.
  destruct (build_model_contents _ Hb) as [_ [Hr [_ [_ Hc]]]].
  set (vs := lookup_all (section_room_vars st)
               (map (fun i => (sec_id s, i)) (map room_id (rooms inp)))).
  assert (Hne : vs <> []).
  { intros E0. assert (Hv : In y vs); [|rewrite E0 in Hv; contradiction].
    apply lookup_all_In. exists (sec_id s, rid). split; [|assumption].
    apply in_map_iff. eauto. }
  assert (Hex : In (ExactlyOne vs) (constraints (model st))).
  { apply Hc. left. apply in_flat_map. exists s. split; [assumption|].
    unfold vs in *. rewrite Hr in *. now apply exactly_one_room_In. }
  pose proof Hf as [_ Hh]. specialize (Hh _ Hex). cbn [holds] in Hh.
  destruct (exactly_one_chosen sol (section_room_vars st) (sec_id s)
              (map room_id (rooms inp)) eq_refl) as [c [v [H1 _]]].
  - intros w Hw. apply lookup_all_In in Hw. destruct Hw as [k [_ Hk]].
    eapply room_values_boolean; eauto.
  - exact Hh.
  - exists c. exact H1.
Qed.

(** X17. The cross-list generator makes the other section of a group follow
    the anchor on every pattern and room both may take, and the room-conflict
    generator forbids two sections in one room on one pattern.  So, in an
    input whose section ids are distinct, when every candidate pattern and
    room of the anchor is a candidate of another section of its group, and
    the anchor has a candidate among the patterns and among the rooms of the
    input, the model that was built has no solution at all. *)
Theorem cross_list_with_room_conflicts_infeasible (inp : SolverInput) (st : CPSATSolver)
    (pens : list LinearExpr) (anchor other : Section) :
  build_model inp = Ok (st, pens) ->
  NoDup (map sec_id (sections inp)) ->
  cross_list_pair inp anchor other -> anchor <> other ->
  (forall pid, candidate_pattern inp anchor pid -> candidate_pattern inp other pid) ->
  (forall rid, candidate_room inp anchor rid -> candidate_room inp other rid) ->
  (exists pid, In pid (map mp_id (meeting_patterns inp)) /\ candidate_pattern inp anchor pid) ->
  (exists rid, In rid (map room_id (rooms inp)) /\ candidate_room inp anchor rid) ->
  forall sol, ~ feasible (model st) sol.
Proof.
  intros Hb Hnd Hpair Hne HP HR [pid [Hpin Hpc]] [rid [Hrin Hrc]] sol Hf.
  assert (Hsec : In anchor (sections inp) /\ In other (sections inp)).
  { destruct Hpair as [kv [others [Hkv [Hg Ho]]]]. split.
    - assert (Hin : In anchor (snd kv)) by (rewrite Hg; now left).
      now destruct (group_sections_In _ _ _ _ Hkv Hin).
    - assert (Hin : In other (snd kv)) by (rewrite Hg; now right).
      now destruct (group_sections_In _ _ _ _ Hkv Hin). }
  destruct Hsec as [Ha Ho].
  destruct (@candidate_has_pattern_var inp st pens anchor pid Hb Hnd Ha Hpc) as [x Hx].
  destruct (@candidate_has_room_var inp st pens anchor rid Hb Hnd Ha Hrc) as [y Hy].
  destruct (@some_pattern_chosen inp st pens sol anchor pid x Hb Hf Ha Hpin Hx) as [cp Hcp].
  destruct (@some_room_chosen inp st pens sol anchor rid y Hb Hf Ha Hrin Hy) as [cr Hcr].
  assert (Hcpc : candidate_pattern inp anchor cp).
  { pose proof Hcp as H. unfold chosen_pattern, extract_section in H. simpl in H.
    apply first_chosen_Some in H. destruct H as [_ [v [Hv _]]].
    now destruct (@created_pattern_var inp st pens anchor cp v Hb Hnd Ha Hv). }
  assert (Hcrc : candidate_room inp anchor cr).
  { pose proof Hcr as H. unfold chosen_room, extract_section in H. simpl in H.
    apply first_chosen_Some in H. destruct H as [_ [v [Hv _]]].
    now destruct (@created_room_var inp st pens anchor cr v Hb Hnd Ha Hv). }
  destruct (@candidate_has_pattern_var inp st pens other cp Hb Hnd Ho (HP _ Hcpc))
    as [ox Hox].
  destruct (@candidate_has_room_var inp st pens other cr Hb Hnd Ho (HR _ Hcrc))
    as [oy Hoy].
  destruct (@cross_list_agree_on_common inp st pens sol anchor other Hb Hf Hpair)
    as [Hsame_p Hsame_r].
  pose proof (Hsame_p cp ox Hcp Hox) as Hop.
  pose proof (Hsame_r cr oy Hcr Hoy) as Hor.
  apply (@room_pattern_not_shared inp st pens sol anchor other cr cp cp Hb Hf Hnd Ha Ho Hne
           Hcr Hor Hcp Hop).
  reflexivity.
Qed.

Lemma cross_list_with_room_conflicts_infeasible_witness :
  exists st pens,
    build_model plain_cross_list_input = Ok (st, pens)
    /\ forall sol, ~ feasible (model st) sol.
Proof.
  destruct (build_model plain_cross_list_input) as [[st pens]|e] eqn:Hb;
    [|vm_compute in Hb; discriminate].
  exists st, pens. split; [reflexivity|].
  apply (@cross_list_with_room_conflicts_infeasible plain_cross_list_input st pens
           (with_cross_list (section 20%N 25) 70%N)
           (with_cross_list (section 21%N 20) 70%N) Hb).
  - simpl. constructor; [simpl; intros [H|[]]; discriminate|].
    constructor; [simpl; tauto | constructor].
  - exists (70%N, [with_cross_list (section 20%N 25) 70%N;
                   with_cross_list (section 21%N 20) 70%N]),
           [with_cross_list (section 21%N 20) 70%N].
    split; [left; reflexivity|]. split; [reflexivity | left; reflexivity].
  - discriminate.
  - intros pid H. exact H.
  - intros rid H. exact H.
  - exists 1%N. split; [left; reflexivity | left; reflexivity].
  - exists 10%N. split; [left; reflexivity | left; reflexivity].
Defined.

(* ===================================================================== *)
(** ** Validation and feasibility                                         *)
(* ===================================================================== *)

(** X15. In an input whose section ids are distinct, when validation reports
    [no_valid_rooms] for a section that may take some room of the input, the
    model that was built has no solution: the section must take exactly one
    of its rooms and every one of them is forced to 0 for lack of seats.  When
    the section may take no room of the input, a feasible solution leaves it
    without room and it is extracted as unassigned. *)
Theorem no_valid_rooms_is_infeasible (inp : SolverInput) (st : CPSATSolver)
    (pens : list LinearExpr) (s : Section) :
  build_model inp = Ok (st, pens) ->
  NoDup (map sec_id (sections inp)) -> In s (sections inp) ->
  In (rooms_issue s) (validate_section inp s) ->
  ((exists r, In r (rooms inp) /\ candidate_room inp s (room_id r)) ->
   forall sol, ~ feasible (model st) sol)
  /\ (forall sol, feasible (model st) sol ->
                  chosen_room inp st sol s = None
                  /\ is_assigned (extract_section inp st sol s) = false).
Proof.
  intros Hb Hnd Hs Hi. split.
  - intros [r [Hr Hc]] sol Hf.
    destruct (@candidate_has_room_var inp st pens s (room_id r) Hb Hnd Hs Hc) as [y Hy].
    destruct (@some_room_chosen inp st pens sol s (room_id r) y Hb Hf Hs
                (in_map room_id _ _ Hr) Hy) as [cr Hcr].
    destruct (@no_valid_rooms_no_room inp st pens sol s Hb Hf Hnd Hs Hi) as [Hn _].
    congruence.
  - intros sol Hf. apply (@no_valid_rooms_no_room inp st pens sol s Hb Hf Hnd Hs Hi).
Qed.

Lemma no_valid_rooms_is_infeasible_witness :
  exists st pens,
    build_model oversized_input = Ok (st, pens)
    /\ validate_section oversized_input (section 20%N 40)
       = [rooms_issue (section 20%N 40)]
    /\ forall sol, ~ feasible (model st) sol.
Proof.
  destruct (build_model oversized_input) as [[st pens]|e] eqn:Hb;
    [|vm_compute in Hb; discriminate].
  exists st, pens. split; [reflexivity|]. split; [reflexivity|].
  apply (@no_valid_rooms_is_infeasible oversized_input st pens (section 20%N 40) Hb).
  - simpl. constructor; [simpl; tauto | constructor].
  - left. reflexivity.
  - left. reflexivity.
  - exists (room 10%N 30). split; [left; reflexivity | left; reflexivity].
Defined.

(** The outcome of building at an input with a clash: instructor 100 may
    teach both sections and the first two patterns overlap. *)
Example build_model_shared_instructor_raises :
  build_model shared_instructor_input = Raise NotImplementedError.
Proof. vm_compute. reflexivity. Qed.
